(** * stock_predict: the chart windowing, gesture, composition, ranking and
      analysis logic of the React front end

    The development embeds the functions of [components/StockNews.tsx] (the
    component with the prediction overlay) and of [App.tsx] and proves the
    properties their specification states about them.

    Conventions of the embedding:
    - a JavaScript [number] is an IEEE 754 binary64 value, here Rocq's
      primitive [float]; comparisons are the IEEE ones ([NaN] compares false);
    - a value of type [T | null] is an [option T];
    - a React state slot is a field of the record [StockNews.State]; an event
      handler is a function from the committed state to the next one (a render
      commits between two events, so a handler reads the state its predecessor
      wrote);
    - a call that may throw returns an [option], [None] standing for the
      exception;
    - the built-ins of [Date] and the [date-fns] formatter are a type class,
      [DateLibrary]: the results hold for every time zone and every parser. *)

From Stdlib Require Import List ZArith Bool String Ascii Floats Lia.
From Stdlib Require Import Sorted Permutation.
Import ListNotations.

(* ================================================================== *)
(** ** JavaScript numbers *)

Module JS.

Definition number : Set := float.

Bind Scope float_scope with number.

Local Open Scope float_scope.

(** [ToBoolean] on a number: [+0], [-0] and [NaN] are falsy. *)
Definition truthy (x : number) : bool :=
  negb (x =? 0) && negb (is_nan x).

(** [ToBoolean] on a value of type [number | null]. *)
Definition truthy_or_null (v : option number) : bool :=
  match v with
  | None => false
  | Some x => truthy x
  end.

(** [Number.isFinite]. *)
Definition isFinite (x : number) : bool :=
  negb (is_nan x) && negb (is_infinity x).

Definition Math_abs (x : number) : number := abs x.

(** [Math.hypot] with two arguments, by the cases ECMAScript lists: an
    infinite argument gives [+Infinity], otherwise a [NaN] argument gives
    [NaN], otherwise two zeros give [+0]; the remaining case is
    "implementation-approximated" and is taken as the rounded square root
    of the rounded sum of squares. *)
Definition Math_hypot (x y : number) : number :=
  if is_infinity x || is_infinity y then infinity
  else if is_nan x || is_nan y then nan
  else if is_zero x && is_zero y then 0
  else sqrt (x * x + y * y).

(** [Math.sqrt] and [Math.pow(x, 2)]. *)
Definition Math_sqrt (x : number) : number := sqrt x.
Definition Math_pow2 (x : number) : number := x * x.

(** The number of a length. *)
Definition of_nat (n : nat) : number :=
  of_uint63 (Uint63.of_Z (Z.of_nat n)).

(** [array.every((x, index) => ...)]: the callback sees each element with
    its index, left to right, and the result is [true] on the empty
    array. *)
Fixpoint every_from {A : Type} (callback : A -> nat -> bool)
    (index : nat) (array : list A) : bool :=
  match array with
  | [] => true
  | x :: rest => callback x index && every_from callback (S index) rest
  end.

Definition every {A : Type} (callback : A -> nat -> bool) (array : list A)
    : bool :=
  every_from callback 0 array.

(** [array.reduce(f)] with no initial value: the first element seeds the
    accumulator and the empty array throws a [TypeError]. *)
Definition reduce {A : Type} (f : A -> A -> A) (array : list A) : option A :=
  match array with
  | [] => None
  | x :: rest => Some (fold_left f rest x)
  end.

(** [Array(n).fill(null).concat(xs)] on an array of numbers. *)
Definition nullsThen (n : nat) (xs : list number) : list (option number) :=
  repeat None n ++ map Some xs.

(** *** Dates

    A [Date] holds a time value, milliseconds since the epoch, or [NaN]
    for an invalid date: [option Z] here. What the engine parses, the local
    time zone behind [getFullYear] and [setFullYear], and the [date-fns]
    pattern ['MMM dd, yyyy'] are the library's; the development takes them
    as the operations of a class. *)
Class DateLibrary : Type := {
  (** the time value of [new Date(s)] *)
  Date_parse : string -> option Z;
  (** [d.getFullYear()] on a valid date *)
  Date_getFullYear : Z -> Z;
  (** the time value of [d] after [d.setFullYear(y)] *)
  Date_setFullYear : Z -> Z -> option Z;
  (** [format(d, 'MMM dd, yyyy')] on a valid date *)
  format_MMM_dd_yyyy : Z -> string
}.

Definition Date : Set := option Z.

(** [a >= b] on two [Date]s compares their time values; a [NaN] on either
    side compares false. *)
Definition Date_geb (a b : Date) : bool :=
  match a, b with
  | Some ta, Some tb => (tb <=? ta)%Z
  | _, _ => false
  end.

(** [format(d, 'MMM dd, yyyy')] of [date-fns] (version 2 and later, the
    versions that export [parseISO]): a [RangeError] on an invalid date. *)
Definition format {library : DateLibrary} (d : Date) : option string :=
  option_map format_MMM_dd_yyyy d.

(** [array.map(f)] where [f] may throw: the first exception escapes. *)
Fixpoint mapThrowing {A B : Type} (f : A -> option B) (array : list A)
    : option (list B) :=
  match array with
  | [] => Some []
  | x :: rest =>
      match f x with
      | None => None
      | Some y =>
          match mapThrowing f rest with
          | None => None
          | Some ys => Some (y :: ys)
          end
      end
  end.

(** *** Strings (over the ASCII range) *)

Definition upperChar (c : ascii) : ascii :=
  let n := nat_of_ascii c in
  if (97 <=? n)%nat && (n <=? 122)%nat then ascii_of_nat (n - 32) else c.

Fixpoint toUpperCase (s : string) : string :=
  match s with
  | EmptyString => EmptyString
  | String c rest => String (upperChar c) (toUpperCase rest)
  end.

(** [s.startsWith(q)]. *)
Definition startsWith (s q : string) : bool := String.prefix q s.

(** [s.includes(q)]. *)
Fixpoint includes (s q : string) : bool :=
  String.prefix q s ||
  match s with
  | EmptyString => false
  | String _ rest => includes rest q
  end.

(** [a || b] on strings: the empty string is falsy. *)
Definition orElse (a b : string) : string :=
  match a with
  | EmptyString => b
  | _ => a
  end.

(** *** [Array.prototype.sort]

    ECMAScript fixes the result for a consistent comparator (the stable
    sorted order) and leaves the sequence of comparator calls, and the
    result for an inconsistent comparator, to the engine. The model is a
    stable insertion sort: each element in turn, the pivot, moves left past
    the elements of the sorted prefix it goes before. The engines differ in
    the argument order of the call that decides it: V8's TimSort asks
    [comparefn(pivot, e) < 0], the older insertion sorts ask
    [comparefn(e, pivot) > 0]. *)
Inductive SortEngine : Set := PivotFirst | ElementFirst.

Definition goesBefore {A : Type} (engine : SortEngine)
    (comparefn : A -> A -> Z) (pivot e : A) : bool :=
  match engine with
  | PivotFirst => (comparefn pivot e <? 0)%Z
  | ElementFirst => (0 <? comparefn e pivot)%Z
  end.

(** The sorted prefix is held from its right end. *)
Fixpoint insertFromRight {A : Type} (before : A -> A -> bool) (pivot : A)
    (prefixRev : list A) : list A :=
  match prefixRev with
  | [] => [pivot]
  | e :: rest =>
      if before pivot e then e :: insertFromRight before pivot rest
      else pivot :: prefixRev
  end.

Definition Array_sort {A : Type} (engine : SortEngine)
    (comparefn : A -> A -> Z) (array : list A) : list A :=
  rev (fold_left
         (fun prefixRev pivot =>
            insertFromRight (goesBefore engine comparefn) pivot prefixRev)
         array []).

End JS.

(* ================================================================== *)
(** ** The StockNews component: state and gesture handlers *)

Module StockNews.

Import JS.
Local Open Scope float_scope.

(** [zoomLevel]: ['all' | '10y' | '5y' | '1y']. *)
Inductive ZoomLevel : Set := zoom_all | zoom_10y | zoom_5y | zoom_1y.

Record NewsItem : Set := {
  title : string;
  publisher : string;
  link : string;
  published_at : number;
  type : string;
  thumbnail : string
}.

Record StockHistoryData : Set := {
  date : string;
  open : number;
  high : number;
  low : number;
  close : number;
  volume : number;
  price : number
}.

Record PredictionData : Set := {
  dates : list string;
  predictions : list number;
  upper_bound : list number;
  lower_bound : list number;
  last_actual : number;
  last_actual_date : string
}.

(** The [useState] slots the data and gesture logic reads or writes (the
    slots that only fold or unfold panels are left out). *)
Record State : Set := {
  news : list NewsItem;
  loading : bool;
  error : option string;
  historyData : list StockHistoryData;
  zoomLevel : ZoomLevel;
  isLoading : bool;
  touchStartDistance : option number;
  isZooming : bool;
  predictionData : option PredictionData
}.

(** The setters [useState] returns. *)
Definition setNews (v : list NewsItem) (st : State) : State :=
  {| news := v; loading := loading st; error := error st;
     historyData := historyData st; zoomLevel := zoomLevel st;
     isLoading := isLoading st;
     touchStartDistance := touchStartDistance st;
     isZooming := isZooming st; predictionData := predictionData st |}.

Definition setLoading (v : bool) (st : State) : State :=
  {| news := news st; loading := v; error := error st;
     historyData := historyData st; zoomLevel := zoomLevel st;
     isLoading := isLoading st;
     touchStartDistance := touchStartDistance st;
     isZooming := isZooming st; predictionData := predictionData st |}.

Definition setError (v : option string) (st : State) : State :=
  {| news := news st; loading := loading st; error := v;
     historyData := historyData st; zoomLevel := zoomLevel st;
     isLoading := isLoading st;
     touchStartDistance := touchStartDistance st;
     isZooming := isZooming st; predictionData := predictionData st |}.

Definition setHistoryData (v : list StockHistoryData) (st : State) : State :=
  {| news := news st; loading := loading st; error := error st;
     historyData := v; zoomLevel := zoomLevel st;
     isLoading := isLoading st;
     touchStartDistance := touchStartDistance st;
     isZooming := isZooming st; predictionData := predictionData st |}.

(** [setZoomLevel(prev => ...)]: the functional form. *)
Definition setZoomLevel (f : ZoomLevel -> ZoomLevel) (st : State) : State :=
  {| news := news st; loading := loading st; error := error st;
     historyData := historyData st; zoomLevel := f (zoomLevel st);
     isLoading := isLoading st;
     touchStartDistance := touchStartDistance st;
     isZooming := isZooming st; predictionData := predictionData st |}.

Definition setIsLoading (v : bool) (st : State) : State :=
  {| news := news st; loading := loading st; error := error st;
     historyData := historyData st; zoomLevel := zoomLevel st;
     isLoading := v;
     touchStartDistance := touchStartDistance st;
     isZooming := isZooming st; predictionData := predictionData st |}.

Definition setTouchStartDistance (v : option number) (st : State) : State :=
  {| news := news st; loading := loading st; error := error st;
     historyData := historyData st; zoomLevel := zoomLevel st;
     isLoading := isLoading st;
     touchStartDistance := v;
     isZooming := isZooming st; predictionData := predictionData st |}.

Definition setIsZooming (v : bool) (st : State) : State :=
  {| news := news st; loading := loading st; error := error st;
     historyData := historyData st; zoomLevel := zoomLevel st;
     isLoading := isLoading st;
     touchStartDistance := touchStartDistance st;
     isZooming := v; predictionData := predictionData st |}.

Definition setPredictionData (v : option PredictionData) (st : State) : State :=
  {| news := news st; loading := loading st; error := error st;
     historyData := historyData st; zoomLevel := zoomLevel st;
     isLoading := isLoading st;
     touchStartDistance := touchStartDistance st;
     isZooming := isZooming st; predictionData := v |}.

(** *** Touch events *)

Record Touch : Set := { clientX : number; clientY : number }.

Record TouchEvent : Set := { touches : list Touch }.

(** The distance both handlers compute from [e.touches[0]] and
    [e.touches[1]]. *)
Definition touchDistance (t0 t1 : Touch) : number :=
  Math_hypot (clientX t0 - clientX t1) (clientY t0 - clientY t1).

Definition handleTouchStart (e : TouchEvent) (st : State) : State :=
  if (List.length (touches e) =? 2)%nat then
    match touches e with
    | [t0; t1] =>
        let distance := touchDistance t0 t1 in
        setIsZooming true (setTouchStartDistance (Some distance) st)
    | _ => st
    end
  else st.

Definition ZOOM_SENSITIVITY : number := 50.

(** Pinch in: one step toward the longer history. *)
Definition pinchIn (prev : ZoomLevel) : ZoomLevel :=
  match prev with
  | zoom_1y => zoom_5y
  | zoom_5y => zoom_10y
  | zoom_10y => zoom_all
  | _ => prev
  end.

(** Pinch out: one step toward the recent history. *)
Definition pinchOut (prev : ZoomLevel) : ZoomLevel :=
  match prev with
  | zoom_all => zoom_10y
  | zoom_10y => zoom_5y
  | zoom_5y => zoom_1y
  | _ => prev
  end.

(** A handler is a closure of the render that created it. What
    [handleTouchMove] reads, [isZooming] and [touchStartDistance], is the
    state of that render, [seen]; what it writes goes to the state the next
    render will show, [st], and [setZoomLevel(prev => ...)] steps the zoom
    level of that state. *)
Module Closure.

Definition handleTouchMove (seen : State) (e : TouchEvent) (st : State)
    : State :=
  if isZooming seen && (List.length (touches e) =? 2)%nat
     && truthy_or_null (touchStartDistance seen)
  then
    match touches e, touchStartDistance seen with
    | [t0; t1], Some startDistance =>
        let currentDistance := touchDistance t0 t1 in
        let zoomDelta := currentDistance - startDistance in
        if ZOOM_SENSITIVITY <? Math_abs zoomDelta then
          setTouchStartDistance (Some currentDistance)
            (setZoomLevel
               (if zoomDelta <? 0 then pinchIn else pinchOut) st)
        else st
    | _, _ => st
    end
  else st.

End Closure.

(** The handler of a component that has rendered since the last write: the
    state it reads is the state it writes. *)
Definition handleTouchMove (e : TouchEvent) (st : State) : State :=
  Closure.handleTouchMove st e st.

Definition handleTouchEnd (st : State) : State :=
  setTouchStartDistance None (setIsZooming false st).

(** The events of a gesture, and the run of the handlers over them when
    the component renders after each event, so that each handler reads what
    the one before has written. The runs that carry their renders, and the
    effect a render runs, are those of [Component] below. *)
Inductive GestureEvent : Set :=
| TouchStart (e : TouchEvent)
| TouchMove (e : TouchEvent)
| TouchEnd.

Definition handle (ev : GestureEvent) (st : State) : State :=
  match ev with
  | TouchStart e => handleTouchStart e st
  | TouchMove e => handleTouchMove e st
  | TouchEnd => handleTouchEnd st
  end.

Definition run (evs : list GestureEvent) (st : State) : State :=
  fold_left (fun s ev => handle ev s) evs st.

(** The zoom level after each event of a run, in order. *)
Fixpoint zoomTrace (evs : list GestureEvent) (st : State) : list ZoomLevel :=
  match evs with
  | [] => []
  | ev :: rest =>
      let st' := handle ev st in zoomLevel st' :: zoomTrace rest st'
  end.

(** The position of a zoom level on the scale from the whole history to
    the last year. *)
Definition zoomIndex (z : ZoomLevel) : Z :=
  match z with
  | zoom_all => 0
  | zoom_10y => 1
  | zoom_5y => 2
  | zoom_1y => 3
  end.

(** The number of steps between two zoom levels. *)
Definition zoomSteps (z z' : ZoomLevel) : Z :=
  Z.abs (zoomIndex z' - zoomIndex z).

(** *** The time window and the chart data *)

(** A dataset of the chart: its legend label, when it has one, and its
    values ([null] where the line has no point); the colours and dashes
    are left out. *)
Record Dataset : Set := {
  label : option string;
  data : list (option number)
}.

Record ChartData : Set := {
  labels : list string;
  datasets : list Dataset
}.

Section Windowing.

Context {library : DateLibrary}.

(** [new Date(item.date)]. *)
Definition newDate (s : string) : Date := Date_parse s.

(** The [switch] of [getFilteredHistoryData]: the cutoff date of a zoom
    level, [None] on the [default] branch, which returns the whole
    history. [now] and [cutoffDate] are the two clock readings
    [new Date()] the function takes. *)
Definition cutoffOf (now cutoffDate : Z) (z : ZoomLevel) : option Date :=
  match z with
  | zoom_1y => Some (Date_setFullYear cutoffDate (Date_getFullYear now - 1))
  | zoom_5y => Some (Date_setFullYear cutoffDate (Date_getFullYear now - 5))
  | zoom_10y => Some (Date_setFullYear cutoffDate (Date_getFullYear now - 10))
  | zoom_all => None
  end.

Definition getFilteredHistoryData (now cutoffDate : Z) (st : State)
    : list StockHistoryData :=
  if (List.length (historyData st) =? 0)%nat then []
  else
    match cutoffOf now cutoffDate (zoomLevel st) with
    | None => historyData st
    | Some cutoff =>
        filter (fun item => Date_geb (newDate (date item)) cutoff)
               (historyData st)
    end.

Definition getChartData (now cutoffDate : Z) (st : State)
    : option ChartData :=
  let filteredData := getFilteredHistoryData now cutoffDate st in
  let datasets0 :=
    [ {| label := Some "Historical Price"%string;
         data := map (fun item => Some (price item)) filteredData |} ] in
  let datasets1 :=
    match predictionData st with
    | Some p =>
        datasets0 ++
        [ {| label := Some "Predicted Price"%string;
             data := nullsThen (List.length filteredData) (predictions p) |};
          {| label := Some "Confidence Interval"%string;
             data := nullsThen (List.length filteredData) (upper_bound p) |};
          {| label := None;
             data := nullsThen (List.length filteredData) (lower_bound p) |} ]
    | None => datasets0
    end in
  match mapThrowing (fun item => format (newDate (date item)))
                    filteredData with
  | None => None
  | Some formatted =>
      Some {| labels :=
                formatted ++
                match predictionData st with
                | Some p => dates p
                | None => []
                end;
              datasets := datasets1 |}
  end.

End Windowing.

(** *** The analysis of a forecast *)

Inductive Sentiment : Set :=
  StronglyBullish | Bullish | Neutral | Bearish | StronglyBearish.

(** [predictions[predictions.length - 1]] is [undefined] on the empty array,
    and the arithmetic on it gives [NaN]. *)
Definition getMarketSentiment (predictions : list number) (lastPrice : number)
    : Sentiment :=
  let lastPrediction :=
    match nth_error predictions (List.length predictions - 1) with
    | Some x => x
    | None => nan
    end in
  let percentChange := ((lastPrediction - lastPrice) / lastPrice) * 100 in
  if 10 <? percentChange then StronglyBullish
  else if 5 <? percentChange then Bullish
  else if -5 <? percentChange then Neutral
  else if -10 <? percentChange then Bearish
  else StronglyBearish.

(** [Math.std], the population standard deviation the component adds to
    [Math]: both sums are [reduce] calls with no initial value. *)
Definition Math_std (array : list number) : option number :=
  let n := of_nat (List.length array) in
  match reduce PrimFloat.add array with
  | None => None
  | Some total =>
      let mean := total / n in
      match reduce PrimFloat.add
              (map (fun x => Math_pow2 (x - mean)) array) with
      | None => None
      | Some squares => Some (Math_sqrt (squares / n))
      end
  end.

Inductive Trend : Set := upward | downward | mixed.

Inductive Volatility : Set := High | ModerateToLow.

Record MarketFactors : Set := {
  trend : Trend;
  volatility : Volatility;
  confidence : number
}.

(** [predictions[index - 1]] compared with [price]; reading past the array
    gives [undefined], which compares false. *)
Definition notBelowPrevious (predictions : list number)
    (price : number) (index : nat) : bool :=
  (index =? 0)%nat ||
  match nth_error predictions (index - 1) with
  | Some previous => previous <=? price
  | None => false
  end.

Definition notAbovePrevious (predictions : list number)
    (price : number) (index : nat) : bool :=
  (index =? 0)%nat ||
  match nth_error predictions (index - 1) with
  | Some previous => price <=? previous
  | None => false
  end.

(** The [trend] constant of [getMarketFactors]. *)
Definition trendOf (predictions : list number) : Trend :=
  if every (notBelowPrevious predictions) predictions then upward
  else if every (notAbovePrevious predictions) predictions then downward
  else mixed.

Definition getMarketFactors (predictions : list number) (lastPrice : number)
    : option MarketFactors :=
  let trend := trendOf predictions in
  match Math_std predictions with
  | None => None
  | Some deviation =>
      let volatility := deviation / lastPrice * 100 in
      let isHighVolatility := 5 <? volatility in
      Some {| trend := trend;
              volatility := if isHighVolatility then High else ModerateToLow;
              confidence := 100 - volatility * 10 |}
  end.

(** *** The three fetches of a symbol

    Each [useEffect] runs an [async] function: its part before the first
    [await] (the guard on [symbol] and the first two setters) is one step,
    and what it writes once the request has settled is another; the steps
    of the three fetches interleave freely. *)

(** What a request settled to: an accepted response with its body, a
    response refused by the server (with [statusText] or the [detail] of
    its body), or an exception ([Some m] for an [Error] with message [m],
    [None] for any other thrown value). *)
Inductive Settled (Body : Type) : Type :=
| Accepted (body : Body)
| Refused (reason : string)
| Threw (err : option string).

Arguments Accepted {Body} body.
Arguments Refused {Body} reason.
Arguments Threw {Body} err.

(** [err instanceof Error ? err.message : fallback]. *)
Definition messageOf (err : option string) (fallback : string) : string :=
  match err with
  | Some message => message
  | None => fallback
  end.

Definition fetchNews_begin (symbol : string) (st : State) : State :=
  match symbol with
  | EmptyString => st
  | _ => setError None (setLoading true st)
  end.

(** The body carries [data.news], [None] when it is missing or falsy. *)
Definition fetchNews_settle (r : Settled (option (list NewsItem)))
    (st : State) : State :=
  let st1 :=
    match r with
    | Accepted (Some items) => setNews items st
    | Accepted None => setNews [] st
    | Refused statusText =>
        setError (Some (orElse statusText "Failed to fetch news")) st
    | Threw err =>
        setError (Some (messageOf err "Failed to fetch news")) st
    end in
  setLoading false st1.

Definition fetchHistoricalData_begin (symbol : string) (st : State) : State :=
  match symbol with
  | EmptyString => st
  | _ => setError None (setIsLoading true st)
  end.

(** The body carries [data.history] when it is an array, [None]
    otherwise. *)
Definition fetchHistoricalData_settle
    (r : Settled (option (list StockHistoryData))) (st : State) : State :=
  let st1 :=
    match r with
    | Accepted (Some history) => setHistoryData history st
    | Accepted None =>
        setError (Some "Invalid data format received"%string) st
    | Refused detail =>
        setError (Some (orElse detail "Failed to fetch historical data")) st
    | Threw err =>
        setError (Some (messageOf err "Failed to fetch historical data")) st
    end in
  setIsLoading false st1.

Definition fetchPredictions_begin (symbol : string) (st : State) : State :=
  match symbol with
  | EmptyString => st
  | _ => setError None (setIsLoading true st)
  end.

(** A failure of the prediction request is logged and writes nothing. *)
Definition fetchPredictions_settle (r : Settled PredictionData)
    (st : State) : State :=
  let st1 :=
    match r with
    | Accepted body => setPredictionData (Some body) st
    | Refused _ => st
    | Threw _ => st
    end in
  setIsLoading false st1.

Inductive Fetch : Set := News | History | Prediction.

(** The steps a fetch takes on the state. *)
Inductive fetch_step : Fetch -> State -> State -> Prop :=
| news_begin symbol st :
    fetch_step News st (fetchNews_begin symbol st)
| news_settle r st :
    fetch_step News st (fetchNews_settle r st)
| history_begin symbol st :
    fetch_step History st (fetchHistoricalData_begin symbol st)
| history_settle r st :
    fetch_step History st (fetchHistoricalData_settle r st)
| prediction_begin symbol st :
    fetch_step Prediction st (fetchPredictions_begin symbol st)
| prediction_settle r st :
    fetch_step Prediction st (fetchPredictions_settle r st).

(** The loading flag and the error slot each fetch writes. *)
Definition loadingFlag (k : Fetch) (st : State) : bool :=
  match k with
  | News => loading st
  | History => isLoading st
  | Prediction => isLoading st
  end.

Definition errorSlot (k : Fetch) (st : State) : option string :=
  match k with
  | News => error st
  | History => error st
  | Prediction => error st
  end.

End StockNews.

(* ================================================================== *)
(** ** The StockNews component between its renders

    React calls a handler with the state of the render that created it and
    queues what the handler writes; a later render shows the queued state
    and creates the handlers anew. After a render whose [zoomLevel] differs
    from the one of the render before, the effect on [[symbol, zoomLevel]]
    runs again and [fetchHistoricalData] starts a request. When the
    component renders between two events is the runtime's choice: a run
    carries its renders as events of their own. *)

Module Component.

Import JS StockNews.

Record Instance : Set := {
  (** the state of the last render, which its handlers read *)
  seen : State;
  (** the state written since, which the next render shows *)
  pending : State
}.

(** The component as a render leaves it when no effect runs. *)
Definition rendered (st : State) : Instance :=
  {| seen := st; pending := st |}.

Inductive Event : Set :=
| Handled (ev : GestureEvent)
| Rendered.

Definition handle (ev : GestureEvent) (c : Instance) : Instance :=
  {| seen := seen c;
     pending :=
       match ev with
       | TouchStart e => handleTouchStart e (pending c)
       | TouchMove e => Closure.handleTouchMove (seen c) e (pending c)
       | TouchEnd => handleTouchEnd (pending c)
       end |}.

(** The comparison of a dependency with its value at the render before. *)
Definition sameZoomLevel (a b : ZoomLevel) : bool :=
  (zoomIndex a =? zoomIndex b)%Z.

Definition render (symbol : string) (c : Instance) : Instance :=
  let st := pending c in
  {| seen := st;
     pending :=
       if sameZoomLevel (zoomLevel st) (zoomLevel (seen c)) then st
       else fetchHistoricalData_begin symbol st |}.

Definition step (symbol : string) (ev : Event) (c : Instance) : Instance :=
  match ev with
  | Handled g => handle g c
  | Rendered => render symbol c
  end.

Definition run (symbol : string) (evs : list Event) (c : Instance)
    : Instance :=
  fold_left (fun c ev => step symbol ev c) evs c.

End Component.

(* ================================================================== *)
(** ** The App component: ranking the suggestions *)

Module App.

Import JS.

Record StockSuggestion : Set := {
  symbol : string;
  name : string;
  exchange : string
}.

Record State : Set := {
  searchTerm : string;
  suggestions : list StockSuggestion;
  error : string;
  loading : bool
}.

Definition setSuggestions (v : list StockSuggestion) (st : State) : State :=
  {| searchTerm := searchTerm st; suggestions := v;
     error := error st; loading := loading st |}.

Definition setError (v : string) (st : State) : State :=
  {| searchTerm := searchTerm st; suggestions := suggestions st;
     error := v; loading := loading st |}.

Definition setLoading (v : bool) (st : State) : State :=
  {| searchTerm := searchTerm st; suggestions := suggestions st;
     error := error st; loading := v |}.

(** The comparator [fetchSuggestions] passes to [sort]. *)
Definition compareSuggestions (query : string) (a b : StockSuggestion) : Z :=
  if String.eqb (symbol a) (toUpperCase query) then -1
  else if String.eqb (symbol b) (toUpperCase query) then 1
  else
    let aStartsWith := startsWith (symbol a) (toUpperCase query) in
    let bStartsWith := startsWith (symbol b) (toUpperCase query) in
    if aStartsWith && negb bStartsWith then -1
    else if negb aStartsWith && bStartsWith then 1
    else
      let aContains := includes (symbol a) (toUpperCase query) in
      let bContains := includes (symbol b) (toUpperCase query) in
      if aContains && negb bContains then -1
      else if negb aContains && bContains then 1
      else 0.

(** What [axios.get] settled to: a body with its [error] and [suggestions]
    fields (each [None] when missing or falsy), or a rejection. *)
Inductive SearchResponse : Set :=
| Body (error : option string) (suggestions : option (list StockSuggestion))
| Failed.

(** [fetchSuggestions(query)] once the request has settled to [r]; with an
    empty query no request is made. *)
Definition fetchSuggestions (engine : SortEngine) (query : string)
    (r : SearchResponse) (st : State) : State :=
  match query with
  | EmptyString => setSuggestions [] st
  | _ =>
      let st1 := setError EmptyString (setLoading true st) in
      let st2 :=
        match r with
        | Body (Some message) _ =>
            setSuggestions [] (setError message st1)
        | Body None found =>
            let sortedSuggestions :=
              Array_sort engine (compareSuggestions query)
                match found with
                | Some items => items
                | None => []
                end in
            setSuggestions sortedSuggestions st1
        | Failed =>
            setSuggestions []
              (setError "Error fetching suggestions. Please try again." st1)
        end in
      setLoading false st2
  end.

Definition initialState : State :=
  {| searchTerm := EmptyString; suggestions := [];
     error := EmptyString; loading := false |}.

(** The ranker of the specification, [rank(results, query)]: the
    suggestions [fetchSuggestions] stores when the search answers
    [results]. *)
Definition rank (engine : SortEngine) (results : list StockSuggestion)
    (query : string) : list StockSuggestion :=
  suggestions
    (fetchSuggestions engine query (Body None (Some results)) initialState).

End App.

(* ================================================================== *)
(** ** A date library for the examples

    The [DateLibrary] of an engine whose local time zone is UTC, on the
    date-only ISO strings ([YYYY-MM-DD]) the history and prediction services
    send: ECMAScript reads them as midnight UTC. The concrete examples of the
    development run on it. *)

Module UtcDates.

Import JS.
Local Open Scope Z_scope.

Definition msPerDay : Z := 86400000.

(** Days since the epoch of a day of the proleptic Gregorian calendar; a day
    past the end of its month runs into the next one, as [MakeDay] does. *)
Definition daysFromCivil (y m d : Z) : Z :=
  let y' := if m <=? 2 then y - 1 else y in
  let era := y' / 400 in
  let yoe := y' - era * 400 in
  let mp := (m + 9) mod 12 in
  let doy := (153 * mp + 2) / 5 + d - 1 in
  let doe := yoe * 365 + yoe / 4 - yoe / 100 + doy in
  era * 146097 + doe - 719468.

(** Year, month (1 to 12) and day of a day number. *)
Definition civilFromDays (days : Z) : Z * Z * Z :=
  let z := days + 719468 in
  let era := z / 146097 in
  let doe := z - era * 146097 in
  let yoe := (doe - doe / 1460 + doe / 36524 - doe / 146096) / 365 in
  let doy := doe - (365 * yoe + yoe / 4 - yoe / 100) in
  let mp := (5 * doy + 2) / 153 in
  let d := doy - (153 * mp + 2) / 5 + 1 in
  let m := if mp <? 10 then mp + 3 else mp - 9 in
  let y := yoe + era * 400 in
  (if m <=? 2 then y + 1 else y, m, d).

Definition digit (c : ascii) : option Z :=
  let n := Z.of_nat (nat_of_ascii c) in
  if (48 <=? n) && (n <=? 57) then Some (n - 48) else None.

Fixpoint digits (acc : Z) (cs : list ascii) : option Z :=
  match cs with
  | [] => Some acc
  | c :: rest =>
      match digit c with
      | Some d => digits (10 * acc + d) rest
      | None => None
      end
  end.

Definition isLeap (y : Z) : bool :=
  ((y mod 4 =? 0) && negb (y mod 100 =? 0)) || (y mod 400 =? 0).

Definition daysInMonth (y m : Z) : Z :=
  if m =? 2 then (if isLeap y then 29 else 28)
  else if (m =? 4) || (m =? 6) || (m =? 9) || (m =? 11) then 30
  else 31.

Definition parseIsoDate (s : string) : option Z :=
  match list_ascii_of_string s with
  | [y1; y2; y3; y4; "-"%char; m1; m2; "-"%char; d1; d2] =>
      match digits 0 [y1; y2; y3; y4], digits 0 [m1; m2], digits 0 [d1; d2] with
      | Some y, Some m, Some d =>
          if (1 <=? m) && (m <=? 12) && (1 <=? d) && (d <=? daysInMonth y m)
          then Some (daysFromCivil y m d * msPerDay)
          else None
      | _, _, _ => None
      end
  | _ => None
  end.

Definition getFullYear (t : Z) : Z :=
  let '(y, _, _) := civilFromDays (t / msPerDay) in y.

(** [TimeClip]: a time value out of the range of [Date] is [NaN]. *)
Definition timeClip (t : Z) : option Z :=
  if Z.abs t <=? 8640000000000000 then Some t else None.

Definition setFullYear (t y : Z) : option Z :=
  let '(_, m, d) := civilFromDays (t / msPerDay) in
  timeClip (daysFromCivil y m d * msPerDay + t mod msPerDay).

Definition digitChar (d : Z) : ascii := ascii_of_nat (48 + Z.to_nat d).

Definition monthName (m : Z) : string :=
  nth (Z.to_nat (m - 1))
    ["Jan"; "Feb"; "Mar"; "Apr"; "May"; "Jun";
     "Jul"; "Aug"; "Sep"; "Oct"; "Nov"; "Dec"]%string ""%string.

Definition formatDate (t : Z) : string :=
  let '(y, m, d) := civilFromDays (t / msPerDay) in
  (monthName m ++ " "
   ++ string_of_list_ascii [digitChar (d / 10); digitChar (d mod 10)]
   ++ ", "
   ++ string_of_list_ascii
        [digitChar (y / 1000 mod 10); digitChar (y / 100 mod 10);
         digitChar (y / 10 mod 10); digitChar (y mod 10)])%string.

#[export] Instance library : DateLibrary := {|
  Date_parse := parseIsoDate;
  Date_getFullYear := getFullYear;
  Date_setFullYear := setFullYear;
  format_MMM_dd_yyyy := formatDate
|}.

End UtcDates.

(* ================================================================== *)
(** ** The notions of the specification

    These definitions follow the words of the specification, not the code;
    the theorems below compare the code with them. *)

Module Spec.

Import JS StockNews.

(** [out] is a subsequence of [s]: some elements dropped, the order of the
    others kept. *)
Inductive Subsequence {A : Type} : list A -> list A -> Prop :=
| subsequence_nil : Subsequence [] []
| subsequence_drop x out s : Subsequence out s -> Subsequence out (x :: s)
| subsequence_keep x out s :
    Subsequence out s -> Subsequence (x :: out) (x :: s).

Section Window.

Context {library : DateLibrary}.

(** The span of a window selector in years; none for the whole
    history. *)
Definition windowYears (selector : ZoomLevel) : option Z :=
  match selector with
  | zoom_all => None
  | zoom_10y => Some 10%Z
  | zoom_5y => Some 5%Z
  | zoom_1y => Some 1%Z
  end.

(** A civil time: the fields of an instant on the calendar of the local
    time zone, the time of day in milliseconds. *)
Record CivilTime : Set := {
  civilYear : Z;
  civilMonth : Z;
  civilDay : Z;
  timeOfDay : Z
}.

(** The calendar the specification counts its years on: the civil time of
    an instant, and the instant of a civil time, none when it lies out of the
    range of [Date]. *)
Class Calendar : Type := {
  civilOf : Z -> CivilTime;
  instantOf : CivilTime -> Date
}.

Context {calendar : Calendar}.

(** "now minus N calendar years": the month, the day and the time of day of
    [now], [n] years back. *)
Definition yearsBefore (n : Z) (now : Z) : Date :=
  let c := civilOf now in
  instantOf {| civilYear := civilYear c - n; civilMonth := civilMonth c;
               civilDay := civilDay c; timeOfDay := timeOfDay c |}.

(** "date >= cutoff": the date of the item is an instant not before the
    cutoff. *)
Definition onOrAfter (cutoff : Date) (item : StockHistoryData) : bool :=
  match Date_parse (date item), cutoff with
  | Some t, Some c => (t >=? c)%Z
  | _, _ => false
  end.

(** [filter(series, selector, now)]. *)
Definition filter_spec (series : list StockHistoryData)
    (selector : ZoomLevel) (now : Z) : list StockHistoryData :=
  match windowYears selector with
  | None => series
  | Some n => List.filter (onOrAfter (yearsBefore n now)) series
  end.

(** The date library reads and sets the year on that calendar, as
    ECMAScript defines [getFullYear] (the year of the local time) and
    [setFullYear] (the same month, day and time of day in the year
    given). *)
Definition onCalendar : Prop :=
  (forall t, Date_getFullYear t = civilYear (civilOf t)) /\
  (forall t y,
     Date_setFullYear t y =
     instantOf {| civilYear := y; civilMonth := civilMonth (civilOf t);
                  civilDay := civilDay (civilOf t);
                  timeOfDay := timeOfDay (civilOf t) |}).

(** "Ordered ascending by date": the date of [a] is not after that of [b],
    both being valid. *)
Definition dateLe (a b : StockHistoryData) : Prop :=
  match Date_parse (date a), Date_parse (date b) with
  | Some ta, Some tb => (ta <= tb)%Z
  | _, _ => False
  end.

(** The date of a history point is a valid one. *)
Definition validDate (item : StockHistoryData) : Prop :=
  Date_parse (date item) <> None.

End Window.

(** The invariant of a prediction series: four parallel sequences. *)
Definition parallel (p : PredictionData) : Prop :=
  List.length (predictions p) = List.length (dates p) /\
  List.length (upper_bound p) = List.length (dates p) /\
  List.length (lower_bound p) = List.length (dates p).

(** A dataset of [total] values whose first [padding] ones are "no value"
    and whose others are [values]. *)
Definition paddedWith (padding total : nat) (values : list number)
    (d : Dataset) : Prop :=
  List.length (data d) = total /\
  firstn padding (data d) = repeat None padding /\
  skipn padding (data d) = map Some values.

(** "Non-decreasing end-to-end": no element below the one before it. *)
Definition nonDecreasing (l : list number) : Prop :=
  forall i a b,
    nth_error l i = Some a -> nth_error l (S i) = Some b ->
    (a <=? b)%float = true.

(** "Non-increasing end-to-end": no element above the one before it. *)
Definition nonIncreasing (l : list number) : Prop :=
  forall i a b,
    nth_error l i = Some a -> nth_error l (S i) = Some b ->
    (b <=? a)%float = true.

(** "Exact match": the symbol of a suggestion is the query in upper case. *)
Definition exactMatch (query : string) (x : App.StockSuggestion) : bool :=
  String.eqb (App.symbol x) (toUpperCase query).

(** The rank of a suggestion under the three rules: exact match, symbol
    starting with the query, symbol containing the query, anything else. *)
Definition rankClass (query : string) (x : App.StockSuggestion) : nat :=
  if exactMatch query x then 0
  else if startsWith (App.symbol x) (toUpperCase query) then 1
  else if includes (App.symbol x) (toUpperCase query) then 2
  else 3.

(** The items of a rank, in their order. *)
Definition ofRank (query : string) (k : nat) (l : list App.StockSuggestion)
    : list App.StockSuggestion :=
  filter (fun x => rankClass query x =? k)%nat l.

(** The number of exact matches of a list. *)
Definition exactMatches (query : string) (l : list App.StockSuggestion) : nat :=
  List.length (filter (exactMatch query) l).

(** [out] is [input] sorted by rank, stably: a permutation of it, in
    ascending rank, with the items of each rank in their input order. *)
Definition StablyRanked (query : string) (input out : list App.StockSuggestion)
    : Prop :=
  Permutation out input /\
  StronglySorted (fun a b => rankClass query a <= rankClass query b) out /\
  forall k, ofRank query k out = ofRank query k input.

End Spec.

(* ================================================================== *)
(** ** The calendar of the examples: the civil time of UTC *)

Module UtcCalendar.

Import Spec UtcDates.
Local Open Scope Z_scope.

Definition civilTime (t : Z) : CivilTime :=
  let '(y, m, d) := civilFromDays (t / msPerDay) in
  {| civilYear := y; civilMonth := m; civilDay := d;
     timeOfDay := t mod msPerDay |}.

Definition instant (c : CivilTime) : JS.Date :=
  timeClip (daysFromCivil (civilYear c) (civilMonth c) (civilDay c)
            * msPerDay + timeOfDay c).

#[export] Instance calendar : Calendar := {|
  civilOf := civilTime;
  instantOf := instant
|}.

End UtcCalendar.

(* ================================================================== *)
(** ** The invariant of the insertion sort *)

Module SortInvariant.

(** The last element of a list satisfies [P]. *)
Fixpoint lastSatisfies {A : Type} (P : A -> bool) (l : list A) : bool :=
  match l with
  | [] => false
  | x :: rest =>
      match rest with
      | [] => P x
      | _ :: _ => lastSatisfies P rest
      end
  end.

(** The sorted prefix, held from its right end: when one of its elements
    satisfies [P], its leftmost element does. *)
Definition leftmostFirst {A : Type} (P : A -> bool) (prefixRev : list A)
    : Prop :=
  existsb P prefixRev = true -> lastSatisfies P prefixRev = true.

(** Insertion by a key: the pivot goes before the elements of a greater
    key. *)
Definition keyBefore {A : Type} (key : A -> nat) (p e : A) : bool :=
  (key p <? key e)%nat.

End SortInvariant.

(* ================================================================== *)
(** ** Notions for the runs of the gesture handlers *)

Module GestureSpec.

Import JS StockNews.

(** The two gesture slots agree: a gesture is under way exactly when a
    reference distance is recorded. *)
Definition gestureConsistent (st : State) : Prop :=
  isZooming st = true <-> touchStartDistance st <> None.

(** The number of move events of a run. *)
Fixpoint countMoves (evs : list GestureEvent) : nat :=
  match evs with
  | [] => 0
  | TouchMove _ :: rest => S (countMoves rest)
  | _ :: rest => countMoves rest
  end.

(** An event that cannot engage a gesture: a render, a move, the end of a
    contact, or a start that does not have exactly two touches. *)
Definition cannotEngage (ev : Component.Event) : Prop :=
  match ev with
  | Component.Handled (TouchStart e) => List.length (touches e) <> 2
  | _ => True
  end.

(** Two states agree on what the gesture handlers read and write. *)
Definition sameGesture (st st' : State) : Prop :=
  zoomLevel st' = zoomLevel st /\ isZooming st' = isZooming st /\
  touchStartDistance st' = touchStartDistance st.

(** A run with a render after each event. *)
Definition renderedEach (evs : list GestureEvent) : list Component.Event :=
  flat_map (fun ev => [Component.Handled ev; Component.Rendered]) evs.

(** The slots that only the answers of the requests write. *)
Definition sameAnswers (st st' : State) : Prop :=
  news st' = news st /\ loading st' = loading st /\
  historyData st' = historyData st /\
  predictionData st' = predictionData st.

(** The two slots the start of a history request writes, as it leaves
    them. *)
Definition historyRequested (st : State) : Prop :=
  isLoading st = true /\ error st = None.

(** What a run has written through the effect: nothing when [isLoading] and
    [error] are as they were, the rendered zoom level being the same or the
    symbol empty; or else the start of a history request. *)
Definition throughEffect (symbol : string) (c c' : Component.Instance)
    : Prop :=
  sameAnswers (Component.pending c) (Component.pending c') /\
  ((isLoading (Component.pending c') = isLoading (Component.pending c) /\
    error (Component.pending c') = error (Component.pending c) /\
    (symbol = EmptyString \/
     zoomLevel (Component.seen c') = zoomLevel (Component.seen c))) \/
   (symbol <> EmptyString /\ historyRequested (Component.pending c'))).

End GestureSpec.

(* ================================================================== *)
(** ** The App component: the debounced search and the page

    The state of [App] beyond the four slots of [App.State]: the selected
    stock, the reference [debounceTimer], and what the runtime holds for the
    component, the timers set and not yet fired or cleared and the suggestion
    requests sent and not yet answered. A timer may fire at any point after
    it is set (the delay bounds the moment from below only), so what holds
    for every order of events holds for every timing. [requested] is the log
    of the queries sent to the search service. *)

Module Search.

Import JS.

Record StockData : Set := {
  symbol : string;
  name : string;
  price : number;
  change : number;
  volume : number;
  market_cap : number;
  currency : string
}.

(** A timer of [setTimeout]: its identifier, its delay and the value its
    callback [() => fetchSuggestions(value)] holds. *)
Record Timer : Set := {
  timerId : nat;
  delay : nat;
  query : string
}.

Record Page : Set := {
  app : App.State;
  selectedStock : option StockData;
  debounceTimer : option nat;
  timers : list Timer;
  nextTimerId : nat;
  inFlight : list string;
  requested : list string
}.

Definition onApp (f : App.State -> App.State) (pg : Page) : Page :=
  {| app := f (app pg); selectedStock := selectedStock pg;
     debounceTimer := debounceTimer pg; timers := timers pg;
     nextTimerId := nextTimerId pg; inFlight := inFlight pg;
     requested := requested pg |}.

Definition setSearchTerm (v : string) (st : App.State) : App.State :=
  {| App.searchTerm := v; App.suggestions := App.suggestions st;
     App.error := App.error st; App.loading := App.loading st |}.

Definition setSelectedStock (v : option StockData) (pg : Page) : Page :=
  {| app := app pg; selectedStock := v;
     debounceTimer := debounceTimer pg; timers := timers pg;
     nextTimerId := nextTimerId pg; inFlight := inFlight pg;
     requested := requested pg |}.

(** [clearTimeout(id)]: nothing happens when the timer has fired or was
    cleared already. *)
Definition clearTimeout (id : nat) (pg : Page) : Page :=
  {| app := app pg; selectedStock := selectedStock pg;
     debounceTimer := debounceTimer pg;
     timers := filter (fun t => negb (timerId t =? id)%nat) (timers pg);
     nextTimerId := nextTimerId pg; inFlight := inFlight pg;
     requested := requested pg |}.

(** [debounceTimer.current = setTimeout(() => fetchSuggestions(value), ms)]:
    a timer under a fresh identifier, which the reference keeps. *)
Definition setDebounceTimer (value : string) (ms : nat) (pg : Page) : Page :=
  {| app := app pg; selectedStock := selectedStock pg;
     debounceTimer := Some (nextTimerId pg);
     timers := timers pg ++
               [ {| timerId := nextTimerId pg; delay := ms; query := value |} ];
     nextTimerId := S (nextTimerId pg); inFlight := inFlight pg;
     requested := requested pg |}.

(** [if (debounceTimer.current) clearTimeout(debounceTimer.current)]; a
    timer identifier is never falsy. *)
Definition clearDebounceTimer (pg : Page) : Page :=
  match debounceTimer pg with
  | Some id => clearTimeout id pg
  | None => pg
  end.

Definition handleSearch (value : string) (pg : Page) : Page :=
  let pg1 := onApp (fun st => App.setError EmptyString (setSearchTerm value st))
                   pg in
  setDebounceTimer value 150 (clearDebounceTimer pg1).

Definition handleSearchChange (value : string) (pg : Page) : Page :=
  handleSearch value (onApp (setSearchTerm value) pg).

(** [fetchSuggestions(query)] up to its [await]: with an empty query the
    suggestions are cleared and nothing is sent. *)
Definition fetchSuggestions_begin (value : string) (pg : Page) : Page :=
  match value with
  | EmptyString => onApp (App.setSuggestions []) pg
  | _ =>
      let pg1 :=
        onApp (fun st => App.setError EmptyString (App.setLoading true st)) pg in
      {| app := app pg1; selectedStock := selectedStock pg1;
         debounceTimer := debounceTimer pg1; timers := timers pg1;
         nextTimerId := nextTimerId pg1;
         inFlight := inFlight pg1 ++ [value];
         requested := requested pg1 ++ [value] |}
  end.

(** [fetchSuggestions(query)] from its [await] on, the request settled to
    [r]. *)
Definition fetchSuggestions_settle (engine : SortEngine) (value : string)
    (r : App.SearchResponse) (st : App.State) : App.State :=
  let st2 :=
    match r with
    | App.Body (Some message) _ =>
        App.setSuggestions [] (App.setError message st)
    | App.Body None found =>
        let sortedSuggestions :=
          Array_sort engine (App.compareSuggestions value)
            match found with
            | Some items => items
            | None => []
            end in
        App.setSuggestions sortedSuggestions st
    | App.Failed =>
        App.setSuggestions []
          (App.setError "Error fetching suggestions. Please try again." st)
    end in
  App.setLoading false st2.

(** The runtime fires the timer [id], if it is still set. *)
Definition fireTimer (id : nat) (pg : Page) : Page :=
  match find (fun t => (timerId t =? id)%nat) (timers pg) with
  | Some t => fetchSuggestions_begin (query t) (clearTimeout id pg)
  | None => pg
  end.

Fixpoint removeNth {A : Type} (k : nat) (l : list A) : list A :=
  match l, k with
  | [], _ => []
  | _ :: rest, 0 => rest
  | x :: rest, S k' => x :: removeNth k' rest
  end.

(** The [k]-th request in flight settles to [r]. *)
Definition answerRequest (engine : SortEngine) (k : nat)
    (r : App.SearchResponse) (pg : Page) : Page :=
  match nth_error (inFlight pg) k with
  | Some value =>
      {| app := fetchSuggestions_settle engine value r (app pg);
         selectedStock := selectedStock pg;
         debounceTimer := debounceTimer pg; timers := timers pg;
         nextTimerId := nextTimerId pg;
         inFlight := removeNth k (inFlight pg);
         requested := requested pg |}
  | None => pg
  end.

(** [fetchStockData(symbol)] up to its [await], and once the request has
    settled, to the data of the stock or to a failure. *)
Definition fetchStockData_begin (pg : Page) : Page :=
  onApp (fun st => App.setError EmptyString (App.setLoading true st)) pg.

Definition fetchStockData_settle (r : option StockData) (pg : Page) : Page :=
  let pg1 :=
    match r with
    | Some stock =>
        onApp (fun st => setSearchTerm EmptyString (App.setSuggestions [] st))
              (setSelectedStock (Some stock) pg)
    | None =>
        onApp (App.setError "Error fetching stock data. Please try again.") pg
    end in
  onApp (App.setLoading false) pg1.

(** The cleanup of the component. *)
Definition unmount (pg : Page) : Page := clearDebounceTimer pg.

Inductive Event : Set :=
| Typed (value : string)
| Fired (id : nat)
| Answered (k : nat) (r : App.SearchResponse)
| Selected (symbol : string)
| StockAnswered (r : option StockData)
| Unmounted.

Definition step (engine : SortEngine) (ev : Event) (pg : Page) : Page :=
  match ev with
  | Typed value => handleSearchChange value pg
  | Fired id => fireTimer id pg
  | Answered k r => answerRequest engine k r pg
  | Selected _ => fetchStockData_begin pg
  | StockAnswered r => fetchStockData_settle r pg
  | Unmounted => unmount pg
  end.

Definition runEvents (engine : SortEngine) (evs : list Event) (pg : Page)
    : Page :=
  fold_left (fun p ev => step engine ev p) evs pg.

(** The page as mounted. *)
Definition mounted : Page :=
  {| app := App.initialState; selectedStock := None; debounceTimer := None;
     timers := []; nextTimerId := 1; inFlight := []; requested := [] |}.

(** At most one timer is set, and it is the one the reference holds. *)
Definition debounced (pg : Page) : Prop :=
  List.length (timers pg) <= 1 /\
  forall t, In t (timers pg) -> debounceTimer pg = Some (timerId t).

(** *** What the page shows *)

Record View : Set := {
  welcome : bool;
  spinner : bool;
  searchSection : bool;
  searchInput : bool;
  dropdown : bool;
  errorBanner : bool;
  stockNews : bool
}.

Definition isSome {A : Type} (o : option A) : bool :=
  match o with
  | Some _ => true
  | None => false
  end.

Definition nonEmpty {A : Type} (l : list A) : bool :=
  match l with
  | [] => false
  | _ :: _ => true
  end.

Definition nonEmptyString (s : string) : bool :=
  match s with
  | EmptyString => false
  | _ => true
  end.

(** The conditions of the [return] of [App]: the welcome card and the
    search section each hold a search input and the dropdown of the
    suggestions. *)
Definition render (pg : Page) : View :=
  let hasStock := isSome (selectedStock pg) in
  let loading := App.loading (app pg) in
  let showWelcome := negb hasStock && negb loading in
  {| welcome := showWelcome;
     spinner := loading;
     searchSection := hasStock;
     searchInput := showWelcome || hasStock;
     dropdown := (showWelcome || hasStock)
                 && nonEmpty (App.suggestions (app pg));
     errorBanner := nonEmptyString (App.error (app pg));
     stockNews := hasStock |}.

End Search.

(* ================================================================== *)
(** ** The StockNews component: what the panels show *)

Module Panels.

Import JS StockNews.

(** [ToBoolean] on a value of type [string | null]. *)
Definition truthyText (v : option string) : bool :=
  match v with
  | Some (String _ _) => true
  | _ => false
  end.

(** The four alternatives of the chart panel: the error text, the loading
    text, the chart, the text "No historical data available". *)
Record ChartPanel : Set := {
  errorText : option string;
  loadingText : bool;
  chart : bool;
  noData : bool
}.

Definition chartPanel (st : State) : ChartPanel :=
  {| errorText := if truthyText (error st) then error st else None;
     loadingText := isLoading st;
     chart := negb (truthyText (error st)) && negb (isLoading st)
              && (0 <? List.length (historyData st))%nat;
     noData := negb (truthyText (error st)) && negb (isLoading st)
               && (List.length (historyData st) =? 0)%nat |}.

(** [showAllNews ? news : news.slice(0, 3)]. *)
Definition displayedNews (showAllNews : bool) (news : list NewsItem)
    : list NewsItem :=
  if showAllNews then news else firstn 3 news.

(** The first version of the component offers the button "See More" / "Show
    Less" under the condition [news.length > 3]. *)
Definition showsToggle (news : list NewsItem) : bool :=
  (3 <? List.length news)%nat.

(** The three effects of a new symbol, in the order of the component. *)
Definition mountFetches (symbol : string) (st : State) : State :=
  fetchPredictions_begin symbol
    (fetchHistoricalData_begin symbol (fetchNews_begin symbol st)).

Section Ticks.

Context {library : DateLibrary}.

(** [format(d, 'MMM yyyy')] on a valid date, and the time value of
    [parseISO(s)], both of [date-fns]. *)
Variable format_MMM_yyyy : Z -> string.
Variable parseISO : string -> option Z.

(** The callback of the ticks of the x axis; [None] when [format] throws. *)
Definition xTick (index : nat) (st : State) : option string :=
  if (index <? List.length (historyData st))%nat then
    match nth_error (historyData st) index with
    | Some item => option_map format_MMM_yyyy (newDate (date item))
    | None => None
    end
  else
    match predictionData st with
    | Some p =>
        match nth_error (dates p) (index - List.length (historyData st)) with
        | Some (String c rest) =>
            option_map format_MMM_yyyy (parseISO (String c rest))
        | _ => Some EmptyString
        end
    | None => Some EmptyString
    end.

End Ticks.

End Panels.

(* ================================================================== *)
(** ** The tick formatter for the examples *)

Module UtcTicks.

Import UtcDates.
Local Open Scope Z_scope.

(** [format(d, 'MMM yyyy')] in the time zone UTC. *)
Definition formatMonth (t : Z) : string :=
  let '(y, m, d) := civilFromDays (t / msPerDay) in
  (monthName m ++ " "
   ++ string_of_list_ascii
        [digitChar (y / 1000 mod 10); digitChar (y / 100 mod 10);
         digitChar (y / 10 mod 10); digitChar (y mod 10)])%string.

(** [parseISO] on the date-only strings. *)
Definition parseISO (s : string) : option Z := parseIsoDate s.

End UtcTicks.

(* ================================================================== *)
(** ** Notions for the runs of the page *)

Module SearchSpec.

Import Search.

(** The values typed in a run of events. *)
Fixpoint typedValues (evs : list Event) : list string :=
  match evs with
  | [] => []
  | Typed value :: rest => value :: typedValues rest
  | _ :: rest => typedValues rest
  end.

(** Every timer set holds, and every query sent is, a value among
    [values], and no query sent is empty. *)
Definition fromValues (values : list string) (pg : Page) : Prop :=
  (forall t, In t (timers pg) -> In (query t) values) /\
  (forall q, In q (requested pg) -> In q values /\ q <> EmptyString).

End SearchSpec.

(* ================================================================== *)
(** ** Concrete states, events and data *)

Module Examples.

Import JS StockNews.
Local Open Scope float_scope.
Local Open Scope string_scope.

(** A freshly mounted component showing the whole history. *)
Definition idle : State :=
  {| news := []; loading := false; error := None; historyData := [];
     zoomLevel := zoom_all; isLoading := false;
     touchStartDistance := None; isZooming := false;
     predictionData := None |}.

(** Two fingers on a vertical line, [gap] apart. *)
Definition fingers (gap : number) : TouchEvent :=
  {| touches := [ {| clientX := 120; clientY := 300 |};
                  {| clientX := 120; clientY := 300 + gap |} ] |}.

(** Both fingers on one point. *)
Definition fingersTogether : TouchEvent := fingers 0.

(** A gesture under way with the fingers 100 apart. *)
Definition pinching : State := handleTouchStart (fingers 100) idle.

Definition day (d : string) (p : number) : StockHistoryData :=
  {| date := d; open := p; high := p; low := p; close := p;
     volume := 1000; price := p |}.

(** Four closing prices over eleven years. *)
Definition history : list StockHistoryData :=
  [ day "2014-03-03" 75; day "2019-08-01" 52;
    day "2024-01-15" 185; day "2024-01-16" 183 ].

(** A forecast of two days. *)
Definition forecast : PredictionData :=
  {| dates := ["2024-01-17"; "2024-01-18"];
     predictions := [184; 186];
     upper_bound := [190; 193];
     lower_bound := [178; 179];
     last_actual := 183;
     last_actual_date := "2024-01-16" |}.

(** The instant 2024-06-15T12:00:00Z. *)
Definition noon : Z := 1718452800000.

(** The component once the history and the forecast have arrived, on the
    whole history and on the last year. *)
Definition loaded : State :=
  setPredictionData (Some forecast) (setHistoryData history idle).

Definition loadedLastYear : State :=
  setZoomLevel (fun _ => zoom_1y) loaded.

(** The same with no forecast. *)
Definition loadedNoForecast : State := setHistoryData history idle.

(** The history request of a symbol under way. *)
Definition loadingHistory : State := fetchHistoricalData_begin "AAPL" idle.

(** Suggestions for the query ["aapl"]: two listings of the symbol itself,
    a symbol that starts with it and one that does not contain it. *)
Definition apple : App.StockSuggestion :=
  {| App.symbol := "AAPL"; App.name := "Apple Inc.";
     App.exchange := "NASDAQ" |}.

Definition appleCdr : App.StockSuggestion :=
  {| App.symbol := "AAPL"; App.name := "Apple Inc. CDR";
     App.exchange := "NEO" |}.

Definition appleWarrant : App.StockSuggestion :=
  {| App.symbol := "AAPLW"; App.name := "Apple Warrants";
     App.exchange := "OTC" |}.

Definition microsoft : App.StockSuggestion :=
  {| App.symbol := "MSFT"; App.name := "Microsoft Corporation";
     App.exchange := "NASDAQ" |}.

End Examples.

(* ================================================================== *)
(** ** Facts on binary64 numbers *)

Module NumberFacts.

Import JS.
Local Open Scope float_scope.

Lemma pos_compare_cont_refl (m : positive) :
  Pos.compare_cont Eq m m = Eq.
Proof. apply Pos.compare_cont_refl. Qed.

Lemma is_nan_spec (x : number) :
  is_nan x = match Prim2SF x with S754_nan => true | _ => false end.
Proof.
  unfold is_nan. rewrite eqb_spec.
  destruct (Prim2SF x) as [s | s | | s m e]; try (destruct s); try reflexivity;
    unfold SFeqb, SFcompare; rewrite Z.compare_refl;
    rewrite ?pos_compare_cont_refl; reflexivity.
Qed.

Lemma is_zero_spec (x : number) :
  is_zero x = match Prim2SF x with S754_zero _ => true | _ => false end.
Proof.
  unfold is_zero. rewrite eqb_spec.
  change (Prim2SF zero) with (S754_zero false).
  destruct (Prim2SF x) as [s | s | | s m e]; try (destruct s); reflexivity.
Qed.

Lemma eqb_zero_spec (x : number) :
  (x =? 0) = match Prim2SF x with S754_zero _ => true | _ => false end.
Proof. exact (is_zero_spec x). Qed.

Lemma is_infinity_spec (x : number) :
  is_infinity x = match Prim2SF x with S754_infinity _ => true | _ => false end.
Proof.
  unfold is_infinity. rewrite eqb_spec, abs_spec.
  change (Prim2SF infinity) with (S754_infinity false).
  destruct (Prim2SF x) as [s | s | | s m e]; try (destruct s); reflexivity.
Qed.

(** A number above zero is truthy. *)
Lemma positive_truthy (x : number) : (0 <? x) = true -> truthy x = true.
Proof.
  unfold truthy. rewrite ltb_spec, eqb_zero_spec, is_nan_spec.
  change (Prim2SF 0) with (S754_zero false).
  destruct (Prim2SF x) as [s | s | | s m e]; try (destruct s);
    cbn; congruence.
Qed.

(** [x - x] is [+0] on a finite [x] and [NaN] otherwise. *)
Lemma sub_diag_spec (x : number) :
  Prim2SF (x - x) =
  match Prim2SF x with
  | S754_zero _ | S754_finite _ _ _ => S754_zero false
  | _ => S754_nan
  end.
Proof.
  rewrite sub_spec. unfold SF64sub, SFsub.
  destruct (Prim2SF x) as [s | s | | s m e]; try (destruct s); try reflexivity;
    cbv zeta; rewrite Z.sub_diag; reflexivity.
Qed.

Lemma sub_diag_finite (x : number) : isFinite x = true -> x - x = 0.
Proof.
  unfold isFinite. rewrite is_nan_spec, is_infinity_spec. intros H.
  apply Prim2SF_inj. rewrite sub_diag_spec.
  change (Prim2SF 0) with (S754_zero false).
  destruct (Prim2SF x); try reflexivity; discriminate.
Qed.

(** The distance of a point to itself never exceeds a positive
    threshold. *)
Lemma abs_sub_diag_small (x : number) : (50 <? abs (x - x)) = false.
Proof.
  rewrite ltb_spec, abs_spec, sub_diag_spec.
  change (Prim2SF 50) with (S754_finite false 7036874417766400 (-47)).
  destruct (Prim2SF x); reflexivity.
Qed.

Lemma hypot_zero : Math_hypot 0 0 = 0.
Proof. reflexivity. Qed.

End NumberFacts.

(* ================================================================== *)
(** ** The pinch gesture *)

Module GestureFacts.

Import JS StockNews NumberFacts.
Local Open Scope float_scope.

Lemma zoomSteps_refl (z : ZoomLevel) : (zoomSteps z z <= 1)%Z.
Proof. destruct z; vm_compute; discriminate. Qed.

Lemma zoomSteps_pinchIn (z : ZoomLevel) : (zoomSteps z (pinchIn z) <= 1)%Z.
Proof. destruct z; vm_compute; discriminate. Qed.

Lemma zoomSteps_pinchOut (z : ZoomLevel) : (zoomSteps z (pinchOut z) <= 1)%Z.
Proof. destruct z; vm_compute; discriminate. Qed.

(** What a two-point move does when a truthy reference distance is set. *)
Lemma handleTouchMove_active (st : State) (e : TouchEvent) (t0 t1 : Touch)
    (d : number) :
  isZooming st = true ->
  touchStartDistance st = Some d ->
  truthy d = true ->
  touches e = [t0; t1] ->
  handleTouchMove e st =
  let c := touchDistance t0 t1 in
  if 50 <? abs (c - d) then
    setTouchStartDistance (Some c)
      (setZoomLevel (if c - d <? 0 then pinchIn else pinchOut) st)
  else st.
Proof.
  intros Hz Hd Ht He. unfold handleTouchMove, Closure.handleTouchMove.
  rewrite He, Hz, Hd. cbn [truthy_or_null andb List.length Nat.eqb].
  rewrite Ht. reflexivity.
Qed.

(** The same in the handler of any render: the reference read is the one of
    the render, the state written is the pending one. *)
Lemma closure_move_active (seen st : State) (e : TouchEvent) (t0 t1 : Touch)
    (d : number) :
  isZooming seen = true ->
  touchStartDistance seen = Some d ->
  truthy d = true ->
  touches e = [t0; t1] ->
  Closure.handleTouchMove seen e st =
  let c := touchDistance t0 t1 in
  if 50 <? abs (c - d) then
    setTouchStartDistance (Some c)
      (setZoomLevel (if c - d <? 0 then pinchIn else pinchOut) st)
  else st.
Proof.
  intros Hz Hd Ht He. unfold Closure.handleTouchMove.
  rewrite He, Hz, Hd. cbn [truthy_or_null andb List.length Nat.eqb].
  rewrite Ht. reflexivity.
Qed.

(** A move is ignored when the reference distance is falsy or absent. *)
Lemma handleTouchMove_no_reference (st : State) (e : TouchEvent) :
  truthy_or_null (touchStartDistance st) = false ->
  handleTouchMove e st = st.
Proof.
  intros H. unfold handleTouchMove, Closure.handleTouchMove. now rewrite H, andb_false_r.
Qed.

Lemma run_moves_no_reference (st : State) (moves : list TouchEvent) :
  truthy_or_null (touchStartDistance st) = false ->
  run (map TouchMove moves) st = st.
Proof.
  intros H. induction moves as [| e moves IH]; [reflexivity |].
  unfold run in *. cbn [map fold_left handle].
  rewrite handleTouchMove_no_reference by exact H. exact IH.
Qed.

(** A distance [60] above a positive reference is itself truthy. *)
Lemma truthy_of_delta (c d : number) :
  (0 <? d) = true -> c - d = 60 -> truthy c = true.
Proof.
  intros Hd Hc. unfold truthy.
  rewrite eqb_zero_spec, is_nan_spec.
  rewrite ltb_spec in Hd. change (Prim2SF 0) with (S754_zero false) in Hd.
  apply (f_equal Prim2SF) in Hc. rewrite sub_spec in Hc.
  change (Prim2SF 60) with (S754_finite false 8444249301319680 (-47)) in Hc.
  unfold SF64sub, SFsub in Hc.
  destruct (Prim2SF c) as [sc | sc | | sc mc ec];
    destruct (Prim2SF d) as [sd | sd | | sd md ed];
    try (destruct sc); try (destruct sd);
    try reflexivity; try discriminate.
Qed.

(** What one move does, whichever render handles it. With a gesture under
    way and a reference [d > 0] in the render, a two-point move at distance
    [c] steps the pending zoom level once at most, and only when
    [|c - d| > 50]; it then writes [c] as the reference, so that the handler
    of the next render takes no step on the same move; within the threshold
    it writes nothing. *)
Lemma move_in_render (seen st : State) (e : TouchEvent) (t0 t1 : Touch)
    (d : number) :
  isZooming seen = true ->
  touchStartDistance seen = Some d ->
  (0 <? d) = true ->
  touches e = [t0; t1] ->
  let c := touchDistance t0 t1 in
  let st' := Closure.handleTouchMove seen e st in
  (zoomSteps (zoomLevel st) (zoomLevel st') <= 1)%Z /\
  (zoomLevel st' <> zoomLevel st ->
   (ZOOM_SENSITIVITY <? Math_abs (c - d)) = true) /\
  ((ZOOM_SENSITIVITY <? Math_abs (c - d)) = true ->
   touchStartDistance st' = Some c /\ handleTouchMove e st' = st') /\
  ((ZOOM_SENSITIVITY <? Math_abs (c - d)) = false -> st' = st).
Proof.
  intros Hz Hd Hpos He c st'.
  assert (Hst' : st' =
    if 50 <? abs (c - d) then
      setTouchStartDistance (Some c)
        (setZoomLevel (if c - d <? 0 then pinchIn else pinchOut) st)
    else st).
  { subst st' c.
    now rewrite (closure_move_active seen st e t0 t1 d Hz Hd
                   (positive_truthy d Hpos) He). }
  unfold ZOOM_SENSITIVITY, Math_abs.
  destruct (50 <? abs (c - d)) eqn:Hcross; rewrite Hst';
    (split; [| split; [| split]]).
  - cbn. destruct (c - d <? 0);
      [apply zoomSteps_pinchIn | apply zoomSteps_pinchOut].
  - reflexivity.
  - intros _. split; [reflexivity |].
    set (written := setTouchStartDistance (Some c) (setZoomLevel _ st)).
    destruct (isZooming written && truthy c) eqn:Hguard.
    + apply andb_prop in Hguard. destruct Hguard as [Hzw Hc].
      rewrite (handleTouchMove_active written e t0 t1 c Hzw eq_refl Hc He).
      cbv zeta. fold c. now rewrite abs_sub_diag_small.
    + unfold handleTouchMove, Closure.handleTouchMove.
      cbn [touchStartDistance written setTouchStartDistance truthy_or_null].
      rewrite He. cbn [List.length Nat.eqb andb].
      rewrite andb_true_r, Hguard. reflexivity.
  - discriminate.
  - apply zoomSteps_refl.
  - intros Hne. now contradiction Hne.
  - discriminate.
  - reflexivity.
Qed.

End GestureFacts.

Import JS StockNews NumberFacts GestureFacts.


(** C7: a two-point start at a positive distance, a move [60] above the
    reference, a move [60] above the new reference and the end of the contact
    leave the zoom level ['1y'] where it is, and take ['all'] to ['10y'] and
    then to ['5y'], where it ends; the gesture is over afterwards. (The run
    may start from any state, the IDLE ones among them.) *)
Theorem two_pinch_out_moves
    (st : State) (e0 e1 e2 : TouchEvent) (a0 b0 a1 b1 a2 b2 : Touch) :
  touches e0 = [a0; b0] ->
  touches e1 = [a1; b1] ->
  touches e2 = [a2; b2] ->
  (0 <? touchDistance a0 b0)%float = true ->
  (touchDistance a1 b1 - touchDistance a0 b0)%float = 60%float ->
  (touchDistance a2 b2 - touchDistance a1 b1)%float = 60%float ->
  let gesture := [TouchStart e0; TouchMove e1; TouchMove e2; TouchEnd] in
  (zoomLevel st = zoom_1y ->
   zoomTrace gesture st = [zoom_1y; zoom_1y; zoom_1y; zoom_1y]) /\
  (zoomLevel st = zoom_all ->
   zoomTrace gesture st = [zoom_all; zoom_10y; zoom_5y; zoom_5y]) /\
  isZooming (run gesture st) = false /\
  touchStartDistance (run gesture st) = None.
Proof.
  intros H0 H1 H2 Hpos Hd1 Hd2 gesture.
  pose proof (positive_truthy _ Hpos) as Ht0.
  pose proof (truthy_of_delta _ _ Hpos Hd1) as Ht1.
  set (s1 := handleTouchStart e0 st).
  assert (Hs1 : s1 = setIsZooming true
                       (setTouchStartDistance (Some (touchDistance a0 b0)) st)).
  { subst s1. unfold handleTouchStart. now rewrite H0. }
  set (s2 := handleTouchMove e1 s1).
  assert (Hs2 : s2 = setTouchStartDistance (Some (touchDistance a1 b1))
                       (setZoomLevel pinchOut s1)).
  { subst s2.
    rewrite (handleTouchMove_active s1 e1 a1 b1 (touchDistance a0 b0));
      [| now rewrite Hs1 | now rewrite Hs1 | exact Ht0 | exact H1].
    cbv zeta. rewrite Hd1. reflexivity. }
  set (s3 := handleTouchMove e2 s2).
  assert (Hs3 : s3 = setTouchStartDistance (Some (touchDistance a2 b2))
                       (setZoomLevel pinchOut s2)).
  { subst s3.
    rewrite (handleTouchMove_active s2 e2 a2 b2 (touchDistance a1 b1));
      [| now rewrite Hs2, Hs1 | now rewrite Hs2 | exact Ht1 | exact H2].
    cbv zeta. rewrite Hd2. reflexivity. }
  assert (Hz1 : zoomLevel s1 = zoomLevel st) by now rewrite Hs1.
  assert (Hz2 : zoomLevel s2 = pinchOut (zoomLevel st))
    by now rewrite Hs2, Hs1.
  assert (Hz3 : zoomLevel s3 = pinchOut (pinchOut (zoomLevel st)))
    by now rewrite Hs3, Hs2, Hs1.
  assert (Htrace : zoomTrace gesture st =
                   [zoomLevel s1; zoomLevel s2; zoomLevel s3; zoomLevel s3])
    by reflexivity.
  rewrite Htrace, Hz1, Hz2, Hz3.
  split; [| split; [| split]].
  - intros ->. reflexivity.
  - intros ->. reflexivity.
  - reflexivity.
  - reflexivity.
Qed.

(** The gesture of the example: fingers 100 apart, then 160, then 220. *)
Lemma two_pinch_out_moves_witness :
  let gesture :=
    [TouchStart (Examples.fingers 100); TouchMove (Examples.fingers 160);
     TouchMove (Examples.fingers 220); TouchEnd] in
  (zoomLevel Examples.idle = zoom_1y ->
   zoomTrace gesture Examples.idle = [zoom_1y; zoom_1y; zoom_1y; zoom_1y]) /\
  (zoomLevel Examples.idle = zoom_all ->
   zoomTrace gesture Examples.idle = [zoom_all; zoom_10y; zoom_5y; zoom_5y]) /\
  isZooming (run gesture Examples.idle) = false /\
  touchStartDistance (run gesture Examples.idle) = None.
Proof.
  exact (two_pinch_out_moves Examples.idle
           (Examples.fingers 100) (Examples.fingers 160) (Examples.fingers 220)
           {| clientX := 120; clientY := 300 |}
           {| clientX := 120; clientY := 300 + 100 |}
           {| clientX := 120; clientY := 300 |}
           {| clientX := 120; clientY := 300 + 160 |}
           {| clientX := 120; clientY := 300 |}
           {| clientX := 120; clientY := 300 + 220 |}
           eq_refl eq_refl eq_refl eq_refl eq_refl eq_refl).
Defined.

(** C10: when a two-point contact starts with both points at one position
    (of finite coordinates), the reference distance recorded is [0], and every
    move event that follows leaves the whole state, the zoom level and the
    reference distance in it, as the start left it; the end of the contact
    clears the reference and the next two-point start records its own
    distance. *)
Theorem coincident_start_ignores_moves
    (st : State) (e : TouchEvent) (t0 t1 : Touch) (moves : list TouchEvent)
    (e' : TouchEvent) (u0 u1 : Touch) :
  touches e = [t0; t1] ->
  clientX t0 = clientX t1 ->
  clientY t0 = clientY t1 ->
  isFinite (clientX t0) = true ->
  isFinite (clientY t0) = true ->
  touches e' = [u0; u1] ->
  let started := handleTouchStart e st in
  let moved := run (map TouchMove moves) started in
  touchStartDistance started = Some 0%float /\
  isZooming started = true /\
  moved = started /\
  zoomLevel moved = zoomLevel st /\
  touchStartDistance moved = Some 0%float /\
  touchStartDistance (handleTouchEnd moved) = None /\
  touchStartDistance (handleTouchStart e' (handleTouchEnd moved)) =
    Some (touchDistance u0 u1).
Proof.
  intros He Hx Hy Hfx Hfy He' started moved.
  assert (Hstart : started =
            setIsZooming true (setTouchStartDistance (Some 0%float) st)).
  { subst started. unfold handleTouchStart. rewrite He.
    unfold touchDistance. rewrite <- Hx, <- Hy.
    rewrite (sub_diag_finite _ Hfx), (sub_diag_finite _ Hfy).
    now rewrite hypot_zero. }
  assert (Hmoved : moved = started).
  { subst moved. apply run_moves_no_reference. now rewrite Hstart. }
  rewrite Hmoved, Hstart.
  repeat (split; [reflexivity |]).
  unfold handleTouchStart. now rewrite He'.
Qed.

(** Both fingers on one point, three moves apart, and a fresh start. *)
Lemma coincident_start_ignores_moves_witness :
  let started := handleTouchStart Examples.fingersTogether Examples.idle in
  let moved :=
    run (map TouchMove
           [Examples.fingers 60; Examples.fingers 120; Examples.fingers 400])
        started in
  touchStartDistance started = Some 0%float /\
  isZooming started = true /\
  moved = started /\
  zoomLevel moved = zoomLevel Examples.idle /\
  touchStartDistance moved = Some 0%float /\
  touchStartDistance (handleTouchEnd moved) = None /\
  touchStartDistance
    (handleTouchStart (Examples.fingers 100) (handleTouchEnd moved)) =
    Some (touchDistance {| clientX := 120; clientY := 300 |}
                        {| clientX := 120; clientY := 300 + 100 |}).
Proof.
  exact (coincident_start_ignores_moves Examples.idle Examples.fingersTogether
           {| clientX := 120; clientY := 300 |}
           {| clientX := 120; clientY := 300 + 0 |}
           [Examples.fingers 60; Examples.fingers 120; Examples.fingers 400]
           (Examples.fingers 100)
           {| clientX := 120; clientY := 300 |}
           {| clientX := 120; clientY := 300 + 100 |}
           eq_refl eq_refl eq_refl eq_refl eq_refl eq_refl).
Defined.

(* ================================================================== *)
(** ** The time window and the chart *)

Module ChartFacts.

Import JS StockNews Spec.

Lemma filter_Subsequence {A : Type} (f : A -> bool) (s : list A) :
  Subsequence (filter f s) s.
Proof.
  induction s as [| x s IH]; cbn.
  - constructor.
  - destruct (f x); now constructor.
Qed.

Lemma Subsequence_refl {A : Type} (s : list A) : Subsequence s s.
Proof. induction s; now constructor. Qed.

Lemma Subsequence_nil_l {A : Type} (s : list A) : Subsequence [] s.
Proof. induction s; now constructor. Qed.

(** [map] with a callback that does not throw on the array returns. *)
Lemma mapThrowing_returns {A B : Type} (f : A -> option B) (l : list A) :
  Forall (fun x => f x <> None) l ->
  exists ys, mapThrowing f l = Some ys /\
             Forall2 (fun x y => f x = Some y) l ys.
Proof.
  induction 1 as [| x l Hx _ IH]; cbn.
  - exists []. split; [reflexivity | constructor].
  - destruct (f x) as [y |] eqn:Hfx; [| contradiction].
    destruct IH as (ys & -> & Hall).
    exists (y :: ys). split; [reflexivity |]. now constructor.
Qed.

Lemma nullsThen_padded (n : nat) (xs : list number) (lbl : option string) :
  paddedWith n (n + List.length xs) xs
    {| label := lbl; data := nullsThen n xs |}.
Proof.
  unfold paddedWith, nullsThen; cbn [data]. repeat split.
  - now rewrite length_app, repeat_length, length_map.
  - rewrite firstn_app, repeat_length, Nat.sub_diag. cbn [firstn].
    rewrite app_nil_r. apply firstn_all2. now rewrite repeat_length.
  - rewrite skipn_app, repeat_length, Nat.sub_diag. cbn [skipn].
    rewrite skipn_all2 by now rewrite repeat_length. reflexivity.
Qed.

(** Once the test of the filter keeps an item, it keeps every later one. *)
Lemma kept_later {library : DateLibrary} (cutoff : Date)
    (a b : StockHistoryData) :
  Date_geb (newDate (date a)) cutoff = true -> dateLe a b ->
  Date_geb (newDate (date b)) cutoff = true.
Proof.
  unfold newDate, dateLe, Date_geb.
  destruct (Date_parse (date a)) as [ta |], (Date_parse (date b)) as [tb |],
    cutoff as [c |]; try discriminate; try contradiction.
  rewrite !Z.leb_le. lia.
Qed.

Lemma filter_all {A : Type} (f : A -> bool) (l : list A) :
  Forall (fun x => f x = true) l -> filter f l = l.
Proof.
  induction 1 as [| x l Hx _ IH]; cbn; [reflexivity |].
  now rewrite Hx, IH.
Qed.

(** The items the filter keeps are a suffix of a history in ascending
    order. *)
Lemma filter_sorted_suffix {library : DateLibrary} (cutoff : Date)
    (s : list StockHistoryData) :
  StronglySorted dateLe s ->
  exists k,
    filter (fun item => Date_geb (newDate (date item)) cutoff) s = skipn k s.
Proof.
  induction 1 as [| x l _ IH Hx].
  - now exists 0.
  - cbn [filter]. destruct (Date_geb (newDate (date x)) cutoff) eqn:Hfirst.
    + exists 0. cbn [skipn]. f_equal. apply filter_all.
      eapply Forall_impl; [| exact Hx].
      intros y. now apply kept_later.
    + destruct IH as [k Hk]. exists (S k). exact Hk.
Qed.

(** The test of the filter is the "date >= cutoff" of the specification. *)
Lemma Date_geb_onOrAfter {library : DateLibrary} (cutoff : Date)
    (item : StockHistoryData) :
  Date_geb (newDate (date item)) cutoff = onOrAfter cutoff item.
Proof.
  unfold Date_geb, newDate, onOrAfter.
  destruct (Date_parse (date item)) as [t |], cutoff as [c |];
    try reflexivity.
  symmetry. apply Z.geb_leb.
Qed.

(** On a date library that reads and sets the year on the calendar, with
    both clock readings in one year, the cutoff of the [switch] is the
    second reading minus the years of the window. *)
Lemma cutoffOf_yearsBefore {library : DateLibrary} {calendar : Calendar}
    (now cutoffDate : Z) (z : ZoomLevel) :
  onCalendar ->
  Date_getFullYear now = Date_getFullYear cutoffDate ->
  cutoffOf now cutoffDate z =
  option_map (fun n => yearsBefore n cutoffDate) (windowYears z).
Proof.
  intros [Hget Hset] Hyear. unfold cutoffOf, yearsBefore.
  destruct z; cbn [windowYears option_map]; try reflexivity;
    now rewrite Hset, Hyear, Hget.
Qed.

End ChartFacts.

Import Spec ChartFacts.

(** C2: the filtered history is the [filter] of the specification at the
    instant the clock shows. The function reads the clock twice, [now] for
    the year and [cutoffDate] for the month, the day and the time of day;
    with both readings in one calendar year (one instant, or two a moment
    apart) the result is the history itself, in its order, on ['all'], and
    on ['10y'], ['5y'] and ['1y'] the items dated on or after that instant
    minus 10, 5 and 1 calendar years, a subsequence of the history that keeps
    exactly those items; the empty history gives the empty list. *)
Theorem filtered_history_is_window
    {library : DateLibrary} {calendar : Calendar}
    (now cutoffDate : Z) (st : State) :
  onCalendar ->
  Date_getFullYear now = Date_getFullYear cutoffDate ->
  let s := historyData st in
  let out := getFilteredHistoryData now cutoffDate st in
  out = filter_spec s (zoomLevel st) cutoffDate /\
  (zoomLevel st = zoom_all -> out = s) /\
  (forall n, windowYears (zoomLevel st) = Some n ->
     out = filter (onOrAfter (yearsBefore n cutoffDate)) s /\
     forall item, In item out <->
                  In item s /\
                  onOrAfter (yearsBefore n cutoffDate) item = true) /\
  Subsequence out s /\
  (s = [] -> out = []).
Proof.
  intros Hlibrary Hyear s out.
  assert (Hout : out = filter_spec s (zoomLevel st) cutoffDate).
  { subst out s. unfold getFilteredHistoryData, filter_spec.
    rewrite (cutoffOf_yearsBefore now cutoffDate (zoomLevel st)
               Hlibrary Hyear).
    destruct (historyData st) as [| x l] eqn:Hs; cbn [List.length Nat.eqb].
    - now destruct (windowYears (zoomLevel st)).
    - destruct (windowYears (zoomLevel st)) as [n |]; cbn [option_map];
        [| reflexivity].
      apply filter_ext. intros item. apply Date_geb_onOrAfter. }
  split; [exact Hout |]. rewrite Hout. unfold filter_spec.
  split; [| split; [| split]].
  - intros ->. reflexivity.
  - intros n ->. split; [reflexivity |]. intros item. apply filter_In.
  - destruct (windowYears (zoomLevel st)).
    + apply filter_Subsequence.
    + apply Subsequence_refl.
  - intros ->. now destruct (windowYears (zoomLevel st)).
Qed.

(** The window of the last year at noon of 15 June 2024 keeps the two days
    of January 2024, and the whole history is kept on ['all']. *)
Example filtered_history_last_year :
  getFilteredHistoryData (library := UtcDates.library)
    Examples.noon Examples.noon Examples.loadedLastYear
  = [Examples.day "2024-01-15" 185; Examples.day "2024-01-16" 183] /\
  getFilteredHistoryData (library := UtcDates.library)
    Examples.noon Examples.noon Examples.loaded
  = Examples.history.
Proof. split; reflexivity. Qed.

(** When the year changes between the two readings, the cutoff takes its
    year from the old year and its day from the new one. At the last
    millisecond of 2023 and the first of 2024 the window of the last year
    starts on 1 January 2022: it keeps a day of June 2022, which is more than
    a year before either reading. *)
Example filtered_history_across_new_year :
  let st :=
    setZoomLevel (fun _ => zoom_1y)
      (setHistoryData
         [Examples.day "2022-06-01" 140; Examples.day "2023-06-01" 180]
         Examples.idle) in
  getFilteredHistoryData (library := UtcDates.library)
    1704067199999 1704067200000 st
  = [Examples.day "2022-06-01" 140; Examples.day "2023-06-01" 180] /\
  filter_spec (library := UtcDates.library)
    (calendar := UtcCalendar.calendar)
    (historyData st) (zoomLevel st) 1704067199999
  = [Examples.day "2023-06-01" 180] /\
  filter_spec (library := UtcDates.library)
    (calendar := UtcCalendar.calendar)
    (historyData st) (zoomLevel st) 1704067200000
  = [Examples.day "2023-06-01" 180].
Proof. repeat split. Qed.

(** The UTC library reads and sets the year on the UTC calendar. *)
Lemma utc_onCalendar :
  onCalendar (library := UtcDates.library) (calendar := UtcCalendar.calendar).
Proof.
  split.
  - intros t. cbn. unfold UtcDates.getFullYear, UtcCalendar.civilTime.
    now destruct (UtcDates.civilFromDays (t / UtcDates.msPerDay))
      as [[y m] d].
  - intros t y. cbn. unfold UtcDates.setFullYear, UtcCalendar.instant,
      UtcCalendar.civilTime.
    now destruct (UtcDates.civilFromDays (t / UtcDates.msPerDay))
      as [[y' m] d].
Qed.

(** On the example history, with the second reading a millisecond after the
    first, the window of the last year is the [filter] of the specification:
    the two days of January 2024. *)
Lemma filtered_history_is_window_witness :
  let st := Examples.loadedLastYear in
  let out :=
    getFilteredHistoryData (library := UtcDates.library)
      Examples.noon (Examples.noon + 1) st in
  out = [Examples.day "2024-01-15" 185; Examples.day "2024-01-16" 183] /\
  filter_spec (library := UtcDates.library)
    (calendar := UtcCalendar.calendar)
    (historyData st) (zoomLevel st) (Examples.noon + 1) = out /\
  Subsequence out (historyData st).
Proof.
  destruct (filtered_history_is_window (library := UtcDates.library)
              (calendar := UtcCalendar.calendar)
              Examples.noon (Examples.noon + 1) Examples.loadedLastYear
              utc_onCalendar eq_refl)
    as (Hspec & _ & _ & Hsub & _).
  split; [reflexivity |]. split; [symmetry; exact Hspec | exact Hsub].
Defined.

(** C1: when the dates of the filtered history [h] are valid ones, the chart
    data has, with a prediction of four parallel sequences, exactly four
    datasets, the historical one of the [length h] prices and the predicted,
    upper-bound and lower-bound ones of [length h + length dates] values
    each, [length h] "no value" markers followed by the series; with no
    prediction it has exactly one dataset, the historical one. *)
Theorem chart_datasets {library : DateLibrary} (now cutoffDate : Z) (st : State) :
  let h := getFilteredHistoryData now cutoffDate st in
  Forall validDate h ->
  match predictionData st with
  | Some p =>
      parallel p ->
      exists chart historical predicted upper lower,
        getChartData now cutoffDate st = Some chart /\
        datasets chart = [historical; predicted; upper; lower] /\
        data historical = map (fun item => Some (price item)) h /\
        List.length (data historical) = List.length h /\
        paddedWith (List.length h) (List.length h + List.length (dates p))
          (predictions p) predicted /\
        paddedWith (List.length h) (List.length h + List.length (dates p))
          (upper_bound p) upper /\
        paddedWith (List.length h) (List.length h + List.length (dates p))
          (lower_bound p) lower
  | None =>
      exists chart historical,
        getChartData now cutoffDate st = Some chart /\
        datasets chart = [historical] /\
        data historical = map (fun item => Some (price item)) h /\
        List.length (data historical) = List.length h
  end.
Proof.
  intros h Hvalid.
  destruct (mapThrowing_returns
              (fun item => format (newDate (date item))) h) as (ls & Hls & _).
  { eapply Forall_impl; [| exact Hvalid].
    intros item Hitem. unfold validDate in Hitem. unfold format, newDate.
    destruct (Date_parse (date item)); [discriminate | contradiction]. }
  unfold getChartData. fold h. rewrite Hls.
  destruct (predictionData st) as [p |].
  - intros (Hp & Hu & Hl).
    eexists _, _, _, _, _. split; [reflexivity |].
    split; [reflexivity |]. cbn [data].
    split; [reflexivity |]. split; [apply length_map |].
    rewrite <- Hp at 1. rewrite <- Hu at 1. rewrite <- Hl.
    repeat split; apply nullsThen_padded.
  - eexists _, _. split; [reflexivity |]. split; [reflexivity |]. cbn [data].
    split; [reflexivity | apply length_map].
Qed.

(** The chart of the example history: four datasets of 4, 6, 6 and 6 values
    with the forecast, one without it. *)
Lemma chart_datasets_witness :
  (exists chart historical predicted upper lower,
     getChartData (library := UtcDates.library)
       Examples.noon Examples.noon Examples.loaded = Some chart /\
     datasets chart = [historical; predicted; upper; lower] /\
     data historical =
       map (fun item => Some (price item)) Examples.history /\
     List.length (data historical) = 4 /\
     paddedWith 4 (4 + 2) [184; 186]%float predicted /\
     paddedWith 4 (4 + 2) [190; 193]%float upper /\
     paddedWith 4 (4 + 2) [178; 179]%float lower) /\
  (exists chart historical,
     getChartData (library := UtcDates.library)
       Examples.noon Examples.noon Examples.loadedNoForecast = Some chart /\
     datasets chart = [historical] /\
     data historical =
       map (fun item => Some (price item)) Examples.history /\
     List.length (data historical) = 4).
Proof.
  split.
  - apply (chart_datasets (library := UtcDates.library)
             Examples.noon Examples.noon Examples.loaded).
    + repeat constructor; discriminate.
    + repeat split.
  - apply (chart_datasets (library := UtcDates.library)
             Examples.noon Examples.noon Examples.loadedNoForecast).
    repeat constructor; discriminate.
Defined.

(** The labels of the chart, for every date library: the formatted dates of
    the filtered history, then the dates of the prediction as the service
    sent them. *)
Lemma chart_labels {library : DateLibrary} (now cutoffDate : Z) (st : State) :
  option_map labels (getChartData now cutoffDate st) =
  option_map
    (fun formatted =>
       formatted ++ match predictionData st with
                    | Some p => dates p
                    | None => []
                    end)
    (mapThrowing (fun item => format (newDate (date item)))
       (getFilteredHistoryData now cutoffDate st)).
Proof.
  unfold getChartData.
  now destruct (mapThrowing _ (getFilteredHistoryData now cutoffDate st)).
Qed.

(** C6: on the example history and forecast the labels of the prediction
    segment are the strings of [dates] untouched, ["2024-01-17"] and
    ["2024-01-18"], while the formatting step the historical segment goes
    through would give ["Jan 17, 2024"] and ["Jan 18, 2024"]. *)
Theorem prediction_labels_are_raw :
  option_map labels
    (getChartData (library := UtcDates.library)
       Examples.noon Examples.noon Examples.loaded)
  = Some ["Mar 03, 2014"; "Aug 01, 2019"; "Jan 15, 2024"; "Jan 16, 2024";
          "2024-01-17"; "2024-01-18"]%string /\
  mapThrowing
    (fun d => format (library := UtcDates.library)
                (newDate (library := UtcDates.library) d))
    (dates Examples.forecast)
  = Some ["Jan 17, 2024"; "Jan 18, 2024"]%string.
Proof. split; reflexivity. Qed.

(* ================================================================== *)
(** ** The trend of a forecast *)

Module TrendFacts.

Import JS StockNews Spec.

Lemma every_from_spec {A : Type} (callback : A -> nat -> bool)
    (array : list A) (k : nat) :
  every_from callback k array = true <->
  forall j x, nth_error array j = Some x -> callback x (k + j) = true.
Proof.
  revert k. induction array as [| y rest IH]; intros k; cbn [every_from].
  - split; [| reflexivity]. intros _ [| j] x; discriminate.
  - rewrite andb_true_iff, IH. split.
    + intros [Hy Hrest] [| j] x; cbn [nth_error].
      * intros [= <-]. now rewrite Nat.add_0_r.
      * intros Hj. replace (k + S j) with (S k + j) by lia. now apply Hrest.
    + intros Hall. split.
      * rewrite <- (Nat.add_0_r k). now apply (Hall 0).
      * intros j x Hj. replace (S k + j) with (k + S j) by lia.
        now apply (Hall (S j)).
Qed.

Lemma every_spec {A : Type} (callback : A -> nat -> bool) (array : list A) :
  every callback array = true <->
  forall j x, nth_error array j = Some x -> callback x j = true.
Proof. unfold every. now rewrite every_from_spec. Qed.

(** The element before a valid index is there. *)
Lemma nth_error_before {A : Type} (l : list A) (i : nat) (x : A) :
  nth_error l (S i) = Some x -> exists a, nth_error l i = Some a.
Proof.
  intros Hx. destruct (nth_error l i) as [a |] eqn:Ha; [now exists a |].
  apply nth_error_None in Ha.
  assert (nth_error l (S i) = None) by (apply nth_error_None; lia).
  congruence.
Qed.

Lemma every_notBelowPrevious (l : list number) :
  every (notBelowPrevious l) l = true <-> nonDecreasing l.
Proof.
  rewrite every_spec. unfold nonDecreasing, notBelowPrevious. split.
  - intros Hall i a b Ha Hb. specialize (Hall (S i) b Hb).
    cbn [Nat.eqb orb Nat.sub] in Hall.
    now rewrite Nat.sub_0_r, Ha in Hall.
  - intros Hmono [| i] x Hx; [reflexivity |].
    cbn [Nat.eqb orb Nat.sub]. rewrite Nat.sub_0_r.
    destruct (nth_error_before l i x Hx) as [a Ha]. rewrite Ha.
    now apply (Hmono i).
Qed.

Lemma every_notAbovePrevious (l : list number) :
  every (notAbovePrevious l) l = true <-> nonIncreasing l.
Proof.
  rewrite every_spec. unfold nonIncreasing, notAbovePrevious. split.
  - intros Hall i a b Ha Hb. specialize (Hall (S i) b Hb).
    cbn [Nat.eqb orb Nat.sub] in Hall.
    now rewrite Nat.sub_0_r, Ha in Hall.
  - intros Hmono [| i] x Hx; [reflexivity |].
    cbn [Nat.eqb orb Nat.sub]. rewrite Nat.sub_0_r.
    destruct (nth_error_before l i x Hx) as [a Ha]. rewrite Ha.
    now apply (Hmono i).
Qed.

Lemma trendOf_upward (l : list number) :
  trendOf l = upward <-> nonDecreasing l.
Proof.
  rewrite <- every_notBelowPrevious. unfold trendOf.
  destruct (every (notBelowPrevious l) l);
    [| destruct (every (notAbovePrevious l) l)];
    intuition congruence.
Qed.

Lemma trendOf_downward (l : list number) :
  trendOf l = downward <-> nonIncreasing l /\ ~ nonDecreasing l.
Proof.
  rewrite <- every_notBelowPrevious, <- every_notAbovePrevious.
  unfold trendOf.
  destruct (every (notBelowPrevious l) l);
    [| destruct (every (notAbovePrevious l) l)];
    intuition congruence.
Qed.

Lemma trendOf_mixed (l : list number) :
  trendOf l = mixed <-> ~ nonDecreasing l /\ ~ nonIncreasing l.
Proof.
  rewrite <- every_notBelowPrevious, <- every_notAbovePrevious.
  unfold trendOf.
  destruct (every (notBelowPrevious l) l);
    [| destruct (every (notAbovePrevious l) l)];
    intuition congruence.
Qed.

(** An array of at most one element is non-decreasing. *)
Lemma short_nonDecreasing (l : list number) :
  List.length l <= 1 -> nonDecreasing l.
Proof.
  intros Hlen i a b _ Hb.
  assert (nth_error l (S i) = None) by (apply nth_error_None; lia).
  congruence.
Qed.

(** [Math.std] returns on a non-empty array. *)
Lemma Math_std_returns (l : list number) :
  l <> [] -> exists deviation, Math_std l = Some deviation.
Proof.
  destruct l as [| x l]; [congruence |]. intros _.
  unfold Math_std. cbn [reduce map]. eauto.
Qed.

End TrendFacts.

Import TrendFacts.

(** C9, with the empty array set apart: the trend constant of
    [getMarketFactors] is ["upward"] exactly when the predictions are
    non-decreasing, ["downward"] exactly when they are non-increasing and not
    non-decreasing, ["mixed"] exactly when they are neither, and so
    ["upward"] on an array of at most one element; on a non-empty array the
    function returns and the trend it returns is that constant, and on the
    empty array it throws. *)
Theorem trend_of_predictions (predictions : list number) (lastPrice : number) :
  (trendOf predictions = upward <-> nonDecreasing predictions) /\
  (trendOf predictions = downward <->
   nonIncreasing predictions /\ ~ nonDecreasing predictions) /\
  (trendOf predictions = mixed <->
   ~ nonDecreasing predictions /\ ~ nonIncreasing predictions) /\
  (List.length predictions <= 1 -> trendOf predictions = upward) /\
  (predictions <> [] ->
   exists factors,
     getMarketFactors predictions lastPrice = Some factors /\
     trend factors = trendOf predictions) /\
  (predictions = [] -> getMarketFactors predictions lastPrice = None).
Proof.
  split; [apply trendOf_upward |].
  split; [apply trendOf_downward |].
  split; [apply trendOf_mixed |].
  split; [intros Hlen; now apply trendOf_upward, short_nonDecreasing |].
  split.
  - intros Hne.
    destruct (Math_std_returns predictions Hne) as [deviation Hdev].
    unfold getMarketFactors. rewrite Hdev. cbv zeta.
    eexists. split; reflexivity.
  - intros ->. reflexivity.
Qed.

(** A rising forecast of two days has the trend ["upward"]; a forecast that
    falls and rises is ["mixed"]. *)
Lemma trend_of_predictions_witness :
  (exists factors,
     getMarketFactors [184; 186]%float 183%float = Some factors /\
     trend factors = upward) /\
  (exists factors,
     getMarketFactors [184; 180; 186]%float 183%float = Some factors /\
     trend factors = mixed).
Proof.
  split.
  - destruct (trend_of_predictions [184; 186]%float 183%float)
      as (_ & _ & _ & _ & Hreturns & _).
    destruct (Hreturns ltac:(discriminate)) as (factors & Hf & Ht).
    exists factors. split; [exact Hf |]. rewrite Ht. reflexivity.
  - destruct (trend_of_predictions [184; 180; 186]%float 183%float)
      as (_ & _ & _ & _ & Hreturns & _).
    destruct (Hreturns ltac:(discriminate)) as (factors & Hf & Ht).
    exists factors. split; [exact Hf |]. rewrite Ht. reflexivity.
Defined.

(** On the empty array the trend constant is ["upward"], the non-decreasing
    test being the first one and vacuously true, but [getMarketFactors]
    throws before it returns it: [Math.std] reduces the empty array with no
    initial value. *)
Lemma trend_of_empty_predictions_throws :
  trendOf [] = upward /\ getMarketFactors [] 100%float = None.
Proof. split; reflexivity. Qed.

(* ================================================================== *)
(** ** The three fetches *)

(** The news failure of the example writes the error slot the history fetch
    reads, and the end of the prediction request clears the loading flag the
    history request had set and still needs: the slots are shared. *)
Lemma fetches_share_slots :
  (fetch_step News Examples.idle
     (fetchNews_settle (Threw (Some "Network Error"%string)) Examples.idle) /\
   News <> History /\
   errorSlot History Examples.idle = None /\
   errorSlot History
     (fetchNews_settle (Threw (Some "Network Error"%string)) Examples.idle)
   = Some "Network Error"%string) /\
  (fetch_step Prediction Examples.loadingHistory
     (fetchPredictions_settle (Refused "Not Found"%string)
        Examples.loadingHistory) /\
   Prediction <> History /\
   loadingFlag History Examples.loadingHistory = true /\
   loadingFlag History
     (fetchPredictions_settle (Refused "Not Found"%string)
        Examples.loadingHistory)
   = false).
Proof.
  split; (split; [constructor | split; [discriminate | split; reflexivity]]).
Qed.

(** The prediction request, however it settles, leaves the error slot. *)
Lemma fetchPredictions_settle_error (r : Settled PredictionData) (st : State) :
  error (fetchPredictions_settle r st) = error st.
Proof. destruct r; reflexivity. Qed.

(** C8, as the code has it: the news fetch has a loading flag of its own,
    [loading], the history and prediction fetches share the flag [isLoading],
    and the three share the one slot [error]. A step of a fetch leaves the
    zoom level and the gesture fields as they are; a step of the news fetch
    leaves [isLoading] and the history and prediction data, and a step of the
    history or the prediction fetch leaves [loading], the news and the data of
    the other one; the prediction fetch writes [error] only when it starts,
    never when it settles. *)
Theorem fetch_step_frame (k : Fetch) (st st' : State) :
  fetch_step k st st' ->
  loadingFlag History = loadingFlag Prediction /\
  errorSlot News = errorSlot History /\
  errorSlot History = errorSlot Prediction /\
  zoomLevel st' = zoomLevel st /\
  isZooming st' = isZooming st /\
  touchStartDistance st' = touchStartDistance st /\
  (forall r, error (fetchPredictions_settle r st) = error st) /\
  match k with
  | News =>
      isLoading st' = isLoading st /\
      historyData st' = historyData st /\
      predictionData st' = predictionData st
  | History =>
      loading st' = loading st /\
      news st' = news st /\
      predictionData st' = predictionData st
  | Prediction =>
      loading st' = loading st /\
      news st' = news st /\
      historyData st' = historyData st
  end.
Proof.
  intros Hstep. do 3 (split; [reflexivity |]).
  destruct Hstep as [symbol st | r st | symbol st | r st | symbol st | r st].
  - destruct symbol; repeat split;
      intros r'; apply fetchPredictions_settle_error.
  - destruct r as [[items |] | reason | err]; repeat split;
      intros r'; apply fetchPredictions_settle_error.
  - destruct symbol; repeat split;
      intros r'; apply fetchPredictions_settle_error.
  - destruct r as [[history |] | reason | err]; repeat split;
      intros r'; apply fetchPredictions_settle_error.
  - destruct symbol; repeat split;
      intros r'; apply fetchPredictions_settle_error.
  - destruct r as [body | reason | err]; repeat split;
      intros r'; apply fetchPredictions_settle_error.
Qed.

(** The news failure of the example leaves the loading flag and the data of
    the history request under way alone. *)
Lemma fetch_step_frame_witness :
  let st := Examples.loadingHistory in
  let st' := fetchNews_settle (Threw (Some "Network Error"%string)) st in
  loadingFlag History = loadingFlag Prediction /\
  errorSlot News = errorSlot History /\
  errorSlot History = errorSlot Prediction /\
  zoomLevel st' = zoomLevel st /\
  isZooming st' = isZooming st /\
  touchStartDistance st' = touchStartDistance st /\
  (forall r, error (fetchPredictions_settle r st) = error st) /\
  isLoading st' = isLoading st /\
  historyData st' = historyData st /\
  predictionData st' = predictionData st.
Proof.
  exact (fetch_step_frame News Examples.loadingHistory
           (fetchNews_settle (Threw (Some "Network Error"%string))
              Examples.loadingHistory)
           (news_settle (Threw (Some "Network Error"%string))
              Examples.loadingHistory)).
Defined.

(* ================================================================== *)
(** ** The ranking of the suggestions *)

Module RankFacts.

Import JS App Spec SortInvariant.

Section Insertion.

Variables (A : Type) (before : A -> A -> bool) (P : A -> bool).

(** An element that satisfies [P] goes before every element that does
    not, and no other element goes before one that does. *)
Hypothesis before_P : forall p e, P p = true -> P e = false -> before p e = true.
Hypothesis before_not_P : forall p e, P p = false -> P e = true -> before p e = false.

Lemma existsb_insertFromRight (p : A) (l : list A) :
  existsb P (insertFromRight before p l) = P p || existsb P l.
Proof.
  induction l as [| e rest IH]; cbn [insertFromRight existsb].
  - reflexivity.
  - destruct (before p e); cbn [existsb]; [| reflexivity].
    rewrite IH. now destruct (P e), (P p).
Qed.

Lemma lastSatisfies_cons (e : A) (l : list A) :
  l <> [] -> lastSatisfies P (e :: l) = lastSatisfies P l.
Proof. destruct l; [congruence | reflexivity]. Qed.

Lemma insertFromRight_not_nil (p : A) (l : list A) :
  insertFromRight before p l <> [].
Proof.
  destruct l as [| e rest]; cbn; [| destruct (before p e)]; discriminate.
Qed.

Lemma leftmostFirst_tail (e : A) (rest : list A) :
  leftmostFirst P (e :: rest) -> leftmostFirst P rest.
Proof.
  unfold leftmostFirst. intros Hinv Hex.
  rewrite <- (lastSatisfies_cons e rest).
  - apply Hinv. cbn [existsb]. rewrite Hex. apply orb_true_r.
  - intros ->. discriminate.
Qed.

Lemma leftmostFirst_insert (p : A) (l : list A) :
  leftmostFirst P l -> leftmostFirst P (insertFromRight before p l).
Proof.
  induction l as [| e rest IH]; intros Hinv.
  - unfold leftmostFirst. cbn. now rewrite orb_false_r.
  - specialize (IH (leftmostFirst_tail e rest Hinv)).
    unfold leftmostFirst in *. cbn [insertFromRight].
    destruct (before p e) eqn:Hbefore.
    + rewrite lastSatisfies_cons by apply insertFromRight_not_nil.
      cbn [existsb]. intros Hex. apply IH.
      rewrite existsb_insertFromRight in *.
      destruct (P p) eqn:Hp; [reflexivity |].
      destruct (P e) eqn:He; [| exact Hex].
      rewrite (before_not_P p e Hp He) in Hbefore. discriminate.
    + rewrite lastSatisfies_cons by discriminate.
      cbn [existsb] in *. intros Hex.
      destruct (P e || existsb P rest) eqn:Hrest; [now apply Hinv |].
      apply orb_false_elim in Hrest. destruct Hrest as [He _].
      rewrite orb_false_r in Hex.
      rewrite (before_P p e Hex He) in Hbefore. discriminate.
Qed.

Lemma fold_insert (l acc : list A) :
  let sorted :=
    fold_left (fun prefixRev pivot => insertFromRight before pivot prefixRev)
              l acc in
  (leftmostFirst P acc -> leftmostFirst P sorted) /\
  existsb P sorted = existsb P l || existsb P acc.
Proof.
  revert acc. induction l as [| x l IH]; intros acc; cbn [fold_left existsb].
  - split; [tauto | reflexivity].
  - destruct (IH (insertFromRight before x acc)) as [Hinv Hex].
    split.
    + intros Hacc. now apply Hinv, leftmostFirst_insert.
    + cbv zeta in Hex. rewrite Hex, existsb_insertFromRight.
      now destruct (P x), (existsb P l), (existsb P acc).
Qed.

Lemma lastSatisfies_rev (l : list A) :
  lastSatisfies P l = true ->
  exists y rest, rev l = y :: rest /\ P y = true.
Proof.
  induction l as [| x [| x' l] IH]; [discriminate | |].
  - intros Hx. now exists x, [].
  - intros Hl. destruct (IH Hl) as (y & rest & Hrev & Hy).
    exists y, (rest ++ [x]). split; [| exact Hy].
    change (rev (x :: x' :: l)) with (rev (x' :: l) ++ [x]).
    now rewrite Hrev.
Qed.

End Insertion.

Section Comparator.

Variable query : string.

Lemma compare_exact_left (a b : StockSuggestion) :
  exactMatch query a = true -> compareSuggestions query a b = (-1)%Z.
Proof. unfold exactMatch, compareSuggestions. now intros ->. Qed.

Lemma compare_exact_right (a b : StockSuggestion) :
  exactMatch query a = false -> exactMatch query b = true ->
  compareSuggestions query a b = 1%Z.
Proof. unfold exactMatch, compareSuggestions. now intros -> ->. Qed.

Lemma exact_goesBefore (engine : SortEngine) (p e : StockSuggestion) :
  exactMatch query p = true -> exactMatch query e = false ->
  goesBefore engine (compareSuggestions query) p e = true.
Proof.
  intros Hp He. destruct engine; cbn.
  - now rewrite compare_exact_left.
  - now rewrite compare_exact_right.
Qed.

Lemma nothing_goesBefore_exact (engine : SortEngine)
    (p e : StockSuggestion) :
  exactMatch query p = false -> exactMatch query e = true ->
  goesBefore engine (compareSuggestions query) p e = false.
Proof.
  intros Hp He. destruct engine; cbn.
  - now rewrite compare_exact_right.
  - now rewrite compare_exact_left.
Qed.

(** Away from the exact matches the comparator is antisymmetric. *)
Lemma compare_antisymmetric (a b : StockSuggestion) :
  exactMatch query a = false -> exactMatch query b = false ->
  compareSuggestions query a b = (- compareSuggestions query b a)%Z.
Proof.
  unfold exactMatch, compareSuggestions. intros -> ->.
  destruct (startsWith (symbol a) (toUpperCase query)),
           (startsWith (symbol b) (toUpperCase query)),
           (includes (symbol a) (toUpperCase query)),
           (includes (symbol b) (toUpperCase query)); reflexivity.
Qed.

(** The sorted array starts with an exact match when the array has
    one. *)
Lemma sort_exact_first (engine : SortEngine) (items : list StockSuggestion) :
  existsb (exactMatch query) items = true ->
  exists y rest,
    Array_sort engine (compareSuggestions query) items = y :: rest /\
    exactMatch query y = true.
Proof.
  intros Hex. unfold Array_sort.
  destruct (fold_insert StockSuggestion
              (goesBefore engine (compareSuggestions query))
            (exactMatch query)
              (exact_goesBefore engine)
              (nothing_goesBefore_exact engine) items [])
    as [Hinv Hsorted].
  apply lastSatisfies_rev, Hinv.
  - discriminate.
  - cbv zeta in Hsorted. rewrite Hsorted, Hex. reflexivity.
Qed.

End Comparator.

End RankFacts.

Import App RankFacts.

(** C4: for a non-empty query and an array holding an item whose symbol is
    the query in upper case, the ranked array starts with an item of that
    symbol, wherever the item stood and whichever way the engine calls the
    comparator; and the empty array ranks to the empty array. *)
Theorem rank_exact_match_first
    (engine : SortEngine) (items : list StockSuggestion) (query : string)
    (x : StockSuggestion) :
  query <> EmptyString ->
  In x items ->
  symbol x = toUpperCase query ->
  (exists y rest,
     rank engine items query = y :: rest /\ symbol y = toUpperCase query) /\
  rank engine [] query = [].
Proof.
  intros Hq Hin Hx. split.
  - unfold rank, fetchSuggestions.
    destruct query as [| c query']; [congruence |].
    cbn [suggestions setLoading setSuggestions].
    destruct (sort_exact_first (String c query') engine items)
      as (y & rest & Hsort & Hy).
    + apply existsb_exists. exists x. split; [exact Hin |].
      unfold exactMatch. rewrite Hx. apply String.eqb_refl.
    + exists y, rest. split; [exact Hsort |]. now apply String.eqb_eq.
  - unfold rank, fetchSuggestions. now destruct query.
Qed.

(** The symbol itself, listed last, is ranked first. *)
Lemma rank_exact_match_first_witness :
  (exists y rest,
     rank PivotFirst
       [Examples.microsoft; Examples.appleWarrant; Examples.apple] "aapl"
     = y :: rest /\
     symbol y = toUpperCase "aapl") /\
  rank PivotFirst [] "aapl" = [].
Proof.
  apply (rank_exact_match_first PivotFirst
           [Examples.microsoft; Examples.appleWarrant; Examples.apple]
           "aapl" Examples.apple).
  - discriminate.
  - cbn. tauto.
  - reflexivity.
Defined.

Example rank_example :
  rank PivotFirst
    [Examples.microsoft; Examples.appleWarrant; Examples.apple] "aapl"
  = [Examples.apple; Examples.appleWarrant; Examples.microsoft] /\
  rank ElementFirst
    [Examples.microsoft; Examples.appleWarrant; Examples.apple] "aapl"
  = [Examples.apple; Examples.appleWarrant; Examples.microsoft].
Proof. split; reflexivity. Qed.

(** C5: two suggestions whose symbol is the query in upper case are not
    separated by any of the three rules, yet the comparator answers [-1] for
    them in either order (and for one of them against itself), not [0]; an
    engine that calls the comparator with the later element first, as V8
    does, swaps them, and one that calls it with the earlier element first
    keeps them. *)
Theorem rank_exact_duplicates :
  compareSuggestions "aapl" Examples.apple Examples.appleCdr = (-1)%Z /\
  compareSuggestions "aapl" Examples.appleCdr Examples.apple = (-1)%Z /\
  compareSuggestions "aapl" Examples.apple Examples.apple = (-1)%Z /\
  rank PivotFirst [Examples.apple; Examples.appleCdr] "aapl"
  = [Examples.appleCdr; Examples.apple] /\
  rank ElementFirst [Examples.apple; Examples.appleCdr] "aapl"
  = [Examples.apple; Examples.appleCdr].
Proof. repeat split. Qed.

(* ================================================================== *)
(** ** Further properties of the specification *)

(** X1: on a history in ascending order of date the filtered history is a
    contiguous suffix of it, whatever the zoom level. *)
Theorem filtered_history_is_suffix {library : DateLibrary}
    (now : Z) (st : StockNews.State) :
  StronglySorted dateLe (historyData st) ->
  exists k, getFilteredHistoryData now now st = skipn k (historyData st).
Proof.
  intros Hsorted. unfold getFilteredHistoryData.
  destruct (historyData st) as [| x l] eqn:Hs; [now exists 0 |].
  cbn [List.length Nat.eqb].
  destruct (cutoffOf now now (zoomLevel st)) as [cutoff |].
  - apply (filter_sorted_suffix cutoff (x :: l) Hsorted).
  - now exists 0.
Qed.

(** The example history is in ascending order, and its last year is its
    last two days. *)
Lemma filtered_history_is_suffix_witness :
  exists k,
    getFilteredHistoryData (library := UtcDates.library)
      Examples.noon Examples.noon Examples.loadedLastYear
    = skipn k Examples.history.
Proof.
  apply (filtered_history_is_suffix (library := UtcDates.library)
           Examples.noon Examples.loadedLastYear).
  change (StronglySorted (dateLe (library := UtcDates.library))
            Examples.history).
  unfold Examples.history.
  repeat constructor; vm_compute; discriminate.
Defined.

(** The sentiment tests are strict, so a boundary belongs to the band
    under it: a forecast ending exactly 10 percent above the last price is
    ["Bullish"], exactly 5 percent above ["Neutral"], exactly 5 percent below
    ["Bearish"], exactly 10 percent below ["Strongly Bearish"]; the empty
    forecast fails every test. *)
Example sentiment_boundaries :
  getMarketSentiment [110]%float 100%float = Bullish /\
  getMarketSentiment [105; 111]%float 100%float = StronglyBullish /\
  getMarketSentiment [105]%float 100%float = Neutral /\
  getMarketSentiment [95]%float 100%float = Bearish /\
  getMarketSentiment [90]%float 100%float = StronglyBearish /\
  getMarketSentiment [] 100%float = StronglyBearish.
Proof. repeat split. Qed.

Module PermutationFacts.

Import JS.

Lemma insertFromRight_Permutation {A : Type} (before : A -> A -> bool)
    (p : A) (l : list A) :
  Permutation (insertFromRight before p l) (p :: l).
Proof.
  induction l as [| e rest IH]; cbn [insertFromRight].
  - reflexivity.
  - destruct (before p e); [| reflexivity].
    rewrite IH. apply perm_swap.
Qed.

Lemma Array_sort_Permutation {A : Type} (engine : SortEngine)
    (comparefn : A -> A -> Z) (array : list A) :
  Permutation (Array_sort engine comparefn array) array.
Proof.
  unfold Array_sort. rewrite <- Permutation_rev.
  assert (Hfold : forall acc,
    Permutation
      (fold_left
         (fun prefixRev pivot =>
            insertFromRight (goesBefore engine comparefn) pivot prefixRev)
         array acc)
      (array ++ acc)).
  { induction array as [| x array IH]; intros acc; cbn [fold_left].
    - reflexivity.
    - rewrite IH, insertFromRight_Permutation.
      cbn [app]. symmetry. apply Permutation_middle. }
  rewrite Hfold. now rewrite app_nil_r.
Qed.

End PermutationFacts.

Import PermutationFacts.

(** X3: for a non-empty query the ranked suggestions are a permutation of
    the ones the search answered: none is lost, none is repeated. *)
Theorem rank_is_permutation
    (engine : SortEngine) (items : list StockSuggestion) (query : string) :
  query <> EmptyString ->
  Permutation (rank engine items query) items.
Proof.
  intros Hq. unfold rank, fetchSuggestions.
  destruct query as [| c query']; [congruence |].
  cbn [suggestions setLoading setSuggestions].
  apply Array_sort_Permutation.
Qed.

(** The three suggestions of the example come back, in another order. *)
Lemma rank_is_permutation_witness :
  Permutation
    (rank PivotFirst
       [Examples.microsoft; Examples.appleWarrant; Examples.apple] "aapl")
    [Examples.microsoft; Examples.appleWarrant; Examples.apple].
Proof.
  apply (rank_is_permutation PivotFirst
           [Examples.microsoft; Examples.appleWarrant; Examples.apple] "aapl").
  discriminate.
Defined.

(* ================================================================== *)
(** ** Stability of the ranking *)

Module StableFacts.

Import JS App Spec SortInvariant RankFacts PermutationFacts.

Section ByKey.

Variables (A : Type) (key : A -> nat).

Lemma insert_keeps_order (p : A) (l : list A) :
  StronglySorted (fun a b => key b <= key a) l ->
  StronglySorted (fun a b => key b <= key a) (insertFromRight (keyBefore key) p l).
Proof.
  induction 1 as [| e rest Hrest IH He]; cbn [insertFromRight].
  - repeat constructor.
  - unfold keyBefore at 1. destruct (Nat.ltb_spec (key p) (key e)) as [Hlt | Hge].
    + constructor; [exact IH |].
      apply (Permutation_Forall
               (Permutation_sym
                  (insertFromRight_Permutation (keyBefore key) p rest))).
      constructor; [lia | exact He].
    + constructor; [now constructor |].
      constructor; [exact Hge |].
      eapply Forall_impl; [| exact He]. cbn. intros y Hy. lia.
Qed.

Lemma insert_keeps_ties (k : nat) (p : A) (l : list A) :
  filter (fun x => key x =? k)%nat (insertFromRight (keyBefore key) p l) =
  filter (fun x => key x =? k)%nat (p :: l).
Proof.
  induction l as [| e rest IH]; cbn [insertFromRight]; [reflexivity |].
  unfold keyBefore at 1. destruct (Nat.ltb_spec (key p) (key e)) as [Hlt | Hge];
    [| reflexivity].
  cbn [filter] in *. rewrite IH.
  destruct (Nat.eqb_spec (key e) k), (Nat.eqb_spec (key p) k);
    try reflexivity; lia.
Qed.

Lemma fold_keeps_order (l acc : list A) :
  StronglySorted (fun a b => key b <= key a) acc ->
  StronglySorted (fun a b => key b <= key a)
    (fold_left (fun prefixRev pivot => insertFromRight (keyBefore key) pivot prefixRev)
       l acc).
Proof.
  revert acc. induction l as [| x l IH]; intros acc Hacc; cbn [fold_left].
  - exact Hacc.
  - now apply IH, insert_keeps_order.
Qed.

Lemma fold_keeps_ties (k : nat) (l acc : list A) :
  filter (fun x => key x =? k)%nat
    (fold_left (fun prefixRev pivot => insertFromRight (keyBefore key) pivot prefixRev)
       l acc) =
  rev (filter (fun x => key x =? k)%nat l) ++
  filter (fun x => key x =? k)%nat acc.
Proof.
  revert acc. induction l as [| x l IH]; intros acc; cbn [fold_left].
  - reflexivity.
  - rewrite IH, insert_keeps_ties. cbn [filter].
    destruct (key x =? k)%nat; cbn [rev]; [| reflexivity].
    now rewrite <- app_assoc.
Qed.

Lemma StronglySorted_snoc (R : A -> A -> Prop) (l : list A) (e : A) :
  StronglySorted R l -> Forall (fun b => R b e) l ->
  StronglySorted R (l ++ [e]).
Proof.
  induction 1 as [| y l' _ IH Hy]; intros He; cbn [app].
  - repeat constructor.
  - inversion He as [| ? ? Hye Hl'e]; subst.
    constructor; [now apply IH |].
    apply Forall_app. split; [exact Hy | now constructor].
Qed.

Lemma StronglySorted_rev (R : A -> A -> Prop) (l : list A) :
  StronglySorted (fun a b => R b a) l -> StronglySorted R (rev l).
Proof.
  induction 1 as [| e rest _ IH He]; cbn [rev]; [constructor |].
  apply StronglySorted_snoc; [exact IH | now apply Forall_rev].
Qed.

End ByKey.

Lemma startsWith_includes (s q : string) :
  startsWith s q = true -> includes s q = true.
Proof.
  unfold startsWith. intros H. destruct s; cbn [includes]; now rewrite H.
Qed.

(** Unless both are exact matches, the comparator sends the pivot before an
    element exactly when its rank is the smaller one, in either order of
    call. *)
Lemma goesBefore_rankClass (engine : SortEngine) (query : string)
    (p e : StockSuggestion) :
  exactMatch query p && exactMatch query e = false ->
  goesBefore engine (compareSuggestions query) p e =
  keyBefore (rankClass query) p e.
Proof.
  intros Hnot.
  pose proof (startsWith_includes (symbol p) (toUpperCase query)) as Hp.
  pose proof (startsWith_includes (symbol e) (toUpperCase query)) as He.
  unfold goesBefore, compareSuggestions, keyBefore, rankClass, exactMatch in *.
  destruct (String.eqb (symbol p) (toUpperCase query)),
           (String.eqb (symbol e) (toUpperCase query)),
           (startsWith (symbol p) (toUpperCase query)),
           (startsWith (symbol e) (toUpperCase query)),
           (includes (symbol p) (toUpperCase query)),
           (includes (symbol e) (toUpperCase query)),
           engine;
    try reflexivity; try discriminate;
    try (specialize (Hp eq_refl); discriminate);
    try (specialize (He eq_refl); discriminate).
Qed.

Lemma insertFromRight_ext {A : Type} (before before' : A -> A -> bool)
    (p : A) (l : list A) :
  (forall e, In e l -> before p e = before' p e) ->
  insertFromRight before p l = insertFromRight before' p l.
Proof.
  induction l as [| e rest IH]; intros Hsame; cbn [insertFromRight].
  - reflexivity.
  - rewrite <- (Hsame e (or_introl eq_refl)).
    destruct (before p e); [| reflexivity].
    f_equal. apply IH. intros e' He'. apply Hsame. now right.
Qed.

Lemma exactMatches_insert (query : string)
    (before : StockSuggestion -> StockSuggestion -> bool)
    (p : StockSuggestion) (l : list StockSuggestion) :
  exactMatches query (insertFromRight before p l) =
  exactMatches query (p :: l).
Proof.
  unfold exactMatches.
  induction l as [| e rest IH]; cbn [insertFromRight]; [reflexivity |].
  destruct (before p e); [| reflexivity].
  cbn [filter] in *.
  destruct (exactMatch query e), (exactMatch query p);
    cbn [List.length] in *; lia.
Qed.

Lemma exactMatches_In (query : string) (e : StockSuggestion)
    (l : list StockSuggestion) :
  In e l -> exactMatch query e = true -> 1 <= exactMatches query l.
Proof.
  unfold exactMatches. induction l as [| y l IH]; [contradiction |].
  intros [-> | Hin] He; cbn [filter].
  - rewrite He. cbn. lia.
  - specialize (IH Hin He). destruct (exactMatch query y); cbn; lia.
Qed.

(** With at most one exact match among the elements sorted and to sort, the
    insertion sort by the comparator is the insertion sort by rank. *)
Lemma fold_by_rank (engine : SortEngine) (query : string)
    (l acc : list StockSuggestion) :
  exactMatches query acc + exactMatches query l <= 1 ->
  fold_left
    (fun prefixRev pivot =>
       insertFromRight (goesBefore engine (compareSuggestions query))
         pivot prefixRev) l acc =
  fold_left
    (fun prefixRev pivot =>
       insertFromRight (keyBefore (rankClass query)) pivot prefixRev) l acc.
Proof.
  revert acc. induction l as [| x l IH]; intros acc Hone; cbn [fold_left].
  - reflexivity.
  - assert (Hstep :
      insertFromRight (goesBefore engine (compareSuggestions query)) x acc =
      insertFromRight (keyBefore (rankClass query)) x acc).
    { apply insertFromRight_ext. intros e He. apply goesBefore_rankClass.
      destruct (exactMatch query x) eqn:Hx; [| reflexivity].
      destruct (exactMatch query e) eqn:Hex; [| reflexivity].
      pose proof (exactMatches_In query e acc He Hex) as Hacc.
      unfold exactMatches in Hone at 2. cbn [filter] in Hone.
      rewrite Hx in Hone. cbn [List.length] in Hone. lia. }
    rewrite Hstep. apply IH.
    rewrite exactMatches_insert.
    unfold exactMatches in *. cbn [filter] in *.
    destruct (exactMatch query x); cbn [List.length] in *; lia.
Qed.

End StableFacts.

Import SortInvariant StableFacts.

(** X4: for a non-empty query and suggestions with at most one exact match,
    the ranking is a stable sort by the three rules, and the same one for
    either order in which the engine calls the comparator: the ranked
    suggestions are a permutation of the input, in ascending rank, the items
    of each rank in their input order. *)
Theorem rank_is_stable
    (engine : SortEngine) (items : list StockSuggestion) (query : string) :
  query <> EmptyString ->
  exactMatches query items <= 1 ->
  StablyRanked query items (rank engine items query) /\
  rank PivotFirst items query = rank ElementFirst items query.
Proof.
  intros Hq Hone.
  assert (Hrank : forall eng,
    rank eng items query =
    rev (fold_left
           (fun prefixRev pivot =>
              insertFromRight (keyBefore (rankClass query)) pivot prefixRev)
           items [])).
  { intros eng. unfold rank, fetchSuggestions.
    destruct query as [| c query']; [congruence |].
    cbn [suggestions setLoading setSuggestions]. unfold Array_sort.
    rewrite fold_by_rank; [reflexivity |].
    unfold exactMatches at 1. cbn [filter List.length]. lia. }
  split; [| now rewrite !Hrank].
  split; [| split].
  - unfold rank, fetchSuggestions.
    destruct query as [| c query']; [congruence |].
    cbn [suggestions setLoading setSuggestions].
    apply Array_sort_Permutation.
  - rewrite Hrank. apply StronglySorted_rev, fold_keeps_order. constructor.
  - intros k. rewrite Hrank. unfold ofRank.
    rewrite filter_rev, fold_keeps_ties.
    cbn [filter]. now rewrite app_nil_r, rev_involutive.
Qed.

(** One exact match, listed last, among three suggestions. *)
Lemma rank_is_stable_witness :
  StablyRanked "aapl"
    [Examples.microsoft; Examples.appleWarrant; Examples.apple]
    (rank ElementFirst
       [Examples.microsoft; Examples.appleWarrant; Examples.apple] "aapl") /\
  rank PivotFirst
    [Examples.microsoft; Examples.appleWarrant; Examples.apple] "aapl" =
  rank ElementFirst
    [Examples.microsoft; Examples.appleWarrant; Examples.apple] "aapl".
Proof.
  apply (rank_is_stable ElementFirst
           [Examples.microsoft; Examples.appleWarrant; Examples.apple] "aapl").
  - discriminate.
  - vm_compute. lia.
Defined.

(* ================================================================== *)
(** ** The sentiment of a forecast *)

Module SentimentFacts.

Import JS StockNews NumberFacts.
Local Open Scope float_scope.

Lemma nth_error_last {A : Type} (l : list A) (x : A) :
  nth_error (l ++ [x]) (List.length (l ++ [x]) - 1) = Some x.
Proof.
  rewrite length_app. cbn [List.length].
  replace (List.length l + 1 - 1)%nat with (List.length l) by lia.
  rewrite nth_error_app2 by lia. now rewrite Nat.sub_diag.
Qed.

(** No number is above a [NaN] percentage. *)
Lemma ltb_nan_r (k x : number) : Prim2SF x = S754_nan -> (k <? x) = false.
Proof.
  intros Hx. rewrite ltb_spec, Hx. unfold SFltb, SFcompare.
  now destruct (Prim2SF k).
Qed.

(** The percentage of a [NaN] last prediction is [NaN]. *)
Lemma percent_of_nan (p : number) :
  Prim2SF ((nan - p) / p * 100) = S754_nan.
Proof.
  rewrite mul_spec, div_spec, sub_spec.
  change (Prim2SF nan) with S754_nan. reflexivity.
Qed.

(** The percentage of a last prediction equal to a finite, non-zero price is
    a zero. *)
Lemma percent_of_flat (p : number) :
  isFinite p = true -> (p =? 0) = false ->
  exists s, Prim2SF ((p - p) / p * 100) = S754_zero s.
Proof.
  intros Hfin Hnz. rewrite mul_spec, div_spec, (sub_diag_finite p Hfin).
  unfold isFinite in Hfin.
  rewrite is_nan_spec, is_infinity_spec in Hfin. rewrite eqb_zero_spec in Hnz.
  change (Prim2SF 0) with (S754_zero false).
  change (Prim2SF 100) with (S754_finite false 7036874417766400 (-46)).
  destruct (Prim2SF p) as [s | s | | s m e]; try discriminate.
  cbn. eauto.
Qed.

(** The percentage of a last prediction against a price that is a zero: a
    [NaN] when the prediction is a zero too, otherwise the infinity whose
    sign is that of the prediction, turned over by a negative zero. *)
Lemma percent_of_zero_price (x p : number) :
  (p =? 0) = true -> is_nan x = false ->
  if x =? 0 then Prim2SF ((x - p) / p * 100) = S754_nan
  else Prim2SF ((x - p) / p * 100) =
       S754_infinity (xorb (x <? 0) (1 / p <? 0)).
Proof.
  intros Hzero Hnan.
  rewrite !ltb_spec, mul_spec, !div_spec, sub_spec, eqb_zero_spec.
  rewrite is_nan_spec in Hnan. rewrite eqb_zero_spec in Hzero.
  change (Prim2SF 0) with (S754_zero false).
  change (Prim2SF 1) with (S754_finite false 4503599627370496 (-52)).
  change (Prim2SF 100) with (S754_finite false 7036874417766400 (-46)).
  destruct (Prim2SF p) as [sp | sp | | sp mp ep]; try discriminate.
  destruct (Prim2SF x) as [sx | sx | | sx mx ex]; try discriminate;
    destruct sx, sp; reflexivity.
Qed.

End SentimentFacts.

Import SentimentFacts.

(** X2: the sentiment looks at the last prediction only, and with no
    prediction at all it is ["Strongly Bearish"], whatever the last price:
    the percentage is [NaN] and fails every test. *)
Theorem sentiment_of_last_prediction :
  (forall (earlier : list number) (x lastPrice : number),
     getMarketSentiment (earlier ++ [x]) lastPrice =
     getMarketSentiment [x] lastPrice) /\
  (forall lastPrice : number,
     getMarketSentiment [] lastPrice = StronglyBearish).
Proof.
  split.
  - intros earlier x lastPrice. unfold getMarketSentiment.
    now rewrite nth_error_last.
  - intros lastPrice. unfold getMarketSentiment. cbn [List.length nth_error Nat.sub].
    cbv zeta.
    now rewrite !(ltb_nan_r _ _ (percent_of_nan lastPrice)).
Qed.

(** X5: a forecast that ends on the last price, finite and not zero, is
    ["Neutral"]. *)
Theorem sentiment_of_flat_forecast (earlier : list number) (lastPrice : number) :
  isFinite lastPrice = true ->
  (lastPrice =? 0)%float = false ->
  getMarketSentiment (earlier ++ [lastPrice]) lastPrice = Neutral.
Proof.
  intros Hfin Hnz. unfold getMarketSentiment. rewrite nth_error_last. cbv zeta.
  destruct (percent_of_flat lastPrice Hfin Hnz) as [s Hs].
  rewrite !ltb_spec, Hs. now destruct s.
Qed.

Lemma sentiment_of_flat_forecast_witness :
  getMarketSentiment ([180; 190] ++ [183])%float 183%float = Neutral.
Proof.
  exact (sentiment_of_flat_forecast [180; 190]%float 183%float
           eq_refl eq_refl).
Defined.

(** X6: against a last price that is a zero the division does not fail.
    A forecast ending on a zero is ["Strongly Bearish"], the percentage
    being [NaN]. One ending on any other number is ["Strongly Bullish"] or
    ["Strongly Bearish"], the percentage being an infinity: against [+0] by
    the sign of the last prediction, and against [-0] the other way
    round. *)
Theorem sentiment_of_zero_price
    (earlier : list number) (x lastPrice : number) :
  (lastPrice =? 0)%float = true ->
  is_nan x = false ->
  getMarketSentiment (earlier ++ [x]) lastPrice =
  if (x =? 0)%float then StronglyBearish
  else if xorb (x <? 0)%float (1 / lastPrice <? 0)%float
       then StronglyBearish else StronglyBullish.
Proof.
  intros Hzero Hnan. unfold getMarketSentiment. rewrite nth_error_last.
  cbv zeta.
  pose proof (percent_of_zero_price x lastPrice Hzero Hnan) as Hpercent.
  destruct (x =? 0)%float.
  - now rewrite !(ltb_nan_r _ _ Hpercent).
  - destruct (xorb (x <? 0)%float (1 / lastPrice <? 0)%float);
      rewrite !(ltb_spec _ ((x - lastPrice) / lastPrice * 100)%float),
        Hpercent; reflexivity.
Qed.

(** The same forecast, ending on [3], against the two zeros, and a forecast
    ending on [-3] against [+0]. *)
Lemma sentiment_of_zero_price_witness :
  getMarketSentiment ([1; 2] ++ [3])%float 0%float = StronglyBullish /\
  getMarketSentiment ([1; 2] ++ [3])%float (-0)%float = StronglyBearish /\
  getMarketSentiment ([1; 2] ++ [-3])%float 0%float = StronglyBearish.
Proof.
  split; [| split].
  - exact (sentiment_of_zero_price [1; 2]%float 3%float 0%float
             eq_refl eq_refl).
  - exact (sentiment_of_zero_price [1; 2]%float 3%float (-0)%float
             eq_refl eq_refl).
  - exact (sentiment_of_zero_price [1; 2]%float (-3)%float 0%float
             eq_refl eq_refl).
Defined.

(* ================================================================== *)
(** ** When the chart data throws, and the label axis *)

Module ChartErrorFacts.

Import JS StockNews Spec.

Lemma mapThrowing_throws {A B : Type} (f : A -> option B) (l : list A) :
  mapThrowing f l = None <-> Exists (fun x => f x = None) l.
Proof.
  induction l as [| x l IH]; cbn [mapThrowing].
  - split; [discriminate | intros H; inversion H].
  - destruct (f x) as [y |] eqn:Hfx.
    + destruct (mapThrowing f l) as [ys |].
      * split; [discriminate |].
        intros H. inversion H as [? ? Hx | ? ? Hl]; subst; [congruence |].
        apply IH in Hl. discriminate.
      * split; [| reflexivity]. intros _. right. now apply IH.
    + split; [| reflexivity]. intros _. now left.
Qed.

Lemma mapThrowing_length {A B : Type} (f : A -> option B) (l : list A)
    (ys : list B) :
  mapThrowing f l = Some ys -> List.length ys = List.length l.
Proof.
  revert ys. induction l as [| x l IH]; cbn [mapThrowing]; intros ys.
  - now intros [= <-].
  - destruct (f x) as [y |]; [| discriminate].
    destruct (mapThrowing f l) as [ys' |]; [| discriminate].
    intros [= <-]. cbn. f_equal. now apply IH.
Qed.

(** The items a cutoff keeps have a valid date. *)
Lemma kept_items_valid {library : DateLibrary} (cutoff : Date)
    (s : list StockHistoryData) :
  Forall validDate
    (filter (fun item => Date_geb (newDate (date item)) cutoff) s).
Proof.
  apply Forall_forall. intros item Hin. apply filter_In in Hin.
  destruct Hin as [_ Hge]. unfold validDate, newDate in *.
  destruct (Date_parse (date item)); [discriminate | discriminate Hge].
Qed.

Lemma getChartData_throws {library : DateLibrary} (now cutoffDate : Z)
    (st : State) :
  getChartData now cutoffDate st = None <->
  Exists (fun item => Date_parse (date item) = None)
    (getFilteredHistoryData now cutoffDate st).
Proof.
  assert (Hformat : forall item : StockHistoryData,
            format (newDate (date item)) = None <->
            Date_parse (date item) = None).
  { intros item. unfold format, newDate.
    destruct (Date_parse (date item)); cbn; split; congruence. }
  transitivity
    (mapThrowing (fun item => format (newDate (date item)))
       (getFilteredHistoryData now cutoffDate st) = None).
  - unfold getChartData.
    destruct (mapThrowing _ (getFilteredHistoryData now cutoffDate st));
      split; congruence.
  - rewrite mapThrowing_throws.
    split; apply Exists_impl; intros item; apply Hformat.
Qed.

End ChartErrorFacts.

Import ChartErrorFacts.

(** X7: the chart data throws exactly when an item of the filtered history
    has an invalid date; on the zoom levels ['1y'], ['5y'] and ['10y'] it
    never does, the window keeping no such item. *)
Theorem chart_data_throws_on_invalid_date {library : DateLibrary}
    (now cutoffDate : Z) (st : StockNews.State) :
  (getChartData now cutoffDate st = None <->
   Exists (fun item => Date_parse (date item) = None)
     (getFilteredHistoryData now cutoffDate st)) /\
  (zoomLevel st <> zoom_all -> getChartData now cutoffDate st <> None).
Proof.
  split; [apply getChartData_throws |].
  intros Hzoom Hthrows. apply getChartData_throws in Hthrows.
  apply Exists_exists in Hthrows. destruct Hthrows as (item & Hin & Hbad).
  assert (Hvalid : Forall validDate (getFilteredHistoryData now cutoffDate st)).
  { unfold getFilteredHistoryData.
    destruct (List.length (historyData st) =? 0)%nat; [constructor |].
    destruct (zoomLevel st); try apply kept_items_valid. congruence. }
  rewrite Forall_forall in Hvalid. now apply (Hvalid item Hin).
Qed.

(** A history with an unreadable date: the whole history throws, the window
    of the last year does not. *)
Lemma chart_data_throws_on_invalid_date_witness :
  let broken :=
    setHistoryData (Examples.day "n/a" 10 :: Examples.history)
      Examples.loaded in
  getChartData (library := UtcDates.library)
    Examples.noon Examples.noon broken = None /\
  getChartData (library := UtcDates.library)
    Examples.noon Examples.noon (setZoomLevel (fun _ => zoom_1y) broken)
  <> None.
Proof.
  split.
  - apply (chart_data_throws_on_invalid_date (library := UtcDates.library)).
    left. reflexivity.
  - apply (chart_data_throws_on_invalid_date (library := UtcDates.library)).
    discriminate.
Defined.

(** X8: with valid dates and a prediction of four parallel sequences, the
    label axis has one label for each history point and each predicted date,
    and the predicted, upper-bound and lower-bound datasets have one value
    for each label; the historical dataset stops after the history
    points. *)
Theorem chart_axis_is_aligned {library : DateLibrary}
    (now cutoffDate : Z) (st : StockNews.State) (p : PredictionData) :
  let h := getFilteredHistoryData now cutoffDate st in
  Forall validDate h ->
  predictionData st = Some p ->
  parallel p ->
  exists chart,
    getChartData now cutoffDate st = Some chart /\
    List.length (labels chart) = List.length h + List.length (dates p) /\
    Forall (fun d => List.length (data d) = List.length (labels chart))
           (tl (datasets chart)) /\
    Forall (fun d => List.length (data d) = List.length h)
           (firstn 1 (datasets chart)).
Proof.
  intros h Hvalid Hp (Hpred & Hup & Hlow).
  destruct (getChartData now cutoffDate st) as [chart |] eqn:Hchart.
  2:{ apply getChartData_throws, Exists_exists in Hchart.
      destruct Hchart as (item & Hin & Hbad).
      rewrite Forall_forall in Hvalid. now destruct (Hvalid item Hin). }
  exists chart. split; [reflexivity |].
  unfold getChartData in Hchart. fold h in Hchart. rewrite Hp in Hchart.
  destruct (mapThrowing _ h) as [formatted |] eqn:Hmap; [| discriminate].
  apply mapThrowing_length in Hmap.
  injection Hchart as <-. cbn [labels datasets app tl firstn].
  rewrite length_app, Hmap.
  split; [reflexivity |]. split.
  - repeat constructor; cbn [data]; unfold nullsThen;
      rewrite length_app, repeat_length, length_map; lia.
  - repeat constructor. cbn [data]. apply length_map.
Qed.

Lemma chart_axis_is_aligned_witness :
  exists chart,
    getChartData (library := UtcDates.library)
      Examples.noon Examples.noon Examples.loadedLastYear = Some chart /\
    List.length (labels chart) = 2 + 2 /\
    Forall (fun d => List.length (data d) = List.length (labels chart))
           (tl (datasets chart)) /\
    Forall (fun d => List.length (data d) = 2)
           (firstn 1 (datasets chart)).
Proof.
  assert (Hfiltered :
    getFilteredHistoryData (library := UtcDates.library)
      Examples.noon Examples.noon Examples.loadedLastYear =
    [Examples.day "2024-01-15" 185; Examples.day "2024-01-16" 183])
    by (vm_compute; reflexivity).
  apply (chart_axis_is_aligned (library := UtcDates.library)
           Examples.noon Examples.noon Examples.loadedLastYear
           Examples.forecast).
  - rewrite Hfiltered. repeat constructor; discriminate.
  - reflexivity.
  - repeat split.
Defined.

(* ================================================================== *)
(** ** Runs of the gesture handlers *)

Module GestureRunFacts.

Import JS StockNews GestureSpec NumberFacts GestureFacts.

Lemma zoomSteps_refl_0 (z : ZoomLevel) : (zoomSteps z z <= 0)%Z.
Proof. unfold zoomSteps. lia. Qed.

Lemma zoomSteps_triangle (a b c : ZoomLevel) :
  (zoomSteps a c <= zoomSteps a b + zoomSteps b c)%Z.
Proof. unfold zoomSteps. lia. Qed.

(** A move changes the zoom level by one step at most, in any state. *)
Lemma handleTouchMove_one_step (e : TouchEvent) (st : State) :
  (zoomSteps (zoomLevel st) (zoomLevel (handleTouchMove e st)) <= 1)%Z.
Proof.
  unfold handleTouchMove, Closure.handleTouchMove.
  destruct (isZooming st && (List.length (touches e) =? 2)%nat
            && truthy_or_null (touchStartDistance st));
    [| apply zoomSteps_refl].
  destruct (touches e) as [| t0 [| t1 [| t2 ts]]]; try apply zoomSteps_refl.
  destruct (touchStartDistance st) as [d |]; [| apply zoomSteps_refl].
  cbv zeta.
  destruct (ZOOM_SENSITIVITY <? Math_abs (touchDistance t0 t1 - d))%float;
    [| apply zoomSteps_refl].
  cbn [zoomLevel setTouchStartDistance setZoomLevel].
  destruct (touchDistance t0 t1 - d <? 0)%float;
    [apply zoomSteps_pinchIn | apply zoomSteps_pinchOut].
Qed.

Lemma handle_steps (ev : GestureEvent) (st : State) :
  (zoomSteps (zoomLevel st) (zoomLevel (handle ev st))
   <= Z.of_nat (countMoves [ev]))%Z.
Proof.
  destruct ev as [e | e |]; cbn [handle countMoves].
  - unfold handleTouchStart.
    destruct (List.length (touches e) =? 2)%nat; [| apply zoomSteps_refl_0].
    destruct (touches e) as [| t0 [| t1 [| t2 ts]]]; apply zoomSteps_refl_0.
  - apply handleTouchMove_one_step.
  - apply zoomSteps_refl_0.
Qed.

(** A move leaves the state or, in a gesture under way, records a new
    reference distance and steps the zoom level. *)
Lemma handleTouchMove_cases (e : TouchEvent) (st : State) :
  handleTouchMove e st = st \/
  (isZooming st = true /\
   exists c f,
     handleTouchMove e st =
     setTouchStartDistance (Some c) (setZoomLevel f st)).
Proof.
  unfold handleTouchMove, Closure.handleTouchMove.
  destruct (isZooming st) eqn:Hz; cbn [andb]; [| now left].
  destruct ((List.length (touches e) =? 2)%nat
            && truthy_or_null (touchStartDistance st)); [| now left].
  destruct (touches e) as [| t0 [| t1 [| t2 ts]]]; try now left.
  destruct (touchStartDistance st) as [d |]; [| now left].
  cbv zeta.
  destruct (ZOOM_SENSITIVITY <? Math_abs (touchDistance t0 t1 - d))%float;
    [| now left].
  right. split; [reflexivity |]. eauto.
Qed.

Lemma handle_consistent (ev : GestureEvent) (st : State) :
  gestureConsistent st -> gestureConsistent (handle ev st).
Proof.
  unfold gestureConsistent. intros Hst.
  destruct ev as [e | e |]; cbn [handle].
  - unfold handleTouchStart.
    destruct (List.length (touches e) =? 2)%nat; [| exact Hst].
    destruct (touches e) as [| t0 [| t1 [| t2 ts]]]; try exact Hst.
    cbn. split; [discriminate | reflexivity].
  - destruct (handleTouchMove_cases e st) as [-> | (Hz & c & f & ->)];
      [exact Hst |].
    cbn. split; [discriminate | intros _; exact Hz].
  - cbn. split; [discriminate | congruence].
Qed.

(** A handler writes the zoom level and the two gesture slots only,
    whichever render it belongs to. *)
Lemma handle_writes (ev : GestureEvent) (c : Component.Instance) :
  let st := Component.pending c in
  let st' := Component.pending (Component.handle ev c) in
  sameAnswers st st' /\ isLoading st' = isLoading st /\ error st' = error st.
Proof.
  unfold sameAnswers.
  destruct ev as [e | e |]; cbn [Component.handle Component.pending].
  - unfold handleTouchStart.
    destruct (List.length (touches e) =? 2)%nat; [| now repeat split].
    destruct (touches e) as [| t0 [| t1 [| t2 ts]]]; now repeat split.
  - unfold Closure.handleTouchMove.
    destruct (isZooming (Component.seen c)
              && (List.length (touches e) =? 2)%nat
              && truthy_or_null (touchStartDistance (Component.seen c)));
      [| now repeat split].
    destruct (touches e) as [| t0 [| t1 [| t2 ts]]]; try now repeat split.
    destruct (touchStartDistance (Component.seen c)) as [d |];
      [| now repeat split].
    cbv zeta.
    destruct (ZOOM_SENSITIVITY <? Math_abs (touchDistance t0 t1 - d))%float;
      now repeat split.
  - now repeat split.
Qed.

Lemma sameZoomLevel_spec (a b : ZoomLevel) :
  Component.sameZoomLevel a b = true <-> a = b.
Proof.
  unfold Component.sameZoomLevel. rewrite Z.eqb_eq.
  split; [| now intros ->]. destruct a, b; cbn; congruence.
Qed.

Lemma step_throughEffect (symbol : string) (ev : Component.Event)
    (c c' : Component.Instance) :
  throughEffect symbol c c' ->
  throughEffect symbol c (Component.step symbol ev c').
Proof.
  unfold throughEffect. intros ((Hn & Hl & Hh & Hp) & Hslots).
  destruct ev as [g |]; cbn [Component.step].
  - destruct (handle_writes g c') as ((Kn & Kl & Kh & Kp) & Ki & Ke).
    cbv zeta in Kn, Kl, Kh, Kp, Ki, Ke.
    split; [unfold sameAnswers; repeat split; congruence |].
    unfold historyRequested in *.
    destruct Hslots as [(Hi & He & Hz) | (Hs & Hi & He)].
    + left. repeat split; try congruence. exact Hz.
    + right. repeat split; congruence.
  - unfold Component.render. cbn [Component.pending Component.seen].
    cbv zeta.
    destruct (Component.sameZoomLevel (zoomLevel (Component.pending c'))
                (zoomLevel (Component.seen c'))) eqn:Hsame.
    + apply sameZoomLevel_spec in Hsame.
      split; [unfold sameAnswers; now repeat split |].
      destruct Hslots as [(Hi & He & Hz) | Hreq]; [left | now right].
      repeat split; try assumption.
      destruct Hz as [Hz | Hz]; [now left | right; congruence].
    + unfold fetchHistoricalData_begin.
      destruct symbol as [| ch symbol'].
      * split; [unfold sameAnswers; now repeat split |].
        destruct Hslots as [(Hi & He & Hz) | (Hs & _)];
          [| now contradiction Hs].
        left. repeat split; try assumption. now left.
      * split; [unfold sameAnswers; now repeat split |].
        right. split; [discriminate | now split].
Qed.

Lemma run_snoc (symbol : string) (evs : list Component.Event)
    (ev : Component.Event) (c : Component.Instance) :
  Component.run symbol (evs ++ [ev]) c =
  Component.step symbol ev (Component.run symbol evs c).
Proof. unfold Component.run. now rewrite fold_left_app. Qed.

Lemma run_throughEffect (symbol : string) (evs : list Component.Event)
    (c : Component.Instance) :
  throughEffect symbol c (Component.run symbol evs c).
Proof.
  induction evs as [| ev evs IH] using rev_ind.
  - split; [unfold sameAnswers; now repeat split |].
    left. repeat split. now right.
  - rewrite run_snoc. now apply step_throughEffect.
Qed.

(** A handler reads the gesture slots of its render and writes the zoom
    level and the gesture slots of the pending state, as the handler of the
    component that renders after each event does. *)
Lemma handle_sameGesture (ev : GestureEvent) (c : Component.Instance)
    (st : State) :
  sameGesture st (Component.seen c) ->
  sameGesture st (Component.pending c) ->
  sameGesture (handle ev st) (Component.pending (Component.handle ev c)).
Proof.
  unfold sameGesture. intros (Sz & Si & Sd) (Pz & Pi & Pd).
  destruct ev as [e | e |]; cbn [handle Component.handle Component.pending].
  - unfold handleTouchStart.
    destruct (List.length (touches e) =? 2)%nat;
      [| repeat split; assumption].
    destruct (touches e) as [| t0 [| t1 [| t2 ts]]]; cbn;
      repeat split; assumption.
  - unfold handleTouchMove, Closure.handleTouchMove. rewrite Si, Sd.
    destruct (isZooming st && (List.length (touches e) =? 2)%nat
              && truthy_or_null (touchStartDistance st));
      [| repeat split; assumption].
    destruct (touches e) as [| t0 [| t1 [| t2 ts]]];
      try (repeat split; assumption).
    destruct (touchStartDistance st) as [d |] eqn:Hd;
      [| repeat split; congruence].
    destruct (ZOOM_SENSITIVITY <? Math_abs (touchDistance t0 t1 - d))%float;
      [| repeat split; congruence].
    cbn. rewrite Pz. now repeat split.
  - cbn. now repeat split.
Qed.

(** The run of the handlers alone is the run of the component with a render
    after each event, as far as the zoom level and the gesture slots go. *)
Lemma run_renderedEach (symbol : string) (evs : list GestureEvent)
    (c : Component.Instance) (st : State) :
  sameGesture st (Component.seen c) ->
  sameGesture st (Component.pending c) ->
  sameGesture (run evs st)
    (Component.pending (Component.run symbol (renderedEach evs) c)).
Proof.
  revert c st. induction evs as [| ev evs IH]; intros c st Hseen Hpending.
  - exact Hpending.
  - change (run (ev :: evs) st) with (run evs (handle ev st)).
    change (Component.run symbol (renderedEach (ev :: evs)) c)
      with (Component.run symbol (renderedEach evs)
              (Component.render symbol (Component.handle ev c))).
    pose proof (handle_sameGesture ev c st Hseen Hpending) as Hstep.
    apply IH.
    + exact Hstep.
    + unfold Component.render. cbn [Component.pending]. cbv zeta.
      destruct (Component.sameZoomLevel _ _); [exact Hstep |].
      unfold fetchHistoricalData_begin. now destruct symbol.
Qed.

(** With no gesture under way and nothing written since the render, an
    event that cannot engage leaves the component as it is. *)
Lemma step_cannot_engage (symbol : string) (ev : Component.Event)
    (st : State) :
  cannotEngage ev ->
  isZooming st = false ->
  touchStartDistance st = None ->
  Component.step symbol ev (Component.rendered st) = Component.rendered st.
Proof.
  intros Hev Hidle Hnone. unfold Component.rendered.
  destruct ev as [[e | e |] |];
    cbn [Component.step cannotEngage] in *;
    unfold Component.handle, Component.render;
    cbn [Component.seen Component.pending]; f_equal.
  - unfold handleTouchStart.
    destruct (Nat.eqb_spec (List.length (touches e)) 2); [contradiction |].
    reflexivity.
  - unfold Closure.handleTouchMove. now rewrite Hidle.
  - destruct st. cbn in Hidle, Hnone. subst. reflexivity.
  - assert (Hsame : Component.sameZoomLevel (zoomLevel st) (zoomLevel st)
                    = true) by now apply sameZoomLevel_spec.
    now rewrite Hsame.
Qed.

End GestureRunFacts.

Import GestureSpec GestureRunFacts.

(** X9: over any run of gesture events the two gesture slots stay in
    agreement (a gesture is under way exactly when a reference distance is
    recorded), and the zoom level moves by no more steps than the run has
    move events. *)
Theorem gesture_run_invariant (evs : list GestureEvent) (st : StockNews.State) :
  gestureConsistent st ->
  gestureConsistent (run evs st) /\
  (zoomSteps (zoomLevel st) (zoomLevel (run evs st))
   <= Z.of_nat (countMoves evs))%Z.
Proof.
  revert st. induction evs as [| ev evs IH]; intros st Hst.
  - split; [exact Hst | apply zoomSteps_refl_0].
  - destruct (IH (handle ev st) (handle_consistent ev st Hst)) as [Hc Hsteps].
    split; [exact Hc |].
    change (run (ev :: evs) st) with (run evs (handle ev st)).
    pose proof (handle_steps ev st) as Hone.
    pose proof (zoomSteps_triangle (zoomLevel st) (zoomLevel (handle ev st))
                  (zoomLevel (run evs (handle ev st)))) as Htri.
    assert (Hcount : countMoves (ev :: evs) =
                     countMoves [ev] + countMoves evs)
      by (destruct ev; cbn; lia).
    rewrite Hcount. lia.
Qed.

(** Three pinch-out moves from the whole history: three steps, and the
    gesture still under way. *)
Lemma gesture_run_invariant_witness :
  let evs :=
    [TouchStart (Examples.fingers 100); TouchMove (Examples.fingers 160);
     TouchMove (Examples.fingers 220); TouchMove (Examples.fingers 280)] in
  gestureConsistent (run evs Examples.idle) /\
  (zoomSteps (zoomLevel Examples.idle) (zoomLevel (run evs Examples.idle))
   <= Z.of_nat (countMoves evs))%Z.
Proof.
  apply (gesture_run_invariant
           [TouchStart (Examples.fingers 100); TouchMove (Examples.fingers 160);
            TouchMove (Examples.fingers 220); TouchMove (Examples.fingers 280)]
           Examples.idle).
  split; [discriminate | intros H; now contradiction H].
Defined.

(** X10: the gesture handlers never write the slots of the answers, and
    what a pinch changes of [isLoading] and [error] it changes through the
    effect that a rendered change of the zoom level runs again. Over any run
    of gesture events and renders, the news, its loading flag, the history
    and the prediction stay as they were; [isLoading] and [error] stay as
    they were or are [true] and [null], the start of a history request; they
    stay when the symbol is empty, and a request has started whenever the
    symbol is not empty and the zoom level rendered at the end is not the
    one rendered at the start. *)
Theorem gesture_run_writes_through_effect
    (symbol : string) (evs : list Component.Event) (c : Component.Instance) :
  let st := Component.pending c in
  let c' := Component.run symbol evs c in
  let st' := Component.pending c' in
  sameAnswers st st' /\
  ((isLoading st' = isLoading st /\ StockNews.error st' = StockNews.error st)
   \/ historyRequested st') /\
  (symbol = EmptyString ->
   isLoading st' = isLoading st /\ StockNews.error st' = StockNews.error st) /\
  (symbol <> EmptyString ->
   zoomLevel (Component.seen c') <> zoomLevel (Component.seen c) ->
   historyRequested st').
Proof.
  intros st c' st'.
  destruct (run_throughEffect symbol evs c) as [Hanswers Hslots].
  fold c' in Hanswers, Hslots. fold st st' in Hanswers, Hslots.
  split; [exact Hanswers |].
  destruct Hslots as [(Hi & He & Hz) | (Hs & Hreq)]; split; [| split | | split].
  - left. now split.
  - intros _. now split.
  - intros Hs Hzoom. destruct Hz as [Hz | Hz]; contradiction.
  - now right.
  - intros Hempty. contradiction.
  - intros _ _. exact Hreq.
Qed.

(** A pinch out on the loaded component: once rendered, the step of the
    zoom level has started a history request, and the chart gives way to the
    loading text. *)
Example pinch_starts_a_history_request :
  let c :=
    Component.run "AAPL"
      [Component.Handled (TouchStart (Examples.fingers 100));
       Component.Rendered;
       Component.Handled (TouchMove (Examples.fingers 160));
       Component.Rendered]
      (Component.rendered Examples.loaded) in
  zoomLevel (Component.seen c) = zoom_10y /\
  isLoading (Component.seen c) = false /\
  isLoading (Component.pending c) = true /\
  historyData (Component.pending c) = Examples.history.
Proof. repeat split. Qed.

(** X11: with no gesture under way, nothing but a start with exactly two
    touches engages the handlers: over any run of renders, moves, ends of
    contact and starts with another number of touches, the component stays
    as it is, and no request starts. *)
Theorem gesture_needs_two_point_start
    (symbol : string) (evs : list Component.Event) (st : StockNews.State) :
  isZooming st = false ->
  touchStartDistance st = None ->
  Forall cannotEngage evs ->
  Component.run symbol evs (Component.rendered st) = Component.rendered st.
Proof.
  intros Hidle Hnone Hevs. induction Hevs as [| ev evs Hev _ IH].
  - reflexivity.
  - change (Component.run symbol (ev :: evs) (Component.rendered st))
      with (Component.run symbol evs
              (Component.step symbol ev (Component.rendered st))).
    now rewrite (step_cannot_engage symbol ev st Hev Hidle Hnone).
Qed.

(** One finger down, a render, three moves with two fingers, the end of the
    contact and a render: nothing changes. *)
Lemma gesture_needs_two_point_start_witness :
  Component.run "AAPL"
    [Component.Handled
       (TouchStart {| touches := [ {| clientX := 10; clientY := 10 |} ] |});
     Component.Rendered;
     Component.Handled (TouchMove (Examples.fingers 100));
     Component.Handled (TouchMove (Examples.fingers 200));
     Component.Handled (TouchMove (Examples.fingers 300));
     Component.Handled TouchEnd;
     Component.Rendered]
    (Component.rendered Examples.loaded)
  = Component.rendered Examples.loaded.
Proof.
  apply (gesture_needs_two_point_start "AAPL"
           [Component.Handled
              (TouchStart
                 {| touches := [ {| clientX := 10; clientY := 10 |} ] |});
            Component.Rendered;
            Component.Handled (TouchMove (Examples.fingers 100));
            Component.Handled (TouchMove (Examples.fingers 200));
            Component.Handled (TouchMove (Examples.fingers 300));
            Component.Handled TouchEnd;
            Component.Rendered]
           Examples.loaded).
  - reflexivity.
  - reflexivity.
  - repeat constructor. cbn. discriminate.
Defined.

(* ================================================================== *)
(** ** The debounced search *)

Module SearchFacts.

Import JS Search PermutationFacts.

Lemma clear_when_debounced (pg : Page) :
  debounced pg -> timers (clearDebounceTimer pg) = [].
Proof.
  intros [Hlen Hcur]. unfold clearDebounceTimer.
  destruct (timers pg) as [| t [| t' ts]] eqn:Ht.
  - destruct (debounceTimer pg); cbn; [now rewrite Ht | exact Ht].
  - specialize (Hcur t (or_introl eq_refl)). rewrite Hcur. cbn.
    rewrite Ht. cbn. now rewrite Nat.eqb_refl.
  - cbn in Hlen. lia.
Qed.

Lemma clearDebounceTimer_nextTimerId (pg : Page) :
  nextTimerId (clearDebounceTimer pg) = nextTimerId pg.
Proof. unfold clearDebounceTimer. now destruct (debounceTimer pg). Qed.

Lemma handleSearchChange_timers (value : string) (pg : Page) :
  debounced pg ->
  timers (handleSearchChange value pg) =
    [ {| timerId := nextTimerId pg; delay := 150; query := value |} ] /\
  debounceTimer (handleSearchChange value pg) = Some (nextTimerId pg).
Proof.
  intros Hpg. unfold handleSearchChange, handleSearch, setDebounceTimer.
  cbn [timers debounceTimer nextTimerId].
  set (pg1 := onApp _ (onApp _ pg)).
  assert (Hpg1 : debounced pg1) by exact Hpg.
  rewrite (clear_when_debounced pg1 Hpg1), (clearDebounceTimer_nextTimerId pg1).
  split; reflexivity.
Qed.

Lemma filter_debounced (keep : Timer -> bool) (pg : Page) :
  debounced pg ->
  List.length (filter keep (timers pg)) <= 1 /\
  forall t, In t (filter keep (timers pg)) ->
            debounceTimer pg = Some (timerId t).
Proof.
  intros [Hlen Hcur]. split.
  - pose proof (filter_length_le keep (timers pg)). lia.
  - intros t Ht. apply filter_In in Ht. now apply Hcur.
Qed.

Lemma fetchSuggestions_begin_timers (value : string) (pg : Page) :
  timers (fetchSuggestions_begin value pg) = timers pg /\
  debounceTimer (fetchSuggestions_begin value pg) = debounceTimer pg.
Proof. destruct value; now split. Qed.

Lemma fetchSuggestions_begin_requested (value : string) (pg : Page) :
  requested (fetchSuggestions_begin value pg) =
  requested pg ++ match value with
                  | EmptyString => []
                  | _ => [value]
                  end.
Proof. destruct value; cbn; [now rewrite app_nil_r | reflexivity]. Qed.

Lemma step_debounced (engine : SortEngine) (ev : Event) (pg : Page) :
  debounced pg -> debounced (step engine ev pg).
Proof.
  intros Hpg. destruct ev as [value | id | k r | sym | r |]; cbn [step].
  - destruct (handleSearchChange_timers value pg Hpg) as [Ht Hc].
    unfold debounced. rewrite Ht, Hc. split; [cbn; lia |].
    intros t [<- | []]. reflexivity.
  - unfold fireTimer.
    destruct (find _ (timers pg)) as [t |]; [| exact Hpg].
    unfold debounced.
    destruct (fetchSuggestions_begin_timers (query t) (clearTimeout id pg))
      as [-> ->].
    cbn [clearTimeout timers debounceTimer].
    now apply filter_debounced.
  - unfold answerRequest.
    destruct (nth_error (inFlight pg) k); exact Hpg.
  - exact Hpg.
  - destruct r; exact Hpg.
  - unfold unmount, clearDebounceTimer.
    destruct (debounceTimer pg) as [id |] eqn:Hid; [| exact Hpg].
    unfold debounced. cbn [clearTimeout timers debounceTimer].
    now apply filter_debounced.
Qed.

Lemma handleSearchChange_frame (value : string) (pg : Page) :
  requested (handleSearchChange value pg) = requested pg /\
  inFlight (handleSearchChange value pg) = inFlight pg /\
  selectedStock (handleSearchChange value pg) = selectedStock pg /\
  App.searchTerm (app (handleSearchChange value pg)) = value.
Proof.
  unfold handleSearchChange, handleSearch, setDebounceTimer, clearDebounceTimer.
  set (pg1 := onApp _ (onApp _ pg)).
  destruct (debounceTimer pg1); now repeat split.
Qed.

(** A burst of keystrokes sends nothing. *)
Lemma typing_sends_nothing (engine : SortEngine) (values : list string)
    (pg : Page) :
  requested (runEvents engine (map Typed values) pg) = requested pg /\
  inFlight (runEvents engine (map Typed values) pg) = inFlight pg.
Proof.
  revert pg. induction values as [| v values IH]; intros pg; [now split |].
  cbn [map]. change (runEvents engine (Typed v :: map Typed values) pg)
    with (runEvents engine (map Typed values) (handleSearchChange v pg)).
  destruct (IH (handleSearchChange v pg)) as [-> ->].
  destruct (handleSearchChange_frame v pg) as (-> & -> & _). now split.
Qed.

Lemma runEvents_debounced (engine : SortEngine) (evs : list Event) (pg : Page) :
  debounced pg -> debounced (runEvents engine evs pg).
Proof.
  revert pg. induction evs as [| ev evs IH]; intros pg Hpg; [exact Hpg |].
  apply (IH (step engine ev pg)). now apply step_debounced.
Qed.

Lemma runEvents_app (engine : SortEngine) (evs evs' : list Event) (pg : Page) :
  runEvents engine (evs ++ evs') pg =
  runEvents engine evs' (runEvents engine evs pg).
Proof. apply fold_left_app. Qed.

(** With no timer set, firing does nothing. *)
Lemma firing_nothing (engine : SortEngine) (ids : list nat) (pg : Page) :
  timers pg = [] -> runEvents engine (map Fired ids) pg = pg.
Proof.
  intros Hnone. induction ids as [| id ids IH]; [reflexivity |].
  cbn [map]. change (runEvents engine (Fired id :: map Fired ids) pg)
    with (runEvents engine (map Fired ids) (fireTimer id pg)).
  unfold fireTimer. rewrite Hnone. exact IH.
Qed.

Lemma Array_sort_nonEmpty {A : Type} (engine : SortEngine)
    (comparefn : A -> A -> Z) (items : list A) :
  nonEmpty (Array_sort engine comparefn items) = nonEmpty items.
Proof.
  pose proof (Permutation_length
                (Array_sort_Permutation engine comparefn items)) as Hlen.
  destruct (Array_sort engine comparefn items), items; cbn in *;
    congruence.
Qed.

End SearchFacts.

Import SearchFacts.

(** X12: whatever is typed, selected or answered, and whenever timers fire,
    at most one debounce timer is set at any moment, and it is the one the
    reference [debounceTimer] holds. *)
Theorem debounce_keeps_one_timer
    (engine : SortEngine) (evs : list Search.Event) (pg : Search.Page) :
  Search.debounced pg ->
  Search.debounced (Search.runEvents engine evs pg).
Proof. apply runEvents_debounced. Qed.

Lemma debounce_keeps_one_timer_witness :
  Search.debounced
    (Search.runEvents PivotFirst
       [Search.Typed "a"; Search.Typed "aa"; Search.Fired 2;
        Search.Typed "aap"; Search.Answered 0 App.Failed;
        Search.Typed "aapl"]
       Search.mounted).
Proof.
  apply (debounce_keeps_one_timer PivotFirst
           [Search.Typed "a"; Search.Typed "aa"; Search.Fired 2;
            Search.Typed "aap"; Search.Answered 0 App.Failed;
            Search.Typed "aapl"]
           Search.mounted).
  split; [cbn; lia | intros t []].
Defined.

(** X13: a burst of keystrokes with no timer firing in between sends
    nothing and leaves one timer set, for the value typed last; when it
    fires, that value alone is sent to the search service, or nothing when
    it is empty. The values typed before it are never sent. *)
Theorem debounce_sends_last_value
    (engine : SortEngine) (earlier : list string) (value : string)
    (pg : Search.Page) :
  Search.debounced pg ->
  let typed :=
    Search.runEvents engine (map Search.Typed (earlier ++ [value])) pg in
  exists id,
    Search.timers typed =
      [ {| Search.timerId := id; Search.delay := 150;
           Search.query := value |} ] /\
    Search.debounceTimer typed = Some id /\
    App.searchTerm (Search.app typed) = value /\
    Search.requested typed = Search.requested pg /\
    Search.timers (Search.fireTimer id typed) = [] /\
    Search.requested (Search.fireTimer id typed) =
      Search.requested pg ++
      match value with
      | EmptyString => []
      | _ => [value]
      end.
Proof.
  intros Hpg typed. subst typed.
  rewrite map_app, runEvents_app. cbn [map].
  set (before := Search.runEvents engine (map Search.Typed earlier) pg).
  assert (Hbefore : Search.debounced before)
    by now apply runEvents_debounced.
  destruct (typing_sends_nothing engine earlier pg) as [Hreq _].
  fold before in Hreq.
  change (Search.runEvents engine [Search.Typed value] before)
    with (Search.handleSearchChange value before).
  destruct (handleSearchChange_timers value before Hbefore) as [Ht Hc].
  destruct (handleSearchChange_frame value before) as (Hr & _ & _ & Hterm).
  exists (Search.nextTimerId before).
  split; [exact Ht |]. split; [exact Hc |]. split; [exact Hterm |].
  split; [congruence |].
  unfold Search.fireTimer. rewrite Ht. cbn [find Search.timerId].
  rewrite Nat.eqb_refl. cbn [Search.query].
  destruct (fetchSuggestions_begin_timers value
              (Search.clearTimeout (Search.nextTimerId before)
                 (Search.handleSearchChange value before))) as [-> _].
  cbn [Search.clearTimeout Search.timers]. rewrite Ht.
  cbn [filter Search.timerId]. rewrite Nat.eqb_refl. cbn [negb].
  split; [reflexivity |].
  rewrite fetchSuggestions_begin_requested. cbn [Search.clearTimeout Search.requested].
  now rewrite Hr, Hreq.
Qed.

Lemma debounce_sends_last_value_witness :
  let typed :=
    Search.runEvents PivotFirst
      (map Search.Typed (["a"; "aa"; "aap"] ++ ["aapl"]))%string
      Search.mounted in
  exists id,
    Search.timers typed =
      [ {| Search.timerId := id; Search.delay := 150;
           Search.query := "aapl" |} ] /\
    Search.debounceTimer typed = Some id /\
    App.searchTerm (Search.app typed) = "aapl"%string /\
    Search.requested typed = [] /\
    Search.timers (Search.fireTimer id typed) = [] /\
    Search.requested (Search.fireTimer id typed) = ["aapl"%string].
Proof.
  apply (debounce_sends_last_value PivotFirst ["a"; "aa"; "aap"]%string
           "aapl" Search.mounted).
  split; [cbn; lia | intros t []].
Defined.

(** X14: once the component is unmounted no timer is left, so no search is
    sent afterwards, whichever timer identifiers the runtime tries to
    fire. *)
Theorem unmount_cancels_search
    (engine : SortEngine) (ids : list nat) (pg : Search.Page) :
  Search.debounced pg ->
  Search.timers (Search.unmount pg) = [] /\
  Search.runEvents engine (map Search.Fired ids) (Search.unmount pg) =
  Search.unmount pg /\
  Search.requested (Search.unmount pg) = Search.requested pg.
Proof.
  intros Hpg.
  assert (Hnone : Search.timers (Search.unmount pg) = [])
    by now apply clear_when_debounced.
  split; [exact Hnone |]. split; [now apply firing_nothing |].
  unfold Search.unmount, Search.clearDebounceTimer.
  now destruct (Search.debounceTimer pg).
Qed.

Lemma unmount_cancels_search_witness :
  let pg := Search.handleSearchChange "aapl" Search.mounted in
  Search.timers (Search.unmount pg) = [] /\
  Search.runEvents PivotFirst (map Search.Fired [1; 2; 3]) (Search.unmount pg)
  = Search.unmount pg /\
  Search.requested (Search.unmount pg) = Search.requested pg.
Proof.
  apply (unmount_cancels_search PivotFirst [1; 2; 3]
           (Search.handleSearchChange "aapl" Search.mounted)).
  apply (step_debounced PivotFirst (Search.Typed "aapl") Search.mounted).
  split; [cbn; lia | intros t []].
Defined.

Module PageFacts.

Import JS Search SearchFacts.

(** The two steps of [fetchSuggestions] make the function of [App]. *)
Lemma fetchSuggestions_in_two_steps (engine : SortEngine) (value : string)
    (r : App.SearchResponse) (pg : Page) :
  value <> EmptyString ->
  fetchSuggestions_settle engine value r
    (app (fetchSuggestions_begin value pg)) =
  App.fetchSuggestions engine value r (app pg).
Proof. destruct value; [congruence | reflexivity]. Qed.

Lemma fetchSuggestions_settle_loading (engine : SortEngine) (value : string)
    (r : App.SearchResponse) (st : App.State) :
  App.loading (fetchSuggestions_settle engine value r st) = false.
Proof. reflexivity. Qed.

Lemma only_timer (pg : Page) (t : Timer) :
  debounced pg -> In t (timers pg) -> timers pg = [t].
Proof.
  intros [Hlen _] Hin. destruct (timers pg) as [| t0 [| t1 ts]].
  - contradiction.
  - destruct Hin as [-> | []]. reflexivity.
  - cbn in Hlen. lia.
Qed.

Lemma fireTimer_only (pg : Page) (t : Timer) :
  timers pg = [t] ->
  fireTimer (timerId t) pg =
  fetchSuggestions_begin (query t) (clearTimeout (timerId t) pg).
Proof.
  intros Ht. unfold fireTimer. rewrite Ht. cbn [find].
  now rewrite Nat.eqb_refl.
Qed.

Lemma fetchSuggestions_begin_inFlight (value : string) (pg : Page) :
  value <> EmptyString ->
  inFlight (fetchSuggestions_begin value pg) = inFlight pg ++ [value].
Proof. destruct value; [congruence | reflexivity]. Qed.

Lemma nth_error_snoc {A : Type} (l : list A) (x : A) :
  nth_error (l ++ [x]) (List.length l) = Some x.
Proof. rewrite nth_error_app2 by lia. now rewrite Nat.sub_diag. Qed.

End PageFacts.

Import PageFacts.

(** X15: on the welcome screen (no stock selected), when the debounce timer
    fires with a non-empty value the page shows the spinner alone, with no
    search input and no dropdown, while the request is in flight; the answer
    to a request in flight, whatever it is, brings the search input
    back. *)
Theorem search_hides_the_input
    (engine : SortEngine) (pg : Search.Page) (t : Search.Timer) :
  Search.debounced pg ->
  Search.selectedStock pg = None ->
  In t (Search.timers pg) ->
  Search.query t <> EmptyString ->
  let fired := Search.fireTimer (Search.timerId t) pg in
  Search.spinner (Search.render fired) = true /\
  Search.welcome (Search.render fired) = false /\
  Search.searchInput (Search.render fired) = false /\
  Search.dropdown (Search.render fired) = false /\
  forall k r,
    k < List.length (Search.inFlight fired) ->
    Search.spinner (Search.render (Search.answerRequest engine k r fired))
    = false /\
    Search.searchInput (Search.render (Search.answerRequest engine k r fired))
    = true.
Proof.
  intros Hpg Hstock Hin Hquery fired.
  assert (Hfired : fired =
            Search.fetchSuggestions_begin (Search.query t)
              (Search.clearTimeout (Search.timerId t) pg)).
  { subst fired. apply fireTimer_only. now apply only_timer. }
  assert (Hview : Search.selectedStock fired = None /\
                  App.loading (Search.app fired) = true).
  { rewrite Hfired. destruct (Search.query t); [congruence |].
    cbn. now rewrite Hstock. }
  destruct Hview as [Hs Hl].
  unfold Search.render. rewrite Hs, Hl. cbn [Search.isSome negb andb orb].
  cbn [Search.spinner Search.welcome Search.searchInput Search.dropdown].
  repeat (split; [reflexivity |]).
  intros k r Hk. unfold Search.answerRequest.
  destruct (nth_error (Search.inFlight fired) k) as [value |] eqn:Hnth.
  - cbn. now rewrite Hs.
  - apply nth_error_None in Hnth. lia.
Qed.

Lemma search_hides_the_input_witness :
  let pg := Search.handleSearchChange "aapl" Search.mounted in
  let fired := Search.fireTimer 1 pg in
  Search.spinner (Search.render fired) = true /\
  Search.welcome (Search.render fired) = false /\
  Search.searchInput (Search.render fired) = false /\
  Search.dropdown (Search.render fired) = false /\
  forall k r,
    k < List.length (Search.inFlight fired) ->
    Search.spinner (Search.render (Search.answerRequest PivotFirst k r fired))
    = false /\
    Search.searchInput
      (Search.render (Search.answerRequest PivotFirst k r fired))
    = true.
Proof.
  apply (search_hides_the_input PivotFirst
           (Search.handleSearchChange "aapl" Search.mounted)
           {| Search.timerId := 1; Search.delay := 150;
              Search.query := "aapl" |}).
  - apply (step_debounced PivotFirst (Search.Typed "aapl") Search.mounted).
    split; [cbn; lia | intros t []].
  - reflexivity.
  - left. reflexivity.
  - discriminate.
Defined.

(** X16: selecting a stock does not cancel the debounce timer. When a value
    is typed and a stock is selected before the timer fires, the selection
    empties the search box and the suggestions, and the timer still fires:
    the value is sent, and an answer with suggestions opens the dropdown
    again over the selected stock, the search box being empty. *)
Theorem selection_keeps_the_pending_search
    (engine : SortEngine) (value : string) (stock : Search.StockData)
    (items : list App.StockSuggestion) (pg : Search.Page) :
  Search.debounced pg ->
  value <> EmptyString ->
  items <> [] ->
  let selected :=
    Search.fetchStockData_settle (Some stock)
      (Search.fetchStockData_begin (Search.handleSearchChange value pg)) in
  let id := Search.nextTimerId pg in
  let fired := Search.fireTimer id selected in
  let answered :=
    Search.answerRequest engine (List.length (Search.inFlight pg))
      (App.Body None (Some items)) fired in
  Search.timers selected =
    [ {| Search.timerId := id; Search.delay := 150; Search.query := value |} ] /\
  App.searchTerm (Search.app selected) = EmptyString /\
  App.suggestions (Search.app selected) = [] /\
  Search.requested fired = Search.requested pg ++ [value] /\
  Search.selectedStock answered = Some stock /\
  App.searchTerm (Search.app answered) = EmptyString /\
  Permutation (App.suggestions (Search.app answered)) items /\
  Search.dropdown (Search.render answered) = true.
Proof.
  intros Hpg Hvalue Hitems selected id fired answered.
  destruct (handleSearchChange_timers value pg Hpg) as [Ht _].
  destruct (handleSearchChange_frame value pg) as (Hreq & Hfl & _ & _).
  assert (Hsel : Search.timers selected =
            [ {| Search.timerId := id; Search.delay := 150;
                 Search.query := value |} ]) by exact Ht.
  assert (Hfired : fired =
            Search.fetchSuggestions_begin value
              (Search.clearTimeout id selected)).
  { subst fired.
    exact (fireTimer_only selected
             {| Search.timerId := id; Search.delay := 150;
                Search.query := value |} Hsel). }
  split; [exact Hsel |]. split; [reflexivity |]. split; [reflexivity |].
  assert (Hreq' : Search.requested (Search.clearTimeout id selected) =
                  Search.requested pg) by (rewrite <- Hreq; reflexivity).
  assert (Hfl' : Search.inFlight (Search.clearTimeout id selected) =
                 Search.inFlight pg) by (rewrite <- Hfl; reflexivity).
  split.
  { rewrite Hfired, fetchSuggestions_begin_requested, Hreq'.
    destruct value; [congruence | reflexivity]. }
  assert (Hnth : nth_error (Search.inFlight fired)
                   (List.length (Search.inFlight pg)) = Some value).
  { rewrite Hfired, (fetchSuggestions_begin_inFlight value _ Hvalue), Hfl'.
    apply nth_error_snoc. }
  subst answered. unfold Search.answerRequest. rewrite Hnth.
  assert (Hsugg :
    App.suggestions
      (Search.fetchSuggestions_settle engine value
         (App.Body None (Some items)) (Search.app fired)) =
    Array_sort engine (App.compareSuggestions value) items) by reflexivity.
  unfold Search.render.
  cbn [Search.app Search.selectedStock Search.dropdown].
  rewrite Hsugg, Array_sort_nonEmpty.
  assert (Hstock : Search.selectedStock fired = Some stock).
  { rewrite Hfired. now destruct value. }
  assert (Hterm : App.searchTerm (Search.app fired) = EmptyString).
  { rewrite Hfired. now destruct value. }
  rewrite Hstock. cbn [Search.isSome negb andb orb].
  split; [reflexivity |]. split; [exact Hterm |].
  split; [apply PermutationFacts.Array_sort_Permutation |].
  now destruct items.
Qed.

Lemma selection_keeps_the_pending_search_witness :
  let stock :=
    {| Search.symbol := "MSFT"; Search.name := "Microsoft Corporation";
       Search.price := 410; Search.change := 1; Search.volume := 1000;
       Search.market_cap := 3000000; Search.currency := "USD" |} in
  let selected :=
    Search.fetchStockData_settle (Some stock)
      (Search.fetchStockData_begin
         (Search.handleSearchChange "aapl" Search.mounted)) in
  let fired := Search.fireTimer 1 selected in
  let answered :=
    Search.answerRequest PivotFirst 0
      (App.Body None (Some [Examples.appleWarrant; Examples.apple])) fired in
  Search.timers selected =
    [ {| Search.timerId := 1; Search.delay := 150;
         Search.query := "aapl" |} ] /\
  App.searchTerm (Search.app selected) = EmptyString /\
  App.suggestions (Search.app selected) = [] /\
  Search.requested fired = [] ++ ["aapl"%string] /\
  Search.selectedStock answered = Some stock /\
  App.searchTerm (Search.app answered) = EmptyString /\
  Permutation (App.suggestions (Search.app answered))
    [Examples.appleWarrant; Examples.apple] /\
  Search.dropdown (Search.render answered) = true.
Proof.
  apply (selection_keeps_the_pending_search PivotFirst "aapl"
           {| Search.symbol := "MSFT"; Search.name := "Microsoft Corporation";
              Search.price := 410; Search.change := 1; Search.volume := 1000;
              Search.market_cap := 3000000; Search.currency := "USD" |}
           [Examples.appleWarrant; Examples.apple] Search.mounted).
  - split; [cbn; lia | intros t []].
  - discriminate.
  - discriminate.
Defined.

(* ================================================================== *)
(** ** The chart panel, the news list and the ticks *)

Module PanelFacts.

Import JS StockNews Panels.

Lemma orElse_truthy (a b : string) :
  truthyText (Some b) = true -> truthyText (Some (orElse a b)) = true.
Proof. now destruct a. Qed.

Lemma chart_hidden_by_error (st : State) :
  truthyText (error st) = true ->
  chart (chartPanel st) = false /\ noData (chartPanel st) = false /\
  errorText (chartPanel st) = error st.
Proof. unfold chartPanel. intros ->. now repeat split. Qed.

Lemma mapThrowing_nth {A B : Type} (f : A -> option B) (l : list A)
    (ys : list B) (i : nat) (x : A) :
  mapThrowing f l = Some ys -> nth_error l i = Some x ->
  nth_error ys i = f x.
Proof.
  revert ys i. induction l as [| a l IH]; intros ys i; cbn [mapThrowing].
  - intros _. now destruct i.
  - destruct (f a) as [b |] eqn:Hfa; [| discriminate].
    destruct (mapThrowing f l) as [ys' |]; [| discriminate].
    intros [= <-]. destruct i as [| i]; cbn [nth_error].
    + now intros [= <-].
    + now apply IH.
Qed.

End PanelFacts.

Import PanelFacts.

(** X17: a failure of the news request with a non-empty message takes the
    chart away: the panel shows the message, neither the chart nor the text
    "No historical data available", and a history answer that arrives
    afterwards does not bring the chart back, whatever history it
    carries. *)
Theorem news_failure_hides_the_chart
    (st : StockNews.State) (r : StockNews.Settled (option (list NewsItem))) :
  match r with
  | Accepted _ => False
  | Refused _ => True
  | Threw None => True
  | Threw (Some message) => message <> EmptyString
  end ->
  let failed := fetchNews_settle r st in
  Panels.truthyText (StockNews.error failed) = true /\
  Panels.errorText (Panels.chartPanel failed) = StockNews.error failed /\
  Panels.chart (Panels.chartPanel failed) = false /\
  Panels.noData (Panels.chartPanel failed) = false /\
  forall history,
    Panels.chart
      (Panels.chartPanel
         (fetchHistoricalData_settle (Accepted (Some history)) failed))
    = false.
Proof.
  intros Hr failed.
  assert (Herr : Panels.truthyText (StockNews.error failed) = true).
  { subst failed. destruct r as [body | statusText | [message |]];
      [contradiction | | |].
    - cbn. now apply orElse_truthy.
    - cbn. now destruct message.
    - reflexivity. }
  split; [exact Herr |].
  destruct (chart_hidden_by_error failed Herr) as (Hc & Hn & He).
  repeat (split; [assumption |]).
  intros history.
  apply (chart_hidden_by_error
           (fetchHistoricalData_settle (Accepted (Some history)) failed)).
  exact Herr.
Qed.

Lemma news_failure_hides_the_chart_witness :
  let failed :=
    fetchNews_settle (Refused "Service Unavailable") Examples.loaded in
  Panels.truthyText (StockNews.error failed) = true /\
  Panels.errorText (Panels.chartPanel failed) = StockNews.error failed /\
  Panels.chart (Panels.chartPanel failed) = false /\
  Panels.noData (Panels.chartPanel failed) = false /\
  forall history,
    Panels.chart
      (Panels.chartPanel
         (fetchHistoricalData_settle (Accepted (Some history)) failed))
    = false.
Proof.
  exact (news_failure_hides_the_chart Examples.loaded
           (Refused "Service Unavailable") I).
Defined.

(** X18: when the three requests of a symbol have started on a component
    with no history yet and the prediction request settles first, in
    whatever way, the loading text goes away and the panel says "No
    historical data available" although the history request is still
    pending. *)
Theorem prediction_answer_ends_the_loading
    (symbol : string) (st : StockNews.State)
    (r : StockNews.Settled PredictionData) :
  symbol <> EmptyString ->
  historyData st = [] ->
  let started := Panels.mountFetches symbol st in
  let settled := fetchPredictions_settle r started in
  Panels.loadingText (Panels.chartPanel started) = true /\
  Panels.noData (Panels.chartPanel started) = false /\
  Panels.loadingText (Panels.chartPanel settled) = false /\
  Panels.noData (Panels.chartPanel settled) = true.
Proof.
  intros Hsymbol Hhistory started settled.
  destruct symbol as [| c symbol']; [congruence |].
  subst settled started. unfold Panels.chartPanel, Panels.mountFetches.
  destruct r as [body | reason | err]; cbn; rewrite Hhistory; now repeat split.
Qed.

Lemma prediction_answer_ends_the_loading_witness :
  let started := Panels.mountFetches "AAPL" Examples.idle in
  let settled := fetchPredictions_settle (Accepted Examples.forecast) started in
  Panels.loadingText (Panels.chartPanel started) = true /\
  Panels.noData (Panels.chartPanel started) = false /\
  Panels.loadingText (Panels.chartPanel settled) = false /\
  Panels.noData (Panels.chartPanel settled) = true.
Proof.
  exact (prediction_answer_ends_the_loading "AAPL" Examples.idle
           (Accepted Examples.forecast) ltac:(discriminate) eq_refl).
Defined.

(** X19: the news list shown is a prefix of the news, of three items at
    most while collapsed, and whenever it hides an item the news has more
    than three items, the condition under which the first version of the
    component offers its toggle button. *)
Theorem displayed_news_is_a_prefix (showAllNews : bool) (news : list NewsItem) :
  (exists hidden, news = Panels.displayedNews showAllNews news ++ hidden) /\
  (showAllNews = false ->
   List.length (Panels.displayedNews showAllNews news)
   = Nat.min 3 (List.length news)) /\
  (Panels.displayedNews showAllNews news <> news ->
   Panels.showsToggle news = true).
Proof.
  unfold Panels.displayedNews, Panels.showsToggle. split; [| split].
  - destruct showAllNews.
    + exists []. now rewrite app_nil_r.
    + exists (skipn 3 news). now rewrite firstn_skipn.
  - intros ->. apply length_firstn.
  - destruct showAllNews; [congruence |]. intros Hhidden.
    apply Nat.ltb_lt.
    destruct (Nat.le_gt_cases (List.length news) 3) as [Hle | Hgt];
      [| exact Hgt].
    contradiction Hhidden. now apply firstn_all2.
Qed.

(** X20: the tick callback reads the whole history and the labels read the
    filtered one. When the window drops the first [k] history points, the
    label at position [i] is the formatted day of history point [k + i],
    while the tick the callback returns for index [i] is the month of
    history point [i]; and past the history and the predicted dates the
    callback returns the empty string. *)
Theorem ticks_read_the_unfiltered_history {library : DateLibrary}
    (format_MMM_yyyy : Z -> string) (parseISO : string -> option Z)
    (now : Z) (st : StockNews.State) (k i : nat) (chart : ChartData)
    (first shown : StockHistoryData) :
  getFilteredHistoryData now now st = skipn k (historyData st) ->
  getChartData now now st = Some chart ->
  nth_error (historyData st) i = Some first ->
  nth_error (historyData st) (k + i) = Some shown ->
  nth_error (labels chart) i = format (newDate (date shown)) /\
  Panels.xTick format_MMM_yyyy parseISO i st =
    option_map format_MMM_yyyy (newDate (date first)) /\
  forall index,
    List.length (historyData st)
    + match predictionData st with
      | Some p => List.length (dates p)
      | None => 0
      end <= index ->
    Panels.xTick format_MMM_yyyy parseISO index st = Some EmptyString.
Proof.
  intros Hfiltered Hchart Hfirst Hshown. split; [| split].
  - unfold getChartData in Hchart. rewrite Hfiltered in Hchart.
    destruct (mapThrowing _ (skipn k (historyData st))) as [formatted |] eqn:Hmap;
      [| discriminate].
    injection Hchart as <-. cbn [labels].
    assert (Hnth : nth_error (skipn k (historyData st)) i = Some shown)
      by now rewrite nth_error_skipn.
    pose proof (mapThrowing_nth _ _ _ i shown Hmap Hnth) as Hlabel.
    pose proof (mapThrowing_length _ _ _ Hmap) as Hlen.
    assert (Hi : i < List.length formatted)
      by (rewrite Hlen; apply nth_error_Some; congruence).
    rewrite nth_error_app1 by exact Hi. exact Hlabel.
  - unfold Panels.xTick.
    assert (Hlt : (i <? List.length (historyData st))%nat = true).
    { apply Nat.ltb_lt, nth_error_Some. congruence. }
    now rewrite Hlt, Hfirst.
  - intros index Hindex. unfold Panels.xTick.
    assert (Hge : (index <? List.length (historyData st))%nat = false)
      by (apply Nat.ltb_ge; lia).
    rewrite Hge. destruct (predictionData st) as [p |]; [| reflexivity].
    assert (Hnone : nth_error (dates p)
                      (index - List.length (historyData st)) = None)
      by (apply nth_error_None; lia).
    now rewrite Hnone.
Qed.

(** On the last year of the example the first label is 15 January 2024 and
    the first tick March 2014. *)
Lemma ticks_read_the_unfiltered_history_witness :
  exists chart,
    getChartData (library := UtcDates.library)
      Examples.noon Examples.noon Examples.loadedLastYear = Some chart /\
    nth_error (labels chart) 0 = Some "Jan 15, 2024"%string /\
    Panels.xTick (library := UtcDates.library)
      UtcTicks.formatMonth UtcTicks.parseISO 0 Examples.loadedLastYear
    = Some "Mar 2014"%string /\
    forall index,
      4 + 2 <= index ->
      Panels.xTick (library := UtcDates.library)
        UtcTicks.formatMonth UtcTicks.parseISO index Examples.loadedLastYear
      = Some EmptyString.
Proof.
  destruct (getChartData (library := UtcDates.library)
              Examples.noon Examples.noon Examples.loadedLastYear)
    as [chart |] eqn:Hchart; [| vm_compute in Hchart; discriminate].
  exists chart. split; [reflexivity |].
  assert (Hfiltered :
    getFilteredHistoryData (library := UtcDates.library)
      Examples.noon Examples.noon Examples.loadedLastYear =
    skipn 2 (historyData Examples.loadedLastYear)) by (vm_compute; reflexivity).
  destruct (ticks_read_the_unfiltered_history (library := UtcDates.library)
              UtcTicks.formatMonth UtcTicks.parseISO
              Examples.noon Examples.loadedLastYear 2 0 chart
              (Examples.day "2014-03-03" 75) (Examples.day "2024-01-15" 185)
              Hfiltered Hchart eq_refl eq_refl)
    as (Hlabel & Htick & Hpast).
  split; [| split].
  - rewrite Hlabel. vm_compute. reflexivity.
  - rewrite Htick. vm_compute. reflexivity.
  - exact Hpast.
Defined.

(* ================================================================== *)
(** ** The direction of a pinch *)

(** X21: in a gesture under way, a two-point move whose distance is below
    the reference never narrows the window and one whose distance is not
    below it never widens it; a move across the threshold leaves the zoom
    level where it is only at the end of the scale it pushes against (the
    whole history for a pinch in, the last year for a pinch out). *)
Theorem pinch_direction
    (st : StockNews.State) (e : TouchEvent) (t0 t1 : Touch) (d : number) :
  isZooming st = true ->
  touchStartDistance st = Some d ->
  truthy d = true ->
  touches e = [t0; t1] ->
  let delta := (touchDistance t0 t1 - d)%float in
  let st' := handleTouchMove e st in
  ((delta <? 0)%float = true ->
   (zoomIndex (zoomLevel st') <= zoomIndex (zoomLevel st))%Z) /\
  ((delta <? 0)%float = false ->
   (zoomIndex (zoomLevel st) <= zoomIndex (zoomLevel st'))%Z) /\
  ((ZOOM_SENSITIVITY <? Math_abs delta)%float = true ->
   zoomLevel st' = zoomLevel st ->
   zoomLevel st = (if (delta <? 0)%float then zoom_all else zoom_1y)).
Proof.
  intros Hz Hd Ht He delta st'.
  assert (Hst' : st' =
    if (50 <? abs delta)%float then
      setTouchStartDistance (Some (touchDistance t0 t1))
        (setZoomLevel (if (delta <? 0)%float then pinchIn else pinchOut) st)
    else st).
  { subst st' delta.
    now rewrite (handleTouchMove_active st e t0 t1 d Hz Hd Ht He). }
  unfold ZOOM_SENSITIVITY, Math_abs. rewrite Hst'.
  destruct (50 <? abs delta)%float; destruct (delta <? 0)%float;
    cbn [zoomLevel setTouchStartDistance setZoomLevel];
    destruct (zoomLevel st); cbn;
    (split; [| split]); try discriminate; try reflexivity;
    intros; try discriminate; try reflexivity; try lia.
Qed.

Lemma pinch_direction_witness :
  let st := Examples.pinching in
  let e := Examples.fingers 30 in
  let delta := (30 - 100)%float in
  let st' := handleTouchMove e st in
  ((delta <? 0)%float = true ->
   (zoomIndex (zoomLevel st') <= zoomIndex (zoomLevel st))%Z) /\
  ((delta <? 0)%float = false ->
   (zoomIndex (zoomLevel st) <= zoomIndex (zoomLevel st'))%Z) /\
  ((ZOOM_SENSITIVITY <? Math_abs delta)%float = true ->
   zoomLevel st' = zoomLevel st ->
   zoomLevel st = (if (delta <? 0)%float then zoom_all else zoom_1y)).
Proof.
  exact (pinch_direction Examples.pinching (Examples.fingers 30)
           {| clientX := 120; clientY := 300 |}
           {| clientX := 120; clientY := 300 + 30 |}
           100%float eq_refl eq_refl eq_refl eq_refl).
Defined.

(* ================================================================== *)
(** ** What the page sends to the search service *)

Module RequestFacts.

Import JS Search SearchSpec SearchFacts.

Lemma fromValues_weaken (values values' : list string) (pg : Page) :
  incl values values' -> fromValues values pg -> fromValues values' pg.
Proof.
  intros Hincl [Ht Hq]. split.
  - intros t Hin. now apply Hincl, Ht.
  - intros q Hin. destruct (Hq q Hin). split; [now apply Hincl | assumption].
Qed.

Lemma step_fromValues (engine : SortEngine) (ev : Event) (values : list string)
    (pg : Page) :
  fromValues values pg ->
  fromValues (values ++ typedValues [ev]) (step engine ev pg).
Proof.
  intros Hpg.
  assert (Hweak : fromValues (values ++ typedValues [ev]) pg)
    by (apply (fromValues_weaken values); [apply incl_appl, incl_refl | exact Hpg]).
  destruct Hweak as [Ht Hq].
  destruct ev as [value | id | k r | sym | r |]; cbn [step].
  - unfold handleSearchChange, handleSearch, setDebounceTimer. split.
    + cbn [timers]. intros t Hin. apply in_app_or in Hin.
      destruct Hin as [Hin | [<- | []]].
      * apply Ht. unfold clearDebounceTimer in Hin.
        destruct (debounceTimer _); [| exact Hin].
        cbn in Hin. now apply filter_In in Hin.
      * cbn. apply in_or_app. right. now left.
    + cbn [requested]. intros q Hin. apply Hq.
      unfold clearDebounceTimer in Hin.
      destruct (debounceTimer _); exact Hin.
  - unfold fireTimer.
    destruct (find _ (timers pg)) as [t |] eqn:Hfind; [| now split].
    apply find_some in Hfind. destruct Hfind as [Hin _].
    split.
    + destruct (fetchSuggestions_begin_timers (query t) (clearTimeout id pg))
        as [-> _].
      cbn. intros t' Hin'. apply filter_In in Hin'. now apply Ht.
    + rewrite fetchSuggestions_begin_requested. cbn [clearTimeout requested].
      intros q Hq'. apply in_app_or in Hq'. destruct Hq' as [Hq' | Hq'].
      * now apply Hq.
      * destruct (query t) eqn:Hquery; [contradiction |].
        destruct Hq' as [<- | []]. split; [| discriminate].
        rewrite <- Hquery. now apply Ht.
  - unfold answerRequest.
    destruct (nth_error (inFlight pg) k); now split.
  - now split.
  - destruct r; now split.
  - unfold unmount, clearDebounceTimer.
    destruct (debounceTimer pg); [| now split]. split.
    + cbn. intros t Hin. apply filter_In in Hin. now apply Ht.
    + exact Hq.
Qed.

Lemma typedValues_app (evs evs' : list Event) :
  typedValues (evs ++ evs') = typedValues evs ++ typedValues evs'.
Proof.
  induction evs as [| ev evs IH]; [reflexivity |].
  destruct ev; cbn; now rewrite ?IH.
Qed.

Lemma runEvents_fromValues (engine : SortEngine) (evs : list Event)
    (values : list string) (pg : Page) :
  fromValues values pg ->
  fromValues (values ++ typedValues evs) (runEvents engine evs pg).
Proof.
  revert values pg. induction evs as [| ev evs IH]; intros values pg Hpg.
  - cbn. now rewrite app_nil_r.
  - change (ev :: evs) with ([ev] ++ evs).
    rewrite typedValues_app, app_assoc.
    change (runEvents engine ([ev] ++ evs) pg)
      with (runEvents engine evs (step engine ev pg)).
    apply IH. now apply step_fromValues.
Qed.

(** Each keystroke sets one timer, and only a timer sends a query. *)
Lemma step_counts (engine : SortEngine) (ev : Event) (pg : Page) :
  List.length (requested (step engine ev pg))
  + List.length (timers (step engine ev pg))
  <= List.length (requested pg) + List.length (timers pg)
     + List.length (typedValues [ev]).
Proof.
  destruct ev as [value | id | k r | sym | r |]; cbn [step typedValues List.length].
  - destruct (handleSearchChange_frame value pg) as (-> & _).
    unfold handleSearchChange, handleSearch, setDebounceTimer. cbn [timers].
    rewrite length_app. cbn [List.length].
    unfold clearDebounceTimer. destruct (debounceTimer _); cbn [timers clearTimeout onApp].
    + pose proof (filter_length_le
                    (fun t => negb (timerId t =? n)%nat) (timers pg)). lia.
    + lia.
  - unfold fireTimer.
    destruct (find _ (timers pg)) as [t |] eqn:Hfind; [| lia].
    rewrite fetchSuggestions_begin_requested.
    destruct (fetchSuggestions_begin_timers (query t) (clearTimeout id pg))
      as [-> _].
    cbn [clearTimeout requested timers]. rewrite length_app.
    apply find_some in Hfind. destruct Hfind as [Hin Hid].
    assert (Hless : List.length
                      (filter (fun t => negb (timerId t =? id)%nat) (timers pg))
                    < List.length (timers pg)).
    { clear - Hin Hid. induction (timers pg) as [| t' ts IH]; [contradiction |].
      cbn [filter]. destruct Hin as [-> | Hin].
      - rewrite Hid. cbn [negb].
        pose proof (filter_length_le
                      (fun t => negb (timerId t =? id)%nat) ts).
        cbn [List.length]. lia.
      - specialize (IH Hin).
        destruct (negb (timerId t' =? id)%nat); cbn [List.length]; lia. }
    destruct (query t); cbn [List.length]; lia.
  - unfold answerRequest. destruct (nth_error (inFlight pg) k); cbn; lia.
  - cbn. lia.
  - destruct r; cbn; lia.
  - unfold unmount, clearDebounceTimer.
    destruct (debounceTimer pg); cbn [timers clearTimeout requested]; [| lia].
    pose proof (filter_length_le
                  (fun t => negb (timerId t =? n)%nat) (timers pg)). lia.
Qed.

Lemma runEvents_counts (engine : SortEngine) (evs : list Event) (pg : Page) :
  List.length (requested (runEvents engine evs pg))
  + List.length (timers (runEvents engine evs pg))
  <= List.length (requested pg) + List.length (timers pg)
     + List.length (typedValues evs).
Proof.
  revert pg. induction evs as [| ev evs IH]; intros pg; [cbn; lia |].
  change (runEvents engine (ev :: evs) pg)
    with (runEvents engine evs (step engine ev pg)).
  specialize (IH (step engine ev pg)).
  pose proof (step_counts engine ev pg) as Hstep.
  change (ev :: evs) with ([ev] ++ evs).
  rewrite typedValues_app, length_app. lia.
Qed.

End RequestFacts.

Import RequestFacts.

(** X22: from the page as mounted, whatever the events, every query sent to
    the search service is a non-empty value the user typed, and there are no
    more queries sent than keystrokes. *)
Theorem search_sends_typed_values
    (engine : SortEngine) (evs : list Search.Event) :
  let pg := Search.runEvents engine evs Search.mounted in
  (forall q, In q (Search.requested pg) ->
     In q (SearchSpec.typedValues evs) /\ q <> EmptyString) /\
  List.length (Search.requested pg)
  <= List.length (SearchSpec.typedValues evs).
Proof.
  intros pg. subst pg. split.
  - apply (runEvents_fromValues engine evs [] Search.mounted).
    split; intros ? [].
  - pose proof (runEvents_counts engine evs Search.mounted) as H.
    cbn [Search.mounted Search.requested Search.timers List.length] in H.
    lia.
Qed.
